(** * StreamCrawler: the embed-reference protocol client

    A shallow embedding of the protocol code of [StreamCrawler/scraper.py]
    and [StreamCrawler/test_fetch.py]: the hand-built length-delimited
    request body, the embed URL parser, the token exchange and the
    playlist URL that is assembled from its result.

    Python values are modelled as the interpreter has them: a [str] is a
    sequence of Unicode code points, a [bytes] object a sequence of
    integers in [0, 256), an exception is an explicit result. *)

From Stdlib Require Import ZArith List String Ascii Bool Lia DecimalString
  Permutation.
Import ListNotations.
Local Open Scope Z_scope.

(** ** The Python runtime the code relies on *)

Module Py.

(** A [str] is a sequence of code points, a [bytes] a sequence of
    octets.  Both are lists of integers; [is_bytes] says which lists
    are [bytes] objects. *)
Definition str := list Z.
Definition bytes := list Z.

Definition is_octet (b : Z) : bool := (0 <=? b) && (b <? 256).
Definition is_bytes (b : bytes) : bool := forallb is_octet b.

Definition ord (a : ascii) : Z := Z.of_N (N_of_ascii a).

(** A string literal of the source. *)
Definition lit (s : string) : str := map ord (list_ascii_of_string s).

(** The exceptions the modelled code can raise. *)
Inductive exn : Type :=
| ValueError          (* bytes must be in range(0, 256) *)
| UnicodeEncodeError  (* surrogates not allowed *)
| UnicodeDecodeError
| RequestException (text : str).

Inductive res (A : Type) : Type :=
| Ok (a : A)
| Raise (e : exn).
Arguments Ok {A} a.
Arguments Raise {A} e.

Definition bind {A B : Type} (m : res A) (k : A -> res B) : res B :=
  match m with
  | Ok a => k a
  | Raise e => Raise e
  end.

Definition raises {A : Type} (m : res A) : bool :=
  match m with Ok _ => false | Raise _ => true end.

(** [bytes(iterable_of_ints)] *)
Definition bytes_of_ints (l : list Z) : res bytes :=
  if forallb is_octet l then Ok l else Raise ValueError.

Definition len {A : Type} (l : list A) : Z := Z.of_nat (List.length l).

(** *** [str.encode('utf-8')] *)

Definition is_surrogate (c : Z) : bool := (0xD800 <=? c) && (c <? 0xE000).

Definition utf8_encode_char (c : Z) : res bytes :=
  if (0 <=? c) && (c <? 0x80) then
    Ok [c]
  else if (0x80 <=? c) && (c <? 0x800) then
    Ok [Z.lor 0xC0 (Z.shiftr c 6);
        Z.lor 0x80 (Z.land c 0x3F)]
  else if (0x800 <=? c) && (c <? 0x10000) then
    if is_surrogate c then Raise UnicodeEncodeError
    else
      Ok [Z.lor 0xE0 (Z.shiftr c 12);
          Z.lor 0x80 (Z.land (Z.shiftr c 6) 0x3F);
          Z.lor 0x80 (Z.land c 0x3F)]
  else if (0x10000 <=? c) && (c <? 0x110000) then
    Ok [Z.lor 0xF0 (Z.shiftr c 18);
        Z.lor 0x80 (Z.land (Z.shiftr c 12) 0x3F);
        Z.lor 0x80 (Z.land (Z.shiftr c 6) 0x3F);
        Z.lor 0x80 (Z.land c 0x3F)]
  else Raise UnicodeEncodeError.

Fixpoint encode_utf8 (s : str) : res bytes :=
  match s with
  | [] => Ok []
  | c :: s' =>
      bind (utf8_encode_char c) (fun b =>
      bind (encode_utf8 s') (fun r => Ok (b ++ r)))
  end.

(** The four forms of an encoded code point, with the bytes written
    as quotients and remainders. *)
Inductive utf8_form (c : Z) : bytes -> Prop :=
| Form1 : 0 <= c < 0x80 -> utf8_form c [c]
| Form2 : 0x80 <= c < 0x800 ->
    utf8_form c [0xC0 + c / 64; 0x80 + c mod 64]
| Form3 : 0x800 <= c < 0x10000 -> ~ (0xD800 <= c < 0xE000) ->
    utf8_form c [0xE0 + c / 4096; 0x80 + (c / 64) mod 64; 0x80 + c mod 64]
| Form4 : 0x10000 <= c < 0x110000 ->
    utf8_form c [0xF0 + c / 262144; 0x80 + (c / 4096) mod 64;
                 0x80 + (c / 64) mod 64; 0x80 + c mod 64].

(** *** [bytes.decode('utf-8', errors=...)]

    The decoder of CPython: a sequence is accepted when it is one of
    the well-formed byte sequences of the Unicode standard; at an
    ill-formed one the handler [Strict] raises and the handler
    [Replace] emits U+FFFD for the maximal ill-formed prefix and
    resumes behind it. *)

Inductive error_handler : Type := Strict | Replace.

Definition is_cont (b : Z) : bool := (0x80 <=? b) && (b <? 0xC0).

Definition second3_ok (b0 b1 : Z) : bool :=
  is_cont b1 && negb (if b1 <? 0xA0 then b0 =? 0xE0 else b0 =? 0xED).

Definition second4_ok (b0 b1 : Z) : bool :=
  is_cont b1 && negb (if b1 <? 0x90 then b0 =? 0xF0 else b0 =? 0xF4).

Definition cp2 (b0 b1 : Z) : Z :=
  Z.lor (Z.shiftl (Z.land b0 0x1F) 6) (Z.land b1 0x3F).

Definition cp3 (b0 b1 b2 : Z) : Z :=
  Z.lor (Z.lor (Z.shiftl (Z.land b0 0x0F) 12)
               (Z.shiftl (Z.land b1 0x3F) 6))
        (Z.land b2 0x3F).

Definition cp4 (b0 b1 b2 b3 : Z) : Z :=
  Z.lor (Z.lor (Z.lor (Z.shiftl (Z.land b0 0x07) 18)
                      (Z.shiftl (Z.land b1 0x3F) 12))
               (Z.shiftl (Z.land b2 0x3F) 6))
        (Z.land b3 0x3F).

Definition emit (c : Z) (rest : res str) : res str :=
  bind rest (fun r => Ok (c :: r)).

Definition invalid (h : error_handler) (rest : res str) : res str :=
  match h with
  | Strict => Raise UnicodeDecodeError
  | Replace => emit 0xFFFD rest
  end.

Fixpoint decode_utf8 (h : error_handler) (b : bytes) : res str :=
  match b with
  | [] => Ok []
  | b0 :: r0 =>
      if b0 <? 0x80 then emit b0 (decode_utf8 h r0)
      else if b0 <? 0xC2 then invalid h (decode_utf8 h r0)
      else if b0 <? 0xE0 then
        match r0 with
        | [] => invalid h (Ok [])
        | b1 :: r1 =>
            if is_cont b1 then emit (cp2 b0 b1) (decode_utf8 h r1)
            else invalid h (decode_utf8 h r0)
        end
      else if b0 <? 0xF0 then
        match r0 with
        | [] => invalid h (Ok [])
        | b1 :: r1 =>
            if second3_ok b0 b1 then
              match r1 with
              | [] => invalid h (Ok [])
              | b2 :: r2 =>
                  if is_cont b2 then emit (cp3 b0 b1 b2) (decode_utf8 h r2)
                  else invalid h (decode_utf8 h r1)
              end
            else invalid h (decode_utf8 h r0)
        end
      else if b0 <? 0xF5 then
        match r0 with
        | [] => invalid h (Ok [])
        | b1 :: r1 =>
            if second4_ok b0 b1 then
              match r1 with
              | [] => invalid h (Ok [])
              | b2 :: r2 =>
                  if is_cont b2 then
                    match r2 with
                    | [] => invalid h (Ok [])
                    | b3 :: r3 =>
                        if is_cont b3 then
                          emit (cp4 b0 b1 b2 b3) (decode_utf8 h r3)
                        else invalid h (decode_utf8 h r2)
                    end
                  else invalid h (decode_utf8 h r1)
              end
            else invalid h (decode_utf8 h r0)
        end
      else invalid h (decode_utf8 h r0)
  end.

(** *** The regular expressions of module [re]

    The patterns of the source are sequences of literal characters,
    an optional character, greedy [+] repetitions of a character
    class (captured or not) and the anchor [$].  [match_here] is the
    backtracking matcher at one position: a greedy repetition takes
    as many characters as it can and gives them back one at a time
    while the rest of the pattern fails. *)

(** Zero digits of the runs of ten decimal digits of general category
    Nd (Unicode 14.0), which is what [\d] matches in a [str]
    pattern; U+1D7CE starts five consecutive runs. *)
Definition Nd_zeros : list Z :=
  [48; 1632; 1776; 1984; 2406; 2534; 2662; 2790; 2918; 3046; 3174;
   3302; 3430; 3558; 3664; 3792; 3872; 4160; 4240; 6112; 6160; 6470;
   6608; 6784; 6800; 6992; 7088; 7232; 7248; 42528; 43216; 43264;
   43472; 43504; 43600; 44016; 65296; 66720; 68912; 69734; 69872;
   69942; 70096; 70384; 70736; 70864; 71248; 71360; 71472; 71904;
   72016; 72784; 73040; 73120; 92768; 92864; 93008;
   120782; 120792; 120802; 120812; 120822;
   123200; 123632; 125264; 130032].

Definition is_decimal (c : Z) : bool :=
  existsb (fun z => (z <=? c) && (c <? z + 10)) Nd_zeros.

Inductive cclass : Type :=
| AnyChar               (* .    : anything but a line feed *)
| NotChar (c : Z)       (* [^c] *)
| Digit.                (* \d   *)

Definition in_class (cl : cclass) (c : Z) : bool :=
  match cl with
  | AnyChar => negb (c =? 10)
  | NotChar x => negb (c =? x)
  | Digit => is_decimal c
  end.

Inductive node : Type :=
| Char (c : Z)          (* c      *)
| Maybe (c : Z)         (* c?     *)
| Plus (cl : cclass)    (* cl+    *)
| CapPlus (cl : cclass) (* (cl+)  *)
| EndOfString.          (* $      *)

Definition regex := list node.

Definition chars (s : string) : regex := map Char (lit s).

(** A match: the text of group 0 and the texts of the capturing
    groups, in order. *)
Definition match_obj : Type := str * list str.

Definition group0 (m : match_obj) : str := fst m.
Definition group (n : nat) (m : match_obj) : str := nth (pred n) (snd m) [].

Definition prepend (w : str) (m : match_obj) : match_obj :=
  (w ++ fst m, snd m).

Definition capture (w : str) (m : match_obj) : match_obj :=
  (w ++ fst m, w :: snd m).

Fixpoint greedy_plus (p : Z -> bool) (k : str -> str -> option match_obj)
    (taken s : str) : option match_obj :=
  match s with
  | [] => None
  | c :: s' =>
      if p c then
        match greedy_plus p k (taken ++ [c]) s' with
        | Some m => Some m
        | None => k (taken ++ [c]) s'
        end
      else None
  end.

Fixpoint match_here (re : regex) (s : str) : option match_obj :=
  match re with
  | [] => Some ([], [])
  | Char c :: re' =>
      match s with
      | c' :: s' =>
          if c' =? c then option_map (prepend [c]) (match_here re' s')
          else None
      | [] => None
      end
  | Maybe c :: re' =>
      let taken :=
        match s with
        | c' :: s' =>
            if c' =? c then option_map (prepend [c]) (match_here re' s')
            else None
        | [] => None
        end in
      match taken with
      | Some m => Some m
      | None => match_here re' s
      end
  | Plus cl :: re' =>
      greedy_plus (in_class cl)
        (fun w rest => option_map (prepend w) (match_here re' rest)) [] s
  | CapPlus cl :: re' =>
      greedy_plus (in_class cl)
        (fun w rest => option_map (capture w) (match_here re' rest)) [] s
  | EndOfString :: re' =>
      match s with
      | [] => match_here re' s
      | [c] => if c =? 10 then match_here re' s else None
      | _ => None
      end
  end.

(** [re.match(pattern, s)] *)
Definition re_match (re : regex) (s : str) : option match_obj :=
  match_here re s.

(** [re.search(pattern, s)]: the match at the leftmost position that
    has one. *)
Fixpoint re_search (re : regex) (s : str) : option match_obj :=
  match match_here re s with
  | Some m => Some m
  | None =>
      match s with
      | [] => None
      | _ :: s' => re_search re s'
      end
  end.

(** What a pattern can match at the start of a string, read as a
    language: [matches re s m] when [re] matches the prefix
    [group0 m] of [s] with the captured texts of [m]. *)
Inductive matches : regex -> str -> match_obj -> Prop :=
| M_end (s : str) :
    matches [] s ([], [])
| M_char (c : Z) (re : regex) (s : str) (m : match_obj) :
    matches re s m ->
    matches (Char c :: re) (c :: s) (prepend [c] m)
| M_maybe_taken (c : Z) (re : regex) (s : str) (m : match_obj) :
    matches re s m ->
    matches (Maybe c :: re) (c :: s) (prepend [c] m)
| M_maybe_skipped (c : Z) (re : regex) (s : str) (m : match_obj) :
    matches re s m ->
    matches (Maybe c :: re) s m
| M_plus (cl : cclass) (re : regex) (w s : str) (m : match_obj) :
    w <> [] -> forallb (in_class cl) w = true ->
    matches re s m ->
    matches (Plus cl :: re) (w ++ s) (prepend w m)
| M_cap_plus (cl : cclass) (re : regex) (w s : str) (m : match_obj) :
    w <> [] -> forallb (in_class cl) w = true ->
    matches re s m ->
    matches (CapPlus cl :: re) (w ++ s) (capture w m)
| M_end_of_string (re : regex) (s : str) (m : match_obj) :
    s = [] \/ s = [10] ->
    matches re s m ->
    matches (EndOfString :: re) s m.

(** The longest prefix of characters that satisfy [p], and what
    follows it. *)
Fixpoint take_while (p : Z -> bool) (s : str) : str :=
  match s with
  | c :: s' => if p c then c :: take_while p s' else []
  | [] => []
  end.

Fixpoint drop_while (p : Z -> bool) (s : str) : str :=
  match s with
  | c :: s' => if p c then drop_while p s' else s
  | [] => []
  end.

(** *** Dictionaries with string keys, in insertion order *)

Definition dict (V : Type) : Type := list (string * V).

Fixpoint dict_get {V : Type} (k : string) (d : dict V) : option V :=
  match d with
  | [] => None
  | (k', v) :: d' => if String.eqb k k' then Some v else dict_get k d'
  end.

(** [b.hex()] *)
Definition hex_digit (n : Z) : Z :=
  if n <? 10 then ord "0" + n else ord "a" + (n - 10).

Definition hex (b : bytes) : str :=
  flat_map (fun x => [hex_digit (Z.shiftr x 4); hex_digit (Z.land x 0xF)]) b.

(** [str(n)] for an integer *)
Definition str_of_int (n : Z) : str :=
  lit (DecimalString.NilZero.string_of_int (Z.to_int n)).

End Py.

(** ** The part of the [requests] library the code uses *)

Module Requests.
Import Py.

Record Request : Type := mkRequest {
  req_url : str;
  req_data : bytes;
  req_headers : dict str;
  req_timeout : Z
}.

Record Response : Type := mkResponse {
  status_code : Z;
  reason : str;
  url : str;
  headers : dict str;     (* a case-insensitive dictionary *)
  content : bytes
}.

(** What [requests.post] does: it returns a response, raises a
    [RequestException], of which the code uses the text [str(e)], or
    raises something else. *)
Inductive outcome : Type :=
| Responded (resp : Response)
| Failed (text : str)
| Aborted (e : exn).

Definition lower_ascii (a : ascii) : ascii :=
  let n := N_of_ascii a in
  if (65 <=? n)%N && (n <=? 90)%N then ascii_of_N (n + 32) else a.

Fixpoint lower (s : string) : string :=
  match s with
  | EmptyString => EmptyString
  | String a s' => String (lower_ascii a) (lower s')
  end.

(** [resp.headers.get(name)] *)
Fixpoint headers_get (name : string) (h : dict str) : option str :=
  match h with
  | [] => None
  | (k, v) :: h' =>
      if String.eqb (lower name) (lower k) then Some v
      else headers_get name h'
  end.

(** [resp.raise_for_status()]: the text of the [HTTPError] it raises,
    if it raises one. *)
Definition raise_for_status (resp : Response) : option str :=
  let code := status_code resp in
  if (400 <=? code) && (code <? 500) then
    Some (str_of_int code ++ lit " Client Error: " ++ reason resp
          ++ lit " for url: " ++ url resp)
  else if (500 <=? code) && (code <? 600) then
    Some (str_of_int code ++ lit " Server Error: " ++ reason resp
          ++ lit " for url: " ++ url resp)
  else None.

(** A piece of a printed line: literal text or an interpolated
    value of an f-string. *)
Inductive piece : Type :=
| Text (s : str)
| IntVal (n : Z)
| StrVal (s : str)
| OptVal (o : option str)
| ReprVal (s : str)
| DictVal (d : dict str).

(** Code that talks to the network and to the console: it returns,
    raises, posts a request and goes on with the outcome, or prints a
    line and goes on. *)
Inductive Net (A : Type) : Type :=
| Return (a : A)
| Throw (e : exn)
| Post (rq : Request) (k : outcome -> Net A)
| Print (line : list piece) (k : Net A).
Arguments Return {A} a.
Arguments Throw {A} e.
Arguments Post {A} rq k.
Arguments Print {A} line k.

Inductive event : Type :=
| Posted (rq : Request)
| Printed (line : list piece).

(** Running a computation against a network: the events in order
    and the result. *)
Fixpoint run {A : Type} (net : Request -> outcome) (m : Net A)
    : list event * res A :=
  match m with
  | Return a => ([], Ok a)
  | Throw e => ([], Raise e)
  | Post rq k =>
      let (t, r) := run net (k (net rq)) in (Posted rq :: t, r)
  | Print line k =>
      let (t, r) := run net k in (Printed line :: t, r)
  end.

Definition posts (t : list event) : list Request :=
  flat_map (fun e => match e with Posted rq => [rq] | Printed _ => [] end) t.

End Requests.

(** ** [StreamCrawler/scraper.py] *)

Module Scraper.
Import Py Requests.

(** [_encode_proto_string(field_num, value)] *)
Definition _encode_proto_string (field_num : Z) (value : str) : res bytes :=
  bind (encode_utf8 value) (fun encoded =>
  let tag := Z.lor (Z.shiftl field_num 3) 2 in
  bind (bytes_of_ints [tag; len encoded]) (fun head =>
  Ok (head ++ encoded))).

(** [build_fetch_body(server, slug, stream_num)] *)
Definition build_fetch_body (server slug stream_num : str) : res bytes :=
  bind (_encode_proto_string 1 server) (fun f1 =>
  bind (_encode_proto_string 2 slug) (fun f2 =>
  bind (_encode_proto_string 3 stream_num) (fun f3 =>
  Ok ((f1 ++ f2) ++ f3)))).

(** The pattern [https?://[^/]+/embed/([^/]+)/(.+)/(\d+)$] *)
Definition embed_re : regex :=
  chars "http" ++ [Maybe (ord "s")] ++ chars "://"
  ++ [Plus (NotChar (ord "/"))] ++ chars "/embed/"
  ++ [CapPlus (NotChar (ord "/"))] ++ chars "/"
  ++ [CapPlus AnyChar] ++ chars "/"
  ++ [CapPlus Digit; EndOfString].

(** [parse_embed_url(embed_url)] *)
Definition parse_embed_url (embed_url : str) : option (str * str * str) :=
  match re_match embed_re embed_url with
  | None => None
  | Some m => Some (group 1 m, group 2 m, group 3 m)
  end.

Definition EMBED_API : str := lit "https://embedsporty.top/fetch".

(** The pattern [lb\d+] *)
Definition lb_re : regex := chars "lb" ++ [Plus Digit].

(** The load-balancer name read from the response body. *)
Definition lb_server_of (body_str : str) : str :=
  match re_search lb_re body_str with
  | Some lb_match => group0 lb_match
  | None => lit "lb2"
  end.

Definition m3u8_of (lb_server goat_token server slug stream_num : str) : str :=
  lit "https://" ++ lb_server ++ lit ".strmd.top/secure/" ++ goat_token
  ++ lit "/" ++ server ++ lit "/stream/" ++ slug ++ lit "/" ++ stream_num
  ++ lit "/playlist.m3u8".

Definition fetch_headers (embed_url : str) : dict str :=
  [("User-Agent"%string,
    lit "Mozilla/5.0 (Windows NT 10.0; Win64; x64) "
    ++ lit "AppleWebKit/537.36 (KHTML, like Gecko) Chrome/114.0.0.0 Safari/537.36");
   ("Content-Type"%string, lit "application/octet-stream");
   ("Referer"%string, embed_url);
   ("Origin"%string, lit "https://embedsporty.top")].

(** [not goat_token] *)
Definition falsy (v : option str) : bool :=
  match v with
  | None => true
  | Some [] => true
  | Some (_ :: _) => false
  end.

(** What [get_stream_url] does with the outcome of its request. *)
Definition on_outcome (server slug stream_num : str) (out : outcome)
    : Net (dict str) :=
  let attempt :=
    match out with
    | Aborted e => Raise e
    | Failed text => Ok (inl text)
    | Responded resp =>
        match raise_for_status resp with
        | Some text => Ok (inl text)
        | None => Ok (inr resp)
        end
    end in
  match attempt with
  | Raise e => Throw e
  | Ok (inl text) => Return [("error"%string, text)]
  | Ok (inr resp) =>
      let goat_token := headers_get "goat" (headers resp) in
      if falsy goat_token then
        Return [("error"%string, lit "No goat header in response")]
      else
        let goat_token := match goat_token with Some t => t | None => [] end in
        match decode_utf8 Replace (content resp) with
        | Raise e => Throw e
        | Ok body_str =>
            let lb_server := lb_server_of body_str in
            let m3u8 := m3u8_of lb_server goat_token server slug stream_num in
            Return [("goat"%string, goat_token);
                    ("lb"%string, lb_server);
                    ("m3u8"%string, m3u8)]
        end
  end.

(** [get_stream_url(embed_url)] *)
Definition get_stream_url (embed_url : str) : Net (dict str) :=
  match parse_embed_url embed_url with
  | None => Return []
  | Some (server, slug, stream_num) =>
      match build_fetch_body server slug stream_num with
      | Raise e => Throw e
      | Ok body =>
          Post (mkRequest EMBED_API body (fetch_headers embed_url) 15)
               (on_outcome server slug stream_num)
      end
  end.

End Scraper.

(** ** [StreamCrawler/test_fetch.py] *)

Module TestFetch.
Import Py Requests.

Definition EMBED_BASE : str := lit "https://embedsporty.top".

Definition encode_string_field (field_num : Z) (value : str) : res bytes :=
  bind (encode_utf8 value) (fun encoded =>
  let tag := Z.lor (Z.shiftl field_num 3) 2 in
  bind (bytes_of_ints [tag; len encoded]) (fun head =>
  Ok (head ++ encoded))).

(** [build_fetch_body(server, slug, stream_num)] *)
Definition build_fetch_body (server slug stream_num : str) : res bytes :=
  let body := [] in
  bind (encode_string_field 1 server) (fun f1 =>
  let body := body ++ f1 in
  bind (encode_string_field 2 slug) (fun f2 =>
  let body := body ++ f2 in
  bind (encode_string_field 3 stream_num) (fun f3 =>
  let body := body ++ f3 in
  Ok body))).

(** [parse_embed_url(embed_url)]: the same pattern as in
    [scraper.py]; no match raises [ValueError]. *)
Definition parse_embed_url (embed_url : str) : res (str * str * str) :=
  match re_match Scraper.embed_re embed_url with
  | None => Raise ValueError
  | Some m => Ok (group 1 m, group 2 m, group 3 m)
  end.

Definition truthy (v : option str) : bool :=
  match v with
  | Some (_ :: _) => true
  | _ => false
  end.

Definition on_outcome (embed_url server slug num : str) (out : outcome)
    : Net (dict str) :=
  match out with
  | Aborted e => Throw e
  | Failed text => Throw (RequestException text)
  | Responded resp =>
      Print [Text (lit "  Status: "); IntVal (status_code resp)] (
      Print [Text (lit "  Headers: "); DictVal (headers resp)] (
      let goat_token := headers_get "goat" (headers resp) in
      match decode_utf8 Replace (content resp) with
      | Raise e => Throw e
      | Ok body_str =>
          let lb_server :=
            match re_search Scraper.lb_re body_str with
            | Some lb_match => group0 lb_match
            | None => lit "lb2"
            end in
          let raw_hex := hex (content resp) in
          Print [Text (lit "  Body hex: "); StrVal (firstn 100 raw_hex)] (
          Print [Text (lit "  Body utf8 (first 100): ");
                 ReprVal (firstn 100 body_str)] (
          Print [Text (lit "  Body length: "); IntVal (len (content resp));
                 Text (lit " bytes")] (
          Print [Text (lit "  goat token: "); OptVal goat_token] (
          Print [Text (lit "  lb server found: "); StrVal lb_server] (
          if truthy goat_token then
            let goat_token := match goat_token with Some t => t | None => [] end in
            let m3u8 :=
              lit "https://" ++ lb_server ++ lit ".strmd.top/secure/"
              ++ goat_token ++ lit "/" ++ server ++ lit "/stream/" ++ slug
              ++ lit "/" ++ num ++ lit "/playlist.m3u8" in
            Return [("embed_url"%string, embed_url);
                    ("goat_token"%string, goat_token);
                    ("lb_server"%string, lb_server);
                    ("m3u8"%string, m3u8)]
          else Return [])))))
      end))
  end.

(** [fetch_stream_url(embed_url)] *)
Definition fetch_stream_url (embed_url : str) : Net (dict str) :=
  match parse_embed_url embed_url with
  | Raise e => Throw e
  | Ok (server, slug, num) =>
      match build_fetch_body server slug num with
      | Raise e => Throw e
      | Ok body =>
          Post (mkRequest (EMBED_BASE ++ lit "/fetch") body
                  [("User-Agent"%string,
                    lit "Mozilla/5.0 (Windows NT 10.0; Win64; x64) AppleWebKit/537.36 (KHTML, like Gecko) Chrome/114.0.0.0 Safari/537.36");
                   ("Content-Type"%string, lit "application/octet-stream");
                   ("Referer"%string, embed_url);
                   ("Origin"%string, EMBED_BASE)]
                  10)
               (on_outcome embed_url server slug num)
      end
  end.

End TestFetch.

(** ** The reading side of the wire format and the shape of an embed URL,
    as the specification words them *)

Module Wire.
Import Py.

(** The tag byte of a length-delimited field. *)
Definition tag_of (field_number : Z) : Z :=
  Z.lor (Z.shiftl field_number 3) 2.

(** One segment: the tag byte, one length byte, the value bytes. *)
Definition segment (field_number : Z) (value : bytes) : bytes :=
  [tag_of field_number; len value] ++ value.

(** Reading one field: its tag byte, one length byte, then that many
    value bytes, which are UTF-8 text. *)
Definition read_field (field_number : Z) (b : bytes) : option (str * bytes) :=
  match b with
  | t :: n :: rest =>
      if (t =? tag_of field_number) && (0 <=? n) && (n <=? len rest) then
        match decode_utf8 Strict (firstn (Z.to_nat n) rest) with
        | Ok value => Some (value, skipn (Z.to_nat n) rest)
        | Raise _ => None
        end
      else None
  | _ => None
  end.

(** Reading a message: fields 1, 2 and 3 in order and nothing else. *)
Definition decode (b : bytes) : option (str * str * str) :=
  match read_field 1 b with
  | Some (server, b1) =>
      match read_field 2 b1 with
      | Some (slug, b2) =>
          match read_field 3 b2 with
          | Some (stream_index, []) => Some (server, slug, stream_index)
          | _ => None
          end
      | None => None
      end
  | None => None
  end.

(** The UTF-8 byte length of a field value, when it has one. *)
Definition utf8_len (s : str) : option Z :=
  match encode_utf8 s with
  | Ok b => Some (len b)
  | Raise _ => None
  end.

(** A field value whose UTF-8 byte length is at most 255. *)
Definition fits (s : str) : bool :=
  match utf8_len s with
  | Some n => n <=? 255
  | None => false
  end.

End Wire.

Module Shape.
Import Py.

Definition no_slash (s : str) : bool := forallb (in_class (NotChar (ord "/"))) s.
Definition no_line_feed (s : str) : bool := forallb (in_class AnyChar) s.
Definition all_decimal (s : str) : bool := forallb is_decimal s.

(** [scheme://host/embed/<server>/<slug>/<digits>] *)
Definition assemble (scheme host server slug digits : str) : str :=
  scheme ++ lit "://" ++ host ++ lit "/embed/" ++ server ++ lit "/"
  ++ slug ++ lit "/" ++ digits.

(** The components of an embed URL: a host and a server name without
    [/], a slug that may contain [/], one or more decimal digits; none
    of them empty. *)
Definition components (host server slug digits : str) : Prop :=
  host <> [] /\ no_slash host = true /\
  server <> [] /\ no_slash server = true /\
  slug <> [] /\
  digits <> [] /\ all_decimal digits = true.

Definition embed_shape (url : str) : Prop :=
  exists scheme host server slug digits,
    url = assemble scheme host server slug digits
    /\ components host server slug digits.

Definition web_scheme (scheme : str) : Prop :=
  scheme = lit "http" \/ scheme = lit "https".

(** The strings the pattern of [parse_embed_url] accepts, with the
    texts of its three groups: the shape with scheme [http] or
    [https] and a slug of one line, possibly followed by one line
    feed. *)
Definition accepted (url server slug digits : str) : Prop :=
  exists scheme host tail,
    web_scheme scheme
    /\ (tail = [] \/ tail = [10])
    /\ url = assemble scheme host server slug digits ++ tail
    /\ components host server slug digits
    /\ no_line_feed slug = true.

End Shape.

Module Scan.
Import Py.

(** The text has [lb] and a decimal digit right behind [pre]. *)
Definition lb_digit_at (text pre : str) : Prop :=
  exists d post, text = pre ++ lit "lb" ++ d :: post /\ is_decimal d = true.

Definition no_lb (text : str) : Prop :=
  forall pre, ~ lb_digit_at text pre.

(** [found] is the first substring of [text] made of [lb] and one or
    more decimal digits: no other starts further left, and it takes
    all the digits that follow [lb]. *)
Definition first_lb (text found : str) : Prop :=
  exists pre digits post,
    text = pre ++ lit "lb" ++ digits ++ post
    /\ digits <> [] /\ forallb is_decimal digits = true
    /\ found = lit "lb" ++ digits
    /\ (forall pre', lb_digit_at text pre' ->
                    (List.length pre <= List.length pre')%nat)
    /\ match post with
       | c :: _ => is_decimal c = false
       | [] => True
       end.

End Scan.

(** Values for the examples: an embed URL on the host [host], an
    answer of the fetch endpoint, a network that always gives the same
    answer. *)
Module Sample.
Import Py Requests.

Definition url : str := lit "https://host/embed/echo/slug/1".

Definition body : bytes :=
  [10; 4] ++ lit "echo" ++ [18; 4] ++ lit "slug" ++ [26; 1] ++ lit "1".

Definition answer (code : Z) (phrase : string) (headers : dict str)
    (content : bytes) : Response :=
  mkResponse code (lit phrase) Scraper.EMBED_API headers content.

Definition always (resp : Response) : Request -> outcome :=
  fun _ => Responded resp.

Definition ok_200 : Response :=
  answer 200 "OK" [("Server"%string, lit "nginx")] [].

Definition no_content_204 : Response :=
  answer 204 "No Content" [("Via"%string, lit "proxy")] [].

End Sample.

(** ** More of the Python runtime: tests on strings *)

Module Text.
Import Py.

(** [a == b] *)
Fixpoint str_eqb (a b : str) : bool :=
  match a, b with
  | [], [] => true
  | x :: a', y :: b' => (x =? y) && str_eqb a' b'
  | _, _ => false
  end.

(** [s.startswith(prefix)] *)
Fixpoint startswith (prefix s : str) : bool :=
  match prefix, s with
  | [], _ => true
  | p :: prefix', c :: s' => (c =? p) && startswith prefix' s'
  | _ :: _, [] => false
  end.

(** [needle in s], and [s.includes(needle)] of JavaScript *)
Fixpoint contains (needle s : str) : bool :=
  if startswith needle s then true
  else
    match s with
    | [] => false
    | _ :: s' => contains needle s'
    end.

(** [x in l] for a list of strings *)
Definition mem (x : str) (l : list str) : bool := existsb (str_eqb x) l.

(** [needle] occurs in [s]. *)
Definition occurs (needle s : str) : Prop :=
  exists pre post, s = pre ++ needle ++ post.

(** The truth value of a string *)
Definition nonempty (s : str) : bool :=
  match s with
  | [] => false
  | _ :: _ => true
  end.

(** The truth value of a string that may be [None] *)
Definition truthy (v : option str) : bool :=
  match v with
  | Some s => nonempty s
  | None => false
  end.

(** [sep.join(parts)] *)
Fixpoint join (sep : str) (parts : list str) : str :=
  match parts with
  | [] => []
  | [p] => p
  | p :: rest => p ++ sep ++ join sep rest
  end.

End Text.

(** ** [StreamCrawler/scrape.py] *)

Module Scrape.
Import Py Text.

(** What [BeautifulSoup] finds in a page: the [href] of every [a] that
    has one, the [src] of every [iframe] and the [string] of every
    [script], in document order. *)
Record Page : Type := mkPage {
  anchors : list str;
  iframes : list (option str);
  scripts : list (option str)
}.

(** A piece of a printed line. *)
Inductive shown : Type :=
| PText (s : str)
| PStr (s : str)
| PInt (n : Z)
| POpt (o : option str)
| PJson (l : list str)        (* json.dumps of a list *)
| PJsonSet (l : list str).    (* json.dumps of the set of these, as a list *)

(** A program that fetches pages and prints: [requests.get] followed
    by the parse gives a page or raises. *)
Inductive Prog (A : Type) : Type :=
| Stop (a : A)
| Crash (e : exn)
| Get (url : str) (headers : dict str) (k : res Page -> Prog A)
| Out (line : list shown) (k : Prog A).
Arguments Stop {A} a.
Arguments Crash {A} e.
Arguments Get {A} url headers k.
Arguments Out {A} line k.

Inductive step : Type :=
| Got (url : str) (headers : dict str)
| Wrote (line : list shown).

Fixpoint run {A : Type} (web : str -> res Page) (m : Prog A)
    : list step * res A :=
  match m with
  | Stop a => ([], Ok a)
  | Crash e => ([], Raise e)
  | Get url headers k =>
      let (t, r) := run web (k (web url)) in (Got url headers :: t, r)
  | Out line k =>
      let (t, r) := run web k in (Wrote line :: t, r)
  end.

Definition gets (t : list step) : list str :=
  flat_map (fun s => match s with Got url _ => [url] | Wrote _ => [] end) t.

Fixpoint out_all {A : Type} (lines : list (list shown)) (k : Prog A) : Prog A :=
  match lines with
  | [] => k
  | line :: rest => Out line (out_all rest k)
  end.

(** The pattern [\d+] *)
Definition digits_re : regex := [Plus Digit].

(** ['/live/' in href or '/stream/' in href or re.search(r'\d+', href)] *)
Definition looks_like_event (href : str) : bool :=
  contains (lit "/live/") href
  || contains (lit "/stream/") href
  || match re_search digits_re href with
     | Some _ => true
     | None => false
     end.

(** The links the loop keeps: they pass the test and do not mention
    [discord]. *)
Definition kept (href : str) : bool :=
  looks_like_event href && negb (contains (lit "discord") href).

(** One turn of the loop over the anchors. *)
Definition add_link (event_links : list str) (href : str) : list str :=
  if looks_like_event href then
    if negb (mem href event_links) && negb (contains (lit "discord") href)
    then event_links ++ [href]
    else event_links
  else event_links.

(** [event_links] when the loop is over. *)
Definition event_links_of (hrefs : list str) : list str :=
  fold_left add_link hrefs [].

(** [target_event] from the first link. *)
Definition target_event_of (first : str) : str :=
  if negb (startswith (lit "http") first)
  then lit "https://streamwest.cc" ++ first
  else first.

Definition headers : dict str :=
  [("User-Agent"%string,
    lit "Mozilla/5.0 (Windows NT 10.0; Win64; x64) AppleWebKit/537.36 (KHTML, like Gecko) Chrome/91.0.4472.124 Safari/537.36")].

Definition script_lines (s : option str) : list (list shown) :=
  match s with
  | Some text =>
      if nonempty text && contains (lit "m3u8") text then
        [[PText (lit "Found m3u8 in script:")]; [PStr (firstn 200 text)]]
      else []
  | None => []
  end.

(** What [main] does with the event page. *)
Definition show_event_page (e : res Page) : Prog unit :=
  match e with
  | Raise x => Crash x
  | Ok esoup =>
      Out [PText (lit "Found "); PInt (len (iframes esoup));
           PText (lit " iframes.")] (
      out_all (map (fun src => [PText (lit "Iframe src: "); POpt src])
                 (iframes esoup)) (
      out_all (flat_map script_lines (scripts esoup)) (
      Stop tt)))
  end.

(** [main()] *)
Definition main : Prog unit :=
  Out [PText (lit "Fetching /live page...")] (
  Get (lit "https://streamwest.cc/live") headers (fun r =>
  match r with
  | Raise x => Crash x
  | Ok soup =>
      let event_links := event_links_of (anchors soup) in
      match event_links with
      | [] =>
          Out [PText (lit "No apparent event links found on /live. Here are all links:")] (
          Out [PJsonSet (anchors soup)] (
          Stop tt))
      | first :: _ =>
          Out [PText (lit "Found event links: "); PJson (firstn 5 event_links)] (
          let target_event := target_event_of first in
          Out [PText ([10] ++ lit "Fetching event page: "); PStr target_event] (
          Get target_event headers show_event_page))
      end
  end)).

End Scrape.

(** ** [StreamCrawler/scraper.py]: the crawl around [get_stream_url] *)

Module Crawler.
Import Py Requests Text.

Definition BASE_URL : str := lit "https://streamwest.cc".

(** An event as [get_live_events] returns it. *)
Record Event : Type := mkEvent {
  href : str;
  title : str;
  sport : str;
  teams : list str;
  thumbnail : option str;
  is_live : bool;
  viewer_count : Z
}.

(** An entry of the result: the event and the four keys added to it. *)
Record Result : Type := mkResult {
  event : Event;
  streamwest_url : str;
  embed_url : option str;
  stream : option str;
  error : option str
}.

(** What the browser gives for an event page: the [src] of every
    [iframe] in document order, or an exception. *)
Inductive visit : Type :=
| Loaded (srcs : list str)
| Broke (text : str).

(** The crawl prints, asks the browser for the event list and for event
    pages, and posts the requests of [get_stream_url]. *)
Inductive Crawl (A : Type) : Type :=
| Done (a : A)
| Fail (e : exn)
| Say (line : list piece) (k : Crawl A)
| Live (k : res (list Event) -> Crawl A)
| Visit (full_url : str) (k : visit -> Crawl A)
| Fetch (rq : Request) (k : outcome -> Crawl A).
Arguments Done {A} a.
Arguments Fail {A} e.
Arguments Say {A} line k.
Arguments Live {A} k.
Arguments Visit {A} full_url k.
Arguments Fetch {A} rq k.

Fixpoint bind {A B : Type} (m : Crawl A) (f : A -> Crawl B) : Crawl B :=
  match m with
  | Done a => f a
  | Fail e => Fail e
  | Say line k => Say line (bind k f)
  | Live k => Live (fun r => bind (k r) f)
  | Visit full_url k => Visit full_url (fun v => bind (k v) f)
  | Fetch rq k => Fetch rq (fun out => bind (k out) f)
  end.

(** A call of code that only posts and prints. *)
Fixpoint call {A : Type} (m : Net A) : Crawl A :=
  match m with
  | Return a => Done a
  | Throw e => Fail e
  | Post rq k => Fetch rq (fun out => call (k out))
  | Print line k => Say line (call k)
  end.

Record World : Type := mkWorld {
  live : res (list Event);
  browser : str -> visit;
  net : Request -> outcome
}.

Inductive action : Type :=
| Said (line : list piece)
| Listed
| Visited (full_url : str)
| Fetched (rq : Request).

Fixpoint run {A : Type} (w : World) (m : Crawl A) : list action * res A :=
  match m with
  | Done a => ([], Ok a)
  | Fail e => ([], Raise e)
  | Say line k => let (t, r) := run w k in (Said line :: t, r)
  | Live k => let (t, r) := run w (k (live w)) in (Listed :: t, r)
  | Visit full_url k =>
      let (t, r) := run w (k (browser w full_url)) in (Visited full_url :: t, r)
  | Fetch rq k =>
      let (t, r) := run w (k (net w rq)) in (Fetched rq :: t, r)
  end.

Definition visits (t : list action) : list str :=
  flat_map (fun a => match a with Visited u => [u] | _ => [] end) t.

Definition fetches (t : list action) : list Request :=
  flat_map (fun a => match a with Fetched rq => [rq] | _ => [] end) t.

(** [BASE_URL + href if href.startswith('/') else href] *)
Definition full_url_of (href : str) : str :=
  if startswith (lit "/") href then BASE_URL ++ href else href.

(** The script of [get_embed_url]: the first [iframe] whose [src] is
    not empty and includes [embed] or [stream]. *)
Definition first_embed (srcs : list str) : option str :=
  find (fun src =>
          nonempty src
          && (contains (lit "embed") src || contains (lit "stream") src))
       srcs.

(** [get_embed_url(context, event_href)] *)
Definition get_embed_url (event_href : str) : Crawl (option str) :=
  let full_url := full_url_of event_href in
  Visit full_url (fun v =>
    match v with
    | Loaded srcs => Done (first_embed srcs)
    | Broke text =>
        Say [Text (lit "  [Error] getting embed for "); StrVal full_url;
             Text (lit ": "); StrVal text]
            (Done None)
    end).

(** [d.get(key, default)] *)
Definition get_or (d : dict str) (key : string) (default : str) : str :=
  match dict_get key d with
  | Some v => v
  | None => default
  end.

(** The loop of [scrape_all_events], with the results so far. *)
Fixpoint scrape_loop (events : list Event) (results : list Result)
    : Crawl (list Result) :=
  match events with
  | [] => Done results
  | ev :: rest =>
      let streamwest_url := full_url_of (href ev) in
      Say [Text ([10] ++ lit "["); StrVal (sport ev); Text (lit "] ");
           StrVal (title ev)] (
      bind (get_embed_url (href ev)) (fun found =>
      if negb (truthy found) then
        Say [Text (lit "  [FAIL] No embed iframe found")] (
        scrape_loop rest
          (results ++ [mkResult ev streamwest_url None None
                         (Some (lit "No embed found"))]))
      else
        let embed_url := match found with Some u => u | None => [] end in
        bind (call (Scraper.get_stream_url embed_url)) (fun stream_data =>
        let m3u8 := dict_get "m3u8" stream_data in
        Say (if truthy m3u8 then [Text (lit "  [OK] Stream ready")]
             else [Text (lit "  [FAIL] Failed: ");
                   StrVal (get_or stream_data "error" (lit "unknown error"))]) (
        scrape_loop rest
          (results ++ [mkResult ev streamwest_url (Some embed_url) m3u8
                         (dict_get "error" stream_data)])))))
  end.

(** [scrape_all_events(headless)] *)
Definition scrape_all_events : Crawl (list Result) :=
  Say [Text (lit "Fetching live event list ...")] (
  Live (fun listed =>
    match listed with
    | Raise e => Fail e
    | Ok events =>
        Say [Text (lit "Found "); IntVal (len events); Text (lit " events.")] (
        scrape_loop events [])
    end)).

Definition of_event (e : Requests.event) : action :=
  match e with
  | Posted rq => Fetched rq
  | Printed line => Said line
  end.

(** The entry that the loop appends for an event, or the exception
    that [get_stream_url] raises for it. *)
Definition entry_of (w : World) (ev : Event) : res Result :=
  let no_embed :=
    mkResult ev (full_url_of (href ev)) None None (Some (lit "No embed found")) in
  match browser w (full_url_of (href ev)) with
  | Loaded srcs =>
      match first_embed srcs with
      | Some u =>
          match snd (Requests.run (net w) (Scraper.get_stream_url u)) with
          | Ok stream_data =>
              Ok (mkResult ev (full_url_of (href ev)) (Some u)
                    (dict_get "m3u8" stream_data)
                    (dict_get "error" stream_data))
          | Raise e => Raise e
          end
      | None => Ok no_embed
      end
  | Broke _ => Ok no_embed
  end.

Fixpoint entries_of (w : World) (events : list Event) : res (list Result) :=
  match events with
  | [] => Ok []
  | ev :: rest =>
      Py.bind (entry_of w ev) (fun r =>
      Py.bind (entries_of w rest) (fun rs => Ok (r :: rs)))
  end.

(** What the loop does, seen from outside: it returns the entries
    behind the results it started with; when no call raises it visits
    one page per event, in order, and posts at most one request per
    event, each to the fetch endpoint. *)
Definition loop_spec (w : World) (events : list Event) (acc : list Result) : Prop :=
  snd (run w (scrape_loop events acc))
  = Py.bind (entries_of w events) (fun rs => Ok (acc ++ rs))
  /\ (forall rs, entries_of w events = Ok rs ->
        visits (fst (run w (scrape_loop events acc)))
        = map (fun ev => full_url_of (href ev)) events
        /\ (List.length (fetches (fst (run w (scrape_loop events acc))))
            <= List.length events)%nat
        /\ Forall (fun rq => req_url rq = Scraper.EMBED_API)
             (fetches (fst (run w (scrape_loop events acc))))).

(** The three kinds of entry: no embed URL; an embed URL with a
    playlist URL; an embed URL with an error text; an embed URL that
    [parse_embed_url] rejects, with neither. *)
Definition entry_kind (r : Result) : Prop :=
  (embed_url r = None /\ stream r = None
   /\ error r = Some (lit "No embed found"))
  \/ (exists u,
        embed_url r = Some u
        /\ (occurs (lit "embed") u \/ occurs (lit "stream") u)
        /\ ((exists m, stream r = Some m /\ m <> [] /\ error r = None)
            \/ (stream r = None /\ exists text, error r = Some text)
            \/ (stream r = None /\ error r = None
                /\ Scraper.parse_embed_url u = None))).

(** The call of [get_stream_url] for this event raises. *)
Definition stream_raises (w : World) (ev : Event) : bool :=
  match browser w (full_url_of (href ev)) with
  | Loaded srcs =>
      match first_embed srcs with
      | Some u =>
          match snd (Requests.run (net w) (Scraper.get_stream_url u)) with
          | Raise _ => true
          | Ok _ => false
          end
      | None => false
      end
  | Broke _ => false
  end.

(** [by_sport[sport].append(e)] on a [defaultdict(list)] *)
Fixpoint group_add (key : str) (e : Result) (groups : list (str * list Result))
    : list (str * list Result) :=
  match groups with
  | [] => [(key, [e])]
  | (k, es) :: rest =>
      if str_eqb k key then (k, es ++ [e]) :: rest
      else (k, es) :: group_add key e rest
  end.

(** [by_sport.get(key)] *)
Fixpoint group_get (key : str) (groups : list (str * list Result))
    : option (list Result) :=
  match groups with
  | [] => None
  | (k, es) :: rest => if str_eqb k key then Some es else group_get key rest
  end.

(** [by_sport] when the loop of the main block is over. *)
Definition by_sport_of (events : list Result) : list (str * list Result) :=
  fold_left (fun groups e => group_add (sport (event e)) e groups) events [].

(** [sum(1 for e in events if e['stream'])] *)
Definition success_of (events : list Result) : Z :=
  len (filter (fun e => truthy (stream e)) events).

(** The line of one event in the report. *)
Definition report_line (e : Result) : list piece :=
  let status := if truthy (stream e) then lit "[OK]" else lit "[FAIL]" in
  let teams_str :=
    join (lit " vs ")
      (match teams (event e) with
       | [] => [title (event e)]
       | _ :: _ => teams (event e)
       end) in
  let live_tag := if is_live (event e) then lit "LIVE" else lit "Upcoming" in
  [Text (lit "    "); StrVal status; Text (lit " "); StrVal live_tag;
   Text (lit "  "); StrVal teams_str; Text (lit "  (");
   IntVal (viewer_count (event e)); Text (lit " viewers)")].

(** The lines the main block prints before it writes the file. *)
Definition report (events : list Result) : list (list piece) :=
  [Text ([10; 10] ++ lit "=== RESULTS ===")]
  :: flat_map (fun g =>
                 [Text ([10] ++ lit "  ["); StrVal (fst g); Text (lit "]")]
                 :: map report_line (snd g))
       (by_sport_of events)
  ++ [[Text [10]; IntVal (success_of events); Text (lit "/");
       IntVal (len events); Text (lit " streams found.")]].

End Crawler.

(** A crawl for the examples: three events; the page of the first has
    the embed player, the page of the second cannot be loaded, the
    page of the third has an iframe that is no embed URL. *)
Module CrawlSample.
Import Py Requests Text Crawler.

Definition match_a : Event :=
  mkEvent (lit "/watch/a") (lit "A vs B") (lit "Football")
    [lit "A"; lit "B"] None true 12.

Definition match_b : Event :=
  mkEvent (lit "https://mirror.example/b") (lit "C vs D") (lit "Tennis")
    [lit "C"; lit "D"] None false 0.

Definition match_c : Event :=
  mkEvent (lit "/watch/c") (lit "Final") (lit "Football") [] None true 3.

Definition events : list Event := [match_a; match_b; match_c].

Definition pages (full_url : str) : visit :=
  if str_eqb full_url (lit "https://streamwest.cc/watch/a") then
    Loaded [lit ""; lit "https://ads.example/banner"; Sample.url;
            lit "https://host/embed/echo/other/2"]
  else if str_eqb full_url (lit "https://streamwest.cc/watch/c") then
    Loaded [lit "https://player.example/stream/9"]
  else Broke (lit "Timeout 30000ms exceeded.").

Definition world : World :=
  mkWorld (Ok events) pages
    (Sample.always
       (Sample.answer 200 "OK" [("goat"%string, lit "abc123")] (lit "lb10"))).

End CrawlSample.

(** * Properties *)

(** Quotients and remainders by constants are given to [lia] as
    equations. *)
Ltac Zify.zify_post_hook ::= Z.div_mod_to_equations.

(** ** Bytes of a code point: masks and shifts as arithmetic *)

Section Bits.

Lemma land_low_high (a lo n : Z) :
  0 <= n -> 0 <= lo < 2 ^ n -> Z.land (a * 2 ^ n) lo = 0.
Proof.
  intros Hn Hlo. apply Z.bits_inj'. intros i Hi.
  rewrite Z.land_spec, Z.bits_0.
  destruct (Z.lt_ge_cases i n) as [Hlt | Hge].
  - rewrite Z.mul_pow2_bits_low by lia. reflexivity.
  - rewrite <- (Z.mod_small lo (2 ^ n)) by lia.
    rewrite Z.mod_pow2_bits_high by lia. apply andb_false_r.
Qed.

Lemma lor_low_high (a lo n : Z) :
  0 <= n -> 0 <= lo < 2 ^ n -> Z.lor (a * 2 ^ n) lo = a * 2 ^ n + lo.
Proof.
  intros Hn Hlo.
  rewrite <- Z.lxor_lor by (apply land_low_high; assumption).
  symmetry. apply Z.add_nocarry_lxor, land_low_high; assumption.
Qed.

Lemma lor_0x80 (x : Z) : 0 <= x < 64 -> Z.lor 0x80 x = 0x80 + x.
Proof. intros H. apply (lor_low_high 2 x 6); lia. Qed.

Lemma lor_0xC0 (x : Z) : 0 <= x < 32 -> Z.lor 0xC0 x = 0xC0 + x.
Proof. intros H. apply (lor_low_high 6 x 5); lia. Qed.

Lemma lor_0xE0 (x : Z) : 0 <= x < 16 -> Z.lor 0xE0 x = 0xE0 + x.
Proof. intros H. apply (lor_low_high 14 x 4); lia. Qed.

Lemma lor_0xF0 (x : Z) : 0 <= x < 8 -> Z.lor 0xF0 x = 0xF0 + x.
Proof. intros H. apply (lor_low_high 30 x 3); lia. Qed.

Lemma land_0x3F (x : Z) : Z.land x 0x3F = x mod 64.
Proof. apply (Z.land_ones x 6). lia. Qed.

Lemma land_0x1F (x : Z) : Z.land x 0x1F = x mod 32.
Proof. apply (Z.land_ones x 5). lia. Qed.

Lemma land_0x0F (x : Z) : Z.land x 0x0F = x mod 16.
Proof. apply (Z.land_ones x 4). lia. Qed.

Lemma land_0x07 (x : Z) : Z.land x 0x07 = x mod 8.
Proof. apply (Z.land_ones x 3). lia. Qed.

Lemma shiftr_6 (x : Z) : Z.shiftr x 6 = x / 64.
Proof. apply (Z.shiftr_div_pow2 x 6). lia. Qed.

Lemma shiftr_12 (x : Z) : Z.shiftr x 12 = x / 4096.
Proof. apply (Z.shiftr_div_pow2 x 12). lia. Qed.

Lemma shiftr_18 (x : Z) : Z.shiftr x 18 = x / 262144.
Proof. apply (Z.shiftr_div_pow2 x 18). lia. Qed.

Lemma cp2_arith (b0 b1 : Z) :
  Py.cp2 b0 b1 = (b0 mod 32) * 64 + b1 mod 64.
Proof.
  unfold Py.cp2. rewrite land_0x1F, land_0x3F.
  rewrite Z.shiftl_mul_pow2 by lia.
  apply (lor_low_high (b0 mod 32) (b1 mod 64) 6); [lia |].
  apply Z.mod_pos_bound. lia.
Qed.

Lemma lor_shiftl_step (a b m n : Z) :
  0 <= n -> m = n + 6 -> 0 <= b < 64 ->
  Z.lor (Z.shiftl a m) (Z.shiftl b n) = Z.shiftl (a * 64 + b) n.
Proof.
  intros Hn -> Hb.
  rewrite Z.add_comm, <- Z.shiftl_shiftl, <- Z.shiftl_lor by lia.
  rewrite (Z.shiftl_mul_pow2 a 6) by lia.
  rewrite (lor_low_high a b 6) by lia. reflexivity.
Qed.

Lemma cp3_arith (b0 b1 b2 : Z) :
  Py.cp3 b0 b1 b2 = (b0 mod 16) * 4096 + (b1 mod 64) * 64 + b2 mod 64.
Proof.
  unfold Py.cp3. rewrite land_0x0F, !land_0x3F.
  pose proof (Z.mod_pos_bound b1 64 ltac:(lia)) as H1.
  pose proof (Z.mod_pos_bound b2 64 ltac:(lia)) as H2.
  rewrite (lor_shiftl_step _ _ 12 6) by lia.
  rewrite Z.shiftl_mul_pow2 by lia.
  rewrite (lor_low_high _ (b2 mod 64) 6) by lia. lia.
Qed.

Lemma cp4_arith (b0 b1 b2 b3 : Z) :
  Py.cp4 b0 b1 b2 b3
  = (b0 mod 8) * 262144 + (b1 mod 64) * 4096 + (b2 mod 64) * 64 + b3 mod 64.
Proof.
  unfold Py.cp4. rewrite land_0x07, !land_0x3F.
  pose proof (Z.mod_pos_bound b1 64 ltac:(lia)) as H1.
  pose proof (Z.mod_pos_bound b2 64 ltac:(lia)) as H2.
  pose proof (Z.mod_pos_bound b3 64 ltac:(lia)) as H3.
  rewrite (lor_shiftl_step _ _ 18 12) by lia.
  rewrite (lor_shiftl_step _ _ 12 6) by lia.
  rewrite Z.shiftl_mul_pow2 by lia.
  rewrite (lor_low_high _ (b3 mod 64) 6) by lia. lia.
Qed.

End Bits.

(** ** UTF-8: decoding what was encoded *)

Section Utf8.
Import Py.

Ltac decide_ltb :=
  repeat match goal with
    | |- context [?a <? ?b] =>
        first [ rewrite (proj2 (Z.ltb_lt a b)) by lia
              | rewrite (proj2 (Z.ltb_ge a b)) by lia ]
    | |- context [?a <=? ?b] =>
        first [ rewrite (proj2 (Z.leb_le a b)) by lia
              | rewrite (proj2 (Z.leb_gt a b)) by lia ]
    | |- context [?a =? ?b] =>
        first [ rewrite (proj2 (Z.eqb_eq a b)) by lia
              | rewrite (proj2 (Z.eqb_neq a b)) by lia ]
    end.

Lemma is_cont_true (b : Z) : 0x80 <= b < 0xC0 -> is_cont b = true.
Proof. intros H. unfold is_cont. decide_ltb. reflexivity. Qed.

Lemma decode_1 (h : error_handler) (b0 : Z) (r : bytes) :
  b0 < 0x80 ->
  decode_utf8 h (b0 :: r) = emit b0 (decode_utf8 h r).
Proof. intros H. cbn [decode_utf8]. decide_ltb. reflexivity. Qed.

Lemma decode_2 (h : error_handler) (b0 b1 : Z) (r : bytes) :
  0xC2 <= b0 < 0xE0 -> 0x80 <= b1 < 0xC0 ->
  decode_utf8 h (b0 :: b1 :: r) = emit (cp2 b0 b1) (decode_utf8 h r).
Proof.
  intros H0 H1. cbn [decode_utf8]. decide_ltb.
  rewrite is_cont_true by lia. reflexivity.
Qed.

Lemma decode_3 (h : error_handler) (b0 b1 b2 : Z) (r : bytes) :
  0xE0 <= b0 < 0xF0 -> 0x80 <= b1 < 0xC0 -> 0x80 <= b2 < 0xC0 ->
  (b0 = 0xE0 -> 0xA0 <= b1) -> (b0 = 0xED -> b1 < 0xA0) ->
  decode_utf8 h (b0 :: b1 :: b2 :: r)
  = emit (cp3 b0 b1 b2) (decode_utf8 h r).
Proof.
  intros H0 H1 H2 Hlow Hsur.
  assert (Hs : second3_ok b0 b1 = true).
  { unfold second3_ok. rewrite is_cont_true by lia.
    destruct (Z.ltb_spec b1 0xA0); decide_ltb; reflexivity. }
  cbn [decode_utf8]. rewrite Hs, (is_cont_true b2) by lia.
  decide_ltb. reflexivity.
Qed.

Lemma decode_4 (h : error_handler) (b0 b1 b2 b3 : Z) (r : bytes) :
  0xF0 <= b0 < 0xF5 ->
  0x80 <= b1 < 0xC0 -> 0x80 <= b2 < 0xC0 -> 0x80 <= b3 < 0xC0 ->
  (b0 = 0xF0 -> 0x90 <= b1) -> (b0 = 0xF4 -> b1 < 0x90) ->
  decode_utf8 h (b0 :: b1 :: b2 :: b3 :: r)
  = emit (cp4 b0 b1 b2 b3) (decode_utf8 h r).
Proof.
  intros H0 H1 H2 H3 Hlow Hhigh.
  assert (Hs : second4_ok b0 b1 = true).
  { unfold second4_ok. rewrite is_cont_true by lia.
    destruct (Z.ltb_spec b1 0x90); decide_ltb; reflexivity. }
  cbn [decode_utf8]. rewrite Hs, (is_cont_true b2), (is_cont_true b3) by lia.
  decide_ltb. reflexivity.
Qed.

Lemma Ok_inj {A : Type} (x y : A) : Ok x = Ok y -> x = y.
Proof. intros H. inversion H. reflexivity. Qed.

Ltac div_bounds :=
  first [ apply Z.mod_pos_bound; lia
        | split; [apply Z.div_pos; lia | apply Z.div_lt_upper_bound; lia] ].

Lemma utf8_encode_char_form (c : Z) (b : bytes) :
  utf8_encode_char c = Ok b -> utf8_form c b.
Proof.
  unfold utf8_encode_char, is_surrogate.
  rewrite !shiftr_6, !shiftr_12, !shiftr_18, !land_0x3F.
  destruct (Z.leb_spec 0 c); cbn [andb];
    [ destruct (Z.ltb_spec c 0x80) |].
  - intros Hb. apply Ok_inj in Hb. subst b. apply Form1. lia.
  - destruct (Z.leb_spec 0x80 c); [| lia]. cbn [andb].
    destruct (Z.ltb_spec c 0x800).
    + rewrite lor_0xC0, lor_0x80 by div_bounds.
      intros Hb. apply Ok_inj in Hb. subst b. apply Form2. lia.
    + destruct (Z.leb_spec 0x800 c); [| lia]. cbn [andb].
      destruct (Z.ltb_spec c 0x10000).
      * rewrite lor_0xE0, !lor_0x80 by div_bounds.
        destruct (Z.leb_spec 0xD800 c); cbn [andb];
          [ destruct (Z.ltb_spec c 0xE000); [discriminate |] |];
          intros Hb; apply Ok_inj in Hb; subst b; apply Form3; lia.
      * destruct (Z.leb_spec 0x10000 c); [| lia]. cbn [andb].
        destruct (Z.ltb_spec c 0x110000); [| discriminate].
        rewrite lor_0xF0, !lor_0x80 by div_bounds.
        intros Hb. apply Ok_inj in Hb. subst b. apply Form4. lia.
  - destruct (Z.leb_spec 0x80 c); [lia |].
    destruct (Z.leb_spec 0x800 c); [lia |].
    destruct (Z.leb_spec 0x10000 c); [lia |]. discriminate.
Qed.

Lemma utf8_form_octets (c : Z) (b : bytes) :
  utf8_form c b -> is_bytes b = true /\ 1 <= len b <= 4.
Proof.
  unfold is_bytes, is_octet, len.
  destruct 1; cbn [forallb List.length]; (split; [| lia]);
    decide_ltb; try reflexivity.
Qed.

Lemma decode_utf8_form (h : error_handler) (c : Z) (b r : bytes) :
  utf8_form c b ->
  decode_utf8 h (b ++ r) = emit c (decode_utf8 h r).
Proof.
  destruct 1; cbn [app].
  - apply decode_1. lia.
  - rewrite decode_2, cp2_arith by lia. f_equal. lia.
  - rewrite decode_3, cp3_arith by lia. f_equal. lia.
  - rewrite decode_4, cp4_arith by lia. f_equal. lia.
Qed.

End Utf8.

Section Utf8Strings.
Import Py.

Lemma bind_Ok {A B : Type} (m : res A) (k : A -> res B) (b : B) :
  bind m k = Ok b -> exists a, m = Ok a /\ k a = Ok b.
Proof. destruct m as [a | e]; [eauto | discriminate]. Qed.

Lemma decode_encode_utf8 (h : error_handler) (s : str) (b : bytes) :
  encode_utf8 s = Ok b -> decode_utf8 h b = Ok s.
Proof.
  revert b. induction s as [| c s IH]; intros b; cbn [encode_utf8].
  - intros Hb. apply Ok_inj in Hb. subst b. reflexivity.
  - intros Hb.
    apply bind_Ok in Hb. destruct Hb as (bc & Hc & Hb).
    apply bind_Ok in Hb. destruct Hb as (r & Hr & Hb).
    apply Ok_inj in Hb. subst b.
    rewrite (decode_utf8_form h c bc r) by (apply utf8_encode_char_form, Hc).
    rewrite (IH r Hr). reflexivity.
Qed.

Lemma encode_utf8_octets (s : str) (b : bytes) :
  encode_utf8 s = Ok b -> is_bytes b = true.
Proof.
  revert b. induction s as [| c s IH]; intros b; cbn [encode_utf8].
  - intros Hb. apply Ok_inj in Hb. subst b. reflexivity.
  - intros Hb.
    apply bind_Ok in Hb. destruct Hb as (bc & Hc & Hb).
    apply bind_Ok in Hb. destruct Hb as (r & Hr & Hb).
    apply Ok_inj in Hb. subst b. unfold is_bytes. rewrite forallb_app.
    apply utf8_encode_char_form, utf8_form_octets in Hc.
    destruct Hc as [Hc _]. unfold is_bytes in Hc, IH.
    rewrite Hc, (IH r Hr). reflexivity.
Qed.

(** Replacing never rejects: every byte sequence decodes. *)
Lemma decode_replace_total (b : bytes) :
  exists s, decode_utf8 Replace b = Ok s.
Proof.
  remember (List.length b) as n eqn:Hn.
  revert b Hn. induction n as [n IH] using (well_founded_induction lt_wf).
  intros b Hn.
  assert (Hrec : forall r, (List.length r < List.length b)%nat ->
                     exists s, decode_utf8 Replace r = Ok s).
  { intros r Hr. apply (IH (List.length r)); [subst n; exact Hr | reflexivity]. }
  clear IH Hn.
  assert (Hinv : forall r, (List.length r < List.length b)%nat ->
                     exists s, invalid Replace (decode_utf8 Replace r) = Ok s).
  { intros r Hr. destruct (Hrec r Hr) as [s Hs]. cbn [invalid].
    rewrite Hs. cbn. eauto. }
  assert (Hemit : forall c r, (List.length r < List.length b)%nat ->
                     exists s, emit c (decode_utf8 Replace r) = Ok s).
  { intros c r Hr. destruct (Hrec r Hr) as [s Hs].
    rewrite Hs. cbn. eauto. }
  assert (Hend : exists s, invalid Replace (Ok []) = Ok s) by (cbn; eauto).
  destruct b as [| b0 r0]; [cbn; eauto |].
  cbn [decode_utf8].
  repeat match goal with
    | |- context [if ?c then _ else _] => destruct c
    | |- context [match ?r with [] => _ | _ :: _ => _ end] =>
        is_var r; destruct r
    end;
    first [ exact Hend | apply Hinv; cbn; lia | apply Hemit; cbn; lia ].
Qed.

End Utf8Strings.

(** ** The request body *)

Section FetchBody.
Import Py Wire.

Lemma tag_of_arith (n : Z) : Wire.tag_of n = n * 8 + 2.
Proof.
  unfold Wire.tag_of. rewrite Z.shiftl_mul_pow2 by lia.
  apply (lor_low_high n 2 3); lia.
Qed.

Lemma len_nonneg {A : Type} (l : list A) : 0 <= len l.
Proof. unfold len. lia. Qed.

Lemma len_app {A : Type} (l l' : list A) : len (l ++ l') = len l + len l'.
Proof. unfold len. rewrite length_app. lia. Qed.

Lemma firstn_len_app {A : Type} (l r : list A) :
  firstn (Z.to_nat (len l)) (l ++ r) = l.
Proof.
  unfold len. rewrite Nat2Z.id.
  induction l as [| x l IH]; cbn; [destruct r; reflexivity | f_equal; exact IH].
Qed.

Lemma skipn_len_app {A : Type} (l r : list A) :
  skipn (Z.to_nat (len l)) (l ++ r) = r.
Proof.
  unfold len. rewrite Nat2Z.id.
  induction l as [| x l IH]; cbn; [reflexivity | exact IH].
Qed.

(** One field: the segment when the value fits, [ValueError] from
    [bytes(...)] when its length does not fit a byte. *)
Lemma encode_proto_string_eq (n : Z) (value : str) (v : bytes) :
  0 <= n < 32 -> encode_utf8 value = Ok v ->
  Scraper._encode_proto_string n value
  = if len v <=? 255 then Ok (segment n v) else Raise ValueError.
Proof.
  intros Hn Hv. unfold Scraper._encode_proto_string. rewrite Hv.
  cbn [bind]. fold (tag_of n). unfold bytes_of_ints, segment.
  cbn [forallb]. unfold is_octet at 1 2. rewrite tag_of_arith.
  pose proof (len_nonneg v) as Hl.
  destruct (Z.leb_spec (len v) 255).
  - replace (0 <=? n * 8 + 2) with true by (symmetry; apply Z.leb_le; lia).
    replace (n * 8 + 2 <? 256) with true by (symmetry; apply Z.ltb_lt; lia).
    replace (0 <=? len v) with true by (symmetry; apply Z.leb_le; lia).
    replace (len v <? 256) with true by (symmetry; apply Z.ltb_lt; lia).
    reflexivity.
  - replace (len v <? 256) with false by (symmetry; apply Z.ltb_ge; lia).
    rewrite !andb_false_r. reflexivity.
Qed.

Lemma test_fetch_body_eq (server slug stream_num : str) :
  TestFetch.build_fetch_body server slug stream_num
  = Scraper.build_fetch_body server slug stream_num.
Proof.
  unfold TestFetch.build_fetch_body, Scraper.build_fetch_body.
  change TestFetch.encode_string_field with Scraper._encode_proto_string.
  destruct (Scraper._encode_proto_string 1 server); [| reflexivity].
  destruct (Scraper._encode_proto_string 2 slug); [| reflexivity].
  destruct (Scraper._encode_proto_string 3 stream_num); reflexivity.
Qed.

Lemma build_fetch_body_eq (server slug stream_num : str) (v1 v2 v3 : bytes) :
  encode_utf8 server = Ok v1 ->
  encode_utf8 slug = Ok v2 ->
  encode_utf8 stream_num = Ok v3 ->
  Scraper.build_fetch_body server slug stream_num
  = if (len v1 <=? 255) && (len v2 <=? 255) && (len v3 <=? 255)
    then Ok (segment 1 v1 ++ segment 2 v2 ++ segment 3 v3)
    else Raise ValueError.
Proof.
  intros H1 H2 H3. unfold Scraper.build_fetch_body.
  rewrite (encode_proto_string_eq 1 server v1) by (lia || assumption).
  rewrite (encode_proto_string_eq 2 slug v2) by (lia || assumption).
  rewrite (encode_proto_string_eq 3 stream_num v3) by (lia || assumption).
  destruct (len v1 <=? 255); [| reflexivity].
  destruct (len v2 <=? 255); [| reflexivity].
  destruct (len v3 <=? 255); [| reflexivity].
  cbn [bind andb]. rewrite <- app_assoc. reflexivity.
Qed.

Lemma fits_encoded (s : str) :
  fits s = true -> exists v, encode_utf8 s = Ok v /\ len v <= 255.
Proof.
  unfold fits, utf8_len. destruct (encode_utf8 s) as [v | e]; [| discriminate].
  intros H. apply Z.leb_le in H. eauto.
Qed.

Lemma read_field_segment (n : Z) (value : str) (v rest : bytes) :
  encode_utf8 value = Ok v -> len v <= 255 ->
  read_field n (segment n v ++ rest) = Some (value, rest).
Proof.
  intros Hv Hl. unfold read_field, segment. cbn [app].
  rewrite Z.eqb_refl, firstn_len_app, skipn_len_app.
  rewrite (decode_encode_utf8 Strict value v Hv).
  pose proof (len_nonneg v). pose proof (len_nonneg rest).
  replace (0 <=? len v) with true by (symmetry; apply Z.leb_le; lia).
  replace (len v <=? len (v ++ rest)) with true
    by (symmetry; apply Z.leb_le; rewrite len_app; lia).
  reflexivity.
Qed.

(** A field that is too long makes the call raise whatever the other
    fields are. *)
Lemma overlong_field_raises (server slug stream_num : str) (n : Z) :
  utf8_len server = Some n \/ utf8_len slug = Some n
  \/ utf8_len stream_num = Some n ->
  255 < n ->
  raises (Scraper.build_fetch_body server slug stream_num) = true.
Proof.
  intros Hlen Hn.
  assert (Hfield : forall k value, 0 <= k < 32 -> utf8_len value = Some n ->
            Scraper._encode_proto_string k value = Raise ValueError).
  { intros k value Hk Hv. unfold utf8_len in Hv.
    destruct (encode_utf8 value) as [v |] eqn:Ev; [| discriminate].
    injection Hv as Hv. rewrite (encode_proto_string_eq k value v Hk Ev).
    destruct (Z.leb_spec (len v) 255); [lia | reflexivity]. }
  unfold Scraper.build_fetch_body.
  destruct Hlen as [H | [H | H]].
  - rewrite (Hfield 1 server) by (lia || exact H). reflexivity.
  - rewrite (Hfield 2 slug) by (lia || exact H).
    destruct (Scraper._encode_proto_string 1 server); reflexivity.
  - rewrite (Hfield 3 stream_num) by (lia || exact H).
    destruct (Scraper._encode_proto_string 1 server); [| reflexivity].
    destruct (Scraper._encode_proto_string 2 slug); reflexivity.
Qed.

End FetchBody.

(** C1.  Round trip of the request body: when each of the three field
    values has a UTF-8 form of at most 255 bytes, [build_fetch_body]
    returns a body, and reading that body back with the same scheme (for
    fields 1, 2, 3 in order: the tag byte [(field << 3) | 2], one length
    byte, that many bytes of UTF-8 text) gives the three strings again. *)
Theorem fetch_body_round_trip (server slug stream_index : Py.str) :
  Wire.fits server = true ->
  Wire.fits slug = true ->
  Wire.fits stream_index = true ->
  exists body,
    Scraper.build_fetch_body server slug stream_index = Py.Ok body
    /\ Wire.decode body = Some (server, slug, stream_index).
Proof.
  intros F1 F2 F3.
  destruct (fits_encoded server F1) as (v1 & E1 & L1).
  destruct (fits_encoded slug F2) as (v2 & E2 & L2).
  destruct (fits_encoded stream_index F3) as (v3 & E3 & L3).
  exists (Wire.segment 1 v1 ++ Wire.segment 2 v2 ++ Wire.segment 3 v3).
  split.
  - rewrite (build_fetch_body_eq _ _ _ v1 v2 v3 E1 E2 E3).
    apply Z.leb_le in L1, L2, L3. rewrite L1, L2, L3. reflexivity.
  - unfold Wire.decode.
    rewrite (read_field_segment 1 server v1 _ E1 L1).
    rewrite (read_field_segment 2 slug v2 _ E2 L2).
    rewrite <- (app_nil_r (Wire.segment 3 v3)).
    rewrite (read_field_segment 3 stream_index v3 [] E3 L3).
    reflexivity.
Qed.

Lemma fetch_body_round_trip_witness :
  exists body,
    Scraper.build_fetch_body (Py.lit "echo") [0x20AC; 0x1F600; 0xE9] (Py.lit "1")
    = Py.Ok body
    /\ Wire.decode body = Some (Py.lit "echo", [0x20AC; 0x1F600; 0xE9], Py.lit "1").
Proof.
  apply (fetch_body_round_trip (Py.lit "echo") [0x20AC; 0x1F600; 0xE9] (Py.lit "1"));
    reflexivity.
Defined.

(** C2.  Layout of the request body: when each field value fits in 255
    UTF-8 bytes, the body is exactly the three segments of server, slug
    and stream number in this order, each made of the tag byte
    [(field << 3) | 2], one byte holding the UTF-8 byte length of the
    value, and the UTF-8 bytes of the value; nothing precedes, separates
    or follows them.  Both copies of [build_fetch_body] agree. *)
Theorem fetch_body_layout (server slug stream_num : Py.str) :
  Wire.fits server = true ->
  Wire.fits slug = true ->
  Wire.fits stream_num = true ->
  exists v1 v2 v3,
    Py.encode_utf8 server = Py.Ok v1
    /\ Py.encode_utf8 slug = Py.Ok v2
    /\ Py.encode_utf8 stream_num = Py.Ok v3
    /\ TestFetch.build_fetch_body server slug stream_num
       = Py.Ok ([Z.lor (Z.shiftl 1 3) 2; Py.len v1] ++ v1
                ++ [Z.lor (Z.shiftl 2 3) 2; Py.len v2] ++ v2
                ++ [Z.lor (Z.shiftl 3 3) 2; Py.len v3] ++ v3)
    /\ Scraper.build_fetch_body server slug stream_num
       = TestFetch.build_fetch_body server slug stream_num.
Proof.
  intros F1 F2 F3.
  destruct (fits_encoded server F1) as (v1 & E1 & L1).
  destruct (fits_encoded slug F2) as (v2 & E2 & L2).
  destruct (fits_encoded stream_num F3) as (v3 & E3 & L3).
  exists v1, v2, v3.
  split; [exact E1 |]. split; [exact E2 |]. split; [exact E3 |]. split.
  - rewrite test_fetch_body_eq.
    rewrite (build_fetch_body_eq _ _ _ v1 v2 v3 E1 E2 E3).
    apply Z.leb_le in L1, L2, L3. rewrite L1, L2, L3.
    cbn [andb]. unfold Wire.segment, Wire.tag_of.
    rewrite <- !app_assoc. reflexivity.
  - symmetry. apply test_fetch_body_eq.
Qed.

Lemma fetch_body_layout_witness :
  exists v1 v2 v3,
    Py.encode_utf8 (Py.lit "echo") = Py.Ok v1
    /\ Py.encode_utf8 [0xE9; 0x2F; 0x20AC] = Py.Ok v2
    /\ Py.encode_utf8 (Py.lit "12") = Py.Ok v3
    /\ TestFetch.build_fetch_body (Py.lit "echo") [0xE9; 0x2F; 0x20AC] (Py.lit "12")
       = Py.Ok ([Z.lor (Z.shiftl 1 3) 2; Py.len v1] ++ v1
                ++ [Z.lor (Z.shiftl 2 3) 2; Py.len v2] ++ v2
                ++ [Z.lor (Z.shiftl 3 3) 2; Py.len v3] ++ v3)
    /\ Scraper.build_fetch_body (Py.lit "echo") [0xE9; 0x2F; 0x20AC] (Py.lit "12")
       = TestFetch.build_fetch_body (Py.lit "echo") [0xE9; 0x2F; 0x20AC] (Py.lit "12").
Proof.
  apply (fetch_body_layout (Py.lit "echo") [0xE9; 0x2F; 0x20AC] (Py.lit "12"));
    reflexivity.
Defined.

(** C3.  The length limit of a field: when the three field values have
    UTF-8 forms and one of them is longer than 255 bytes,
    [build_fetch_body] raises the [ValueError] of [bytes(...)] and
    returns no body, truncated or otherwise; when none is longer than
    255 bytes (255 included) it returns a body. *)
Theorem encoding_overflow (server slug stream_num : Py.str) (n1 n2 n3 : Z) :
  Wire.utf8_len server = Some n1 ->
  Wire.utf8_len slug = Some n2 ->
  Wire.utf8_len stream_num = Some n3 ->
  (255 < n1 \/ 255 < n2 \/ 255 < n3 ->
   Scraper.build_fetch_body server slug stream_num = Py.Raise Py.ValueError)
  /\ (n1 <= 255 /\ n2 <= 255 /\ n3 <= 255 ->
      exists body, Scraper.build_fetch_body server slug stream_num = Py.Ok body).
Proof.
  unfold Wire.utf8_len. intros H1 H2 H3.
  destruct (Py.encode_utf8 server) as [v1 |] eqn:E1; [| discriminate].
  destruct (Py.encode_utf8 slug) as [v2 |] eqn:E2; [| discriminate].
  destruct (Py.encode_utf8 stream_num) as [v3 |] eqn:E3; [| discriminate].
  injection H1 as <-. injection H2 as <-. injection H3 as <-.
  rewrite (build_fetch_body_eq _ _ _ v1 v2 v3 E1 E2 E3).
  split.
  - intros Hlong.
    destruct (Z.leb_spec (Py.len v1) 255); [| reflexivity].
    destruct (Z.leb_spec (Py.len v2) 255); [| reflexivity].
    destruct (Z.leb_spec (Py.len v3) 255); [| reflexivity].
    lia.
  - intros (L1 & L2 & L3).
    apply Z.leb_le in L1, L2, L3. rewrite L1, L2, L3. cbn [andb]. eauto.
Qed.

Lemma encoding_overflow_witness :
  Scraper.build_fetch_body (Py.lit "echo") (repeat 97 256) (Py.lit "1")
  = Py.Raise Py.ValueError
  /\ exists body,
       Scraper.build_fetch_body (Py.lit "echo") (repeat 97 255) (Py.lit "1")
       = Py.Ok body.
Proof.
  split.
  - apply (encoding_overflow (Py.lit "echo") (repeat 97 256) (Py.lit "1") 4 256 1);
      [reflexivity | reflexivity | reflexivity | lia].
  - apply (encoding_overflow (Py.lit "echo") (repeat 97 255) (Py.lit "1") 4 255 1);
      [reflexivity | reflexivity | reflexivity | lia].
Defined.

(** ** The backtracking matcher finds what the pattern matches *)

Section Regex.
Import Py.

Lemma option_map_Some {A B : Type} (f : A -> B) (o : option A) (b : B) :
  option_map f o = Some b -> exists a, o = Some a /\ b = f a.
Proof. destruct o as [a |]; [intros [= <-]; eauto | discriminate]. Qed.

Lemma greedy_plus_sound (p : Z -> bool) (k : str -> str -> option match_obj)
    (s taken : str) (m : match_obj) :
  greedy_plus p k taken s = Some m ->
  exists w rest,
    w <> [] /\ forallb p w = true /\ s = w ++ rest
    /\ k (taken ++ w) rest = Some m.
Proof.
  revert taken. induction s as [| c s IH]; intros taken; cbn [greedy_plus].
  - discriminate.
  - destruct (p c) eqn:Hc; [| discriminate].
    destruct (greedy_plus p k (taken ++ [c]) s) as [m' |] eqn:Hg.
    + intros [= <-]. destruct (IH _ Hg) as (w & rest & Hw & Hp & -> & Hk).
      exists (c :: w), rest. rewrite <- app_assoc in Hk.
      cbn [forallb app]. rewrite Hc, Hp. repeat split; [discriminate | exact Hk].
    + intros Hk. exists [c], s. cbn [forallb app]. rewrite Hc.
      repeat split; [discriminate | exact Hk].
Qed.

Lemma greedy_plus_complete (p : Z -> bool) (k : str -> str -> option match_obj)
    (w rest taken : str) (m : match_obj) :
  w <> [] -> forallb p w = true ->
  k (taken ++ w) rest = Some m ->
  exists m', greedy_plus p k taken (w ++ rest) = Some m'.
Proof.
  revert taken. induction w as [| c w IH]; intros taken Hw Hp Hk.
  - contradiction.
  - cbn [forallb] in Hp. apply andb_true_iff in Hp. destruct Hp as [Hc Hp].
    cbn [app greedy_plus]. rewrite Hc.
    destruct w as [| c' w].
    + cbn [app]. destruct (greedy_plus p k (taken ++ [c]) rest); eauto.
    + destruct (IH (taken ++ [c])) as [m' Hm'];
        [discriminate | exact Hp | rewrite <- app_assoc; exact Hk |].
      rewrite Hm'. eauto.
Qed.

Lemma match_here_sound (re : regex) (s : str) (m : match_obj) :
  match_here re s = Some m -> matches re s m.
Proof.
  revert s m. induction re as [| n re IH]; intros s m; cbn [match_here].
  - intros [= <-]. constructor.
  - destruct n as [c | c | cl | cl |].
    + destruct s as [| c' s]; [discriminate |].
      destruct (Z.eqb_spec c' c) as [-> |]; [| discriminate].
      intros H. apply option_map_Some in H. destruct H as (m' & H & ->).
      constructor. apply IH, H.
    + destruct s as [| c' s].
      * intros H. apply M_maybe_skipped, IH, H.
      * destruct (Z.eqb_spec c' c) as [-> |].
        -- destruct (match_here re s) as [m' |] eqn:Hm; cbn [option_map].
           ++ intros [= <-]. apply M_maybe_taken, IH, Hm.
           ++ intros H. apply M_maybe_skipped, IH, H.
        -- intros H. apply M_maybe_skipped, IH, H.
    + intros H. apply greedy_plus_sound in H.
      destruct H as (w & rest & Hw & Hp & -> & H).
      apply option_map_Some in H. destruct H as (m' & H & ->).
      apply M_plus; auto.
    + intros H. apply greedy_plus_sound in H.
      destruct H as (w & rest & Hw & Hp & -> & H).
      apply option_map_Some in H. destruct H as (m' & H & ->).
      apply M_cap_plus; auto.
    + destruct s as [| c [| c' s]].
      * intros H. apply M_end_of_string; auto.
      * destruct (Z.eqb_spec c 10) as [-> |]; [| discriminate].
        intros H. apply M_end_of_string; auto.
      * discriminate.
Qed.

Lemma match_here_complete (re : regex) (s : str) (m : match_obj) :
  matches re s m -> exists m', match_here re s = Some m'.
Proof.
  induction 1 as [ s | c re s m _ [m' IH] | c re s m _ [m' IH]
                 | c re s m _ [m' IH] | cl re w s m Hw Hp _ [m' IH]
                 | cl re w s m Hw Hp _ [m' IH] | re s m Hs _ [m' IH] ];
    cbn [match_here].
  - eauto.
  - rewrite Z.eqb_refl, IH. cbn. eauto.
  - rewrite Z.eqb_refl, IH. cbn. eauto.
  - rewrite IH.
    destruct s as [| c' s']; [eauto |].
    destruct (c' =? c); [| eauto].
    destruct (match_here re s'); cbn; eauto.
  - apply (greedy_plus_complete _ _ w s [] (prepend w m')); auto.
    cbn [app]. rewrite IH. reflexivity.
  - apply (greedy_plus_complete _ _ w s [] (capture w m')); auto.
    cbn [app]. rewrite IH. reflexivity.
  - destruct Hs as [-> | ->]; [| cbn]; eauto.
Qed.

End Regex.

(** ** The embed URL pattern *)

Section EmbedPattern.
Import Py Shape.

Ltac invert_matches :=
  repeat match goal with
    | H : matches (_ :: _) _ _ |- _ => inversion H; subst; clear H
    | H : matches [] _ _ |- _ => inversion H; subst; clear H
    end.

Ltac eval_pattern re H :=
  let r := eval vm_compute in re in change re with r in H.

Lemma embed_re_accepted (url : str) (m : match_obj) :
  matches Scraper.embed_re url m ->
  accepted url (group 1 m) (group 2 m) (group 3 m).
Proof.
  intros H. eval_pattern Scraper.embed_re H. invert_matches.
  all: match goal with
       | Ht : ?t = [] \/ ?t = [10]
         |- accepted (_ :: _ :: _ :: _ :: 115 :: _ :: _ :: _ :: ?h ++ _) _ _ _ =>
           exists (lit "https"), h, t; split; [right; reflexivity |]
       | Ht : ?t = [] \/ ?t = [10]
         |- accepted (_ :: _ :: _ :: _ :: 58 :: _ :: _ :: ?h ++ _) _ _ _ =>
           exists (lit "http"), h, t; split; [left; reflexivity |]
       end.
  all: split; [assumption |].
  all: split; [unfold assemble; rewrite <- !app_assoc; reflexivity |].
  all: split; [unfold components; repeat split; assumption | assumption].
Qed.

Lemma accepted_matches (url server slug digits : str) :
  accepted url server slug digits ->
  exists m, matches Scraper.embed_re url m.
Proof.
  intros (scheme & host & tail & Hscheme & Htail & -> & Hc & Hline).
  destruct Hc as (Hh & Hhs & Hs & Hss & Hl & Hd & Hdd).
  unfold assemble. rewrite <- !app_assoc.
  destruct Hscheme as [-> | ->]; cbn; eexists;
    repeat apply M_char;
    [apply M_maybe_skipped | apply M_maybe_taken];
    repeat apply M_char;
    (apply M_plus; [exact Hh | exact Hhs |]);
    repeat apply M_char;
    (apply M_cap_plus; [exact Hs | exact Hss |]);
    apply M_char;
    (apply M_cap_plus; [exact Hl | exact Hline |]);
    apply M_char;
    (apply M_cap_plus; [exact Hd | exact Hdd |]);
    (apply M_end_of_string; [exact Htail |]);
    apply M_end.
Qed.

(** Where a run of characters of a class ends is determined by the
    string. *)
Lemma run_unique (p : Z -> bool) (w w' : str) (x x' : Z) (r r' : str) :
  forallb p w = true -> forallb p w' = true ->
  p x = false -> p x' = false ->
  w ++ x :: r = w' ++ x' :: r' ->
  w = w' /\ x :: r = x' :: r'.
Proof.
  revert w'. induction w as [| c w IH]; intros [| c' w'] Hw Hw' Hx Hx' E;
    cbn [app forallb] in *.
  - split; [reflexivity | exact E].
  - injection E as -> _. apply andb_true_iff in Hw'. destruct Hw' as [Hc _].
    congruence.
  - injection E as -> _. apply andb_true_iff in Hw. destruct Hw as [Hc _].
    congruence.
  - injection E as -> E.
    apply andb_true_iff in Hw, Hw'.
    destruct (IH w' (proj2 Hw) (proj2 Hw') Hx Hx' E) as [-> E'].
    split; [reflexivity | exact E'].
Qed.

Lemma forallb_rev (p : Z -> bool) (l : str) :
  forallb p (rev l) = forallb p l.
Proof.
  induction l as [| c l IH]; [reflexivity |].
  cbn [rev forallb]. rewrite forallb_app, IH. cbn [forallb].
  rewrite andb_true_r. apply andb_comm.
Qed.

(** The last occurrence of a character splits a string in one way. *)
Lemma last_split_unique (p : Z -> bool) (a a' t t' : str) (x : Z) :
  forallb p t = true -> forallb p t' = true -> p x = false ->
  a ++ x :: t = a' ++ x :: t' ->
  a = a' /\ t = t'.
Proof.
  intros Ht Ht' Hx E. apply (f_equal (@rev Z)) in E.
  rewrite !rev_app_distr in E. cbn [rev] in E. rewrite <- !app_assoc in E.
  cbn [app] in E.
  apply run_unique with (p := p) in E;
    [| rewrite forallb_rev; assumption | rewrite forallb_rev; assumption
     | assumption | assumption ].
  destruct E as [Et Ea]. injection Ea as Ea.
  split.
  - rewrite <- (rev_involutive a), <- (rev_involutive a'). f_equal. exact Ea.
  - rewrite <- (rev_involutive t), <- (rev_involutive t'). f_equal. exact Et.
Qed.

Lemma decimal_not_slash (c : Z) :
  is_decimal c = true -> in_class (NotChar 47) c = true.
Proof.
  intros H. cbn [in_class]. destruct (Z.eqb_spec c 47) as [-> |]; [| reflexivity].
  discriminate H.
Qed.

Lemma digits_tail_no_slash (digits tail : str) :
  all_decimal digits = true -> tail = [] \/ tail = [10] ->
  forallb (in_class (NotChar 47)) (digits ++ tail) = true.
Proof.
  intros Hd Ht. rewrite forallb_app. apply andb_true_iff. split.
  - apply forallb_forall. intros c Hc. apply decimal_not_slash.
    unfold all_decimal in Hd. rewrite forallb_forall in Hd. auto.
  - destruct Ht as [-> | ->]; reflexivity.
Qed.

Lemma digits_tail_unique (d d' tail tail' : str) :
  all_decimal d = true -> all_decimal d' = true ->
  tail = [] \/ tail = [10] -> tail' = [] \/ tail' = [10] ->
  d ++ tail = d' ++ tail' -> d = d'.
Proof.
  unfold all_decimal.
  intros Hd Hd' [-> | ->] [-> | ->] E.
  - rewrite !app_nil_r in E. exact E.
  - rewrite app_nil_r in E. subst d. rewrite forallb_app in Hd.
    apply andb_true_iff in Hd. destruct Hd as [_ Hd]. discriminate Hd.
  - rewrite app_nil_r in E. subst d'. rewrite forallb_app in Hd'.
    apply andb_true_iff in Hd'. destruct Hd' as [_ Hd']. discriminate Hd'.
  - apply app_inv_tail in E. exact E.
Qed.

Lemma accepted_unique (url sv sl d sv' sl' d' : str) :
  accepted url sv sl d -> accepted url sv' sl' d' ->
  sv = sv' /\ sl = sl' /\ d = d'.
Proof.
  intros (scheme & host & tail & Hscheme & Htail & -> & Hc & Hline).
  intros (scheme' & host' & tail' & Hscheme' & Htail' & E & Hc' & Hline').
  destruct Hc as (Hh & Hhs & Hs & Hss & Hl & Hd & Hdd).
  destruct Hc' as (Hh' & Hhs' & Hs' & Hss' & Hl' & Hd' & Hdd').
  unfold assemble in E. rewrite <- !app_assoc in E.
  assert (E1 : host ++ lit "/embed/" ++ sv ++ lit "/" ++ sl ++ lit "/" ++ d ++ tail
               = host' ++ lit "/embed/" ++ sv' ++ lit "/" ++ sl' ++ lit "/" ++ d' ++ tail').
  { destruct Hscheme as [-> | ->], Hscheme' as [-> | ->]; cbn in E.
    - injection E as E. exact E.
    - discriminate E.
    - discriminate E.
    - injection E as E. exact E. }
  clear E. cbn in E1.
  apply run_unique with (p := in_class (NotChar 47)) in E1;
    [| assumption | assumption | reflexivity | reflexivity].
  destruct E1 as [_ E2]. injection E2 as E2.
  apply run_unique with (p := in_class (NotChar 47)) in E2;
    [| assumption | assumption | reflexivity | reflexivity].
  destruct E2 as [-> E3]. injection E3 as E3.
  apply last_split_unique with (p := in_class (NotChar 47)) in E3;
    [| apply digits_tail_no_slash; assumption
     | apply digits_tail_no_slash; assumption | reflexivity].
  destruct E3 as [-> E4].
  apply digits_tail_unique in E4; try assumption.
  subst d'. repeat split.
Qed.

(** [parse_embed_url] returns the three groups exactly on the
    accepted strings. *)
Lemma parse_embed_url_iff (url server slug digits : str) :
  Scraper.parse_embed_url url = Some (server, slug, digits)
  <-> accepted url server slug digits.
Proof.
  unfold Scraper.parse_embed_url, re_match. split.
  - destruct (match_here Scraper.embed_re url) as [m |] eqn:Hm; [| discriminate].
    intros [= <- <- <-]. apply embed_re_accepted, match_here_sound, Hm.
  - intros Hacc. destruct (accepted_matches _ _ _ _ Hacc) as [m0 Hm0].
    destruct (match_here_complete _ _ _ Hm0) as [m Hm]. rewrite Hm.
    apply match_here_sound, embed_re_accepted in Hm.
    destruct (accepted_unique _ _ _ _ _ _ _ Hm Hacc) as (-> & -> & ->).
    reflexivity.
Qed.

Lemma parse_embed_url_None (url : str) :
  Scraper.parse_embed_url url = None
  <-> forall server slug digits, ~ accepted url server slug digits.
Proof.
  split.
  - intros Hn server slug digits Hacc.
    apply parse_embed_url_iff in Hacc. congruence.
  - intros Hno. destruct (Scraper.parse_embed_url url) as [[[sv sl] d] |] eqn:Hp;
      [| reflexivity].
    apply parse_embed_url_iff in Hp. destruct (Hno _ _ _ Hp).
Qed.

Lemma test_fetch_parse_eq (url : str) :
  TestFetch.parse_embed_url url
  = match Scraper.parse_embed_url url with
    | Some r => Ok r
    | None => Raise ValueError
    end.
Proof.
  unfold TestFetch.parse_embed_url, Scraper.parse_embed_url.
  destruct (re_match Scraper.embed_re url); reflexivity.
Qed.

Lemma embed_shape_ends_decimal (url : str) :
  embed_shape url -> exists u c, url = u ++ [c] /\ is_decimal c = true.
Proof.
  intros (scheme & host & server & slug & digits & -> & Hc).
  destruct Hc as (_ & _ & _ & _ & _ & Hd & Hdd).
  destruct (exists_last Hd) as (d & c & ->).
  exists (scheme ++ lit "://" ++ host ++ lit "/embed/" ++ server ++ lit "/"
          ++ slug ++ lit "/" ++ d), c.
  split.
  - unfold assemble. rewrite <- !app_assoc. reflexivity.
  - unfold all_decimal in Hdd. rewrite forallb_app in Hdd.
    apply andb_true_iff in Hdd. destruct Hdd as [_ Hdd].
    cbn [forallb] in Hdd. rewrite andb_true_r in Hdd. exact Hdd.
Qed.

(** Outside the shape, and outside the shape followed by one line
    feed, nothing is parsed. *)
Lemma parse_rejects_outside_shape (url : str) :
  ~ embed_shape url ->
  (forall u, url = u ++ [10] -> ~ embed_shape u) ->
  Scraper.parse_embed_url url = None
  /\ TestFetch.parse_embed_url url = Raise ValueError.
Proof.
  intros Hshape Hfeed.
  assert (Hn : Scraper.parse_embed_url url = None).
  { apply parse_embed_url_None. intros server slug digits Hacc.
    destruct Hacc as (scheme & host & tail & _ & Htail & E & Hc & _).
    destruct Htail as [-> | ->].
    - rewrite app_nil_r in E. apply Hshape.
      exists scheme, host, server, slug, digits. auto.
    - apply (Hfeed _ E). exists scheme, host, server, slug, digits. auto. }
  split; [exact Hn |]. rewrite test_fetch_parse_eq, Hn. reflexivity.
Qed.

End EmbedPattern.

Example parse_rejects_not_embed :
  Scraper.parse_embed_url (Py.lit "https://host/not-embed/x/1") = None
  /\ TestFetch.parse_embed_url (Py.lit "https://host/not-embed/x/1")
     = Py.Raise Py.ValueError.
Proof. split; reflexivity. Qed.

Example parse_rejects_empty_slug :
  Scraper.parse_embed_url (Py.lit "https://host/embed/echo//1") = None
  /\ Scraper.parse_embed_url (Py.lit "https://host/embed//slug/1") = None
  /\ Scraper.parse_embed_url (Py.lit "https://host/embed/echo/slug/") = None.
Proof. repeat split; reflexivity. Qed.

(** A slug of two lines is not matched: [.] stops at a line feed. *)
Example parse_rejects_line_feed_in_slug :
  Scraper.parse_embed_url
    (Shape.assemble (Py.lit "https") (Py.lit "host") (Py.lit "echo")
       (Py.lit "a" ++ [10] ++ Py.lit "b") (Py.lit "1")) = None.
Proof. reflexivity. Qed.

(** [\d] is any decimal digit of Unicode: ARABIC-INDIC DIGIT THREE is
    one. *)
Example parse_accepts_other_decimal_digits :
  Scraper.parse_embed_url (Py.lit "http://host/embed/echo/a/" ++ [0x663])
  = Some (Py.lit "echo", Py.lit "a", [0x663]).
Proof. reflexivity. Qed.

(** C4, counterexample to the claim as stated: a URL of the shape with
    the scheme [ftp] is not parsed. *)
Lemma parse_rejects_other_scheme :
  Shape.components (Py.lit "host") (Py.lit "echo")
    (Py.lit "team-a-vs-team-b-12345") (Py.lit "1")
  /\ Scraper.parse_embed_url
       (Shape.assemble (Py.lit "ftp") (Py.lit "host") (Py.lit "echo")
          (Py.lit "team-a-vs-team-b-12345") (Py.lit "1")) = None.
Proof.
  split; [| reflexivity].
  unfold Shape.components. repeat split; (discriminate || reflexivity).
Qed.

(** C4, amended.  For every URL [scheme://host/embed/<server>/<slug>/<digits>]
    whose scheme is [http] or [https], whose host and server name are
    not empty and contain no [/], whose slug is not empty, may contain
    [/] and contains no line feed, and whose digits are one or more
    decimal digits, [parse_embed_url] returns the server name, the whole
    slug and the digits as they stand in the URL; this holds for both
    copies of the function. *)
Theorem parse_embed_url_shape (scheme host server slug digits : Py.str) :
  Shape.web_scheme scheme ->
  Shape.components host server slug digits ->
  Shape.no_line_feed slug = true ->
  Scraper.parse_embed_url (Shape.assemble scheme host server slug digits)
  = Some (server, slug, digits)
  /\ TestFetch.parse_embed_url (Shape.assemble scheme host server slug digits)
     = Py.Ok (server, slug, digits).
Proof.
  intros Hscheme Hc Hline.
  assert (Hp : Scraper.parse_embed_url (Shape.assemble scheme host server slug digits)
               = Some (server, slug, digits)).
  { apply parse_embed_url_iff. exists scheme, host, []. rewrite app_nil_r. auto. }
  split; [exact Hp |]. rewrite test_fetch_parse_eq, Hp. reflexivity.
Qed.

Lemma parse_embed_url_shape_witness :
  Scraper.parse_embed_url (Py.lit "https://host/embed/echo/team-a-vs-team-b-12345/1")
  = Some (Py.lit "echo", Py.lit "team-a-vs-team-b-12345", Py.lit "1")
  /\ TestFetch.parse_embed_url (Py.lit "https://host/embed/echo/team-a-vs-team-b-12345/1")
     = Py.Ok (Py.lit "echo", Py.lit "team-a-vs-team-b-12345", Py.lit "1").
Proof.
  apply (parse_embed_url_shape (Py.lit "https") (Py.lit "host") (Py.lit "echo")
           (Py.lit "team-a-vs-team-b-12345") (Py.lit "1")).
  - right. reflexivity.
  - unfold Shape.components. repeat split; (discriminate || reflexivity).
  - reflexivity.
Defined.

(** C5, where the code departs from the claim.  The URL
    [https://host/embed/echo/slug/1] followed by a line feed does not
    end in digits and so has not the shape, yet both copies of
    [parse_embed_url] return its three components: [$] also matches
    before a final line feed. *)
Theorem parse_accepts_trailing_line_feed :
  ~ Shape.embed_shape (Py.lit "https://host/embed/echo/slug/1" ++ [10])
  /\ Scraper.parse_embed_url (Py.lit "https://host/embed/echo/slug/1" ++ [10])
     = Some (Py.lit "echo", Py.lit "slug", Py.lit "1")
  /\ TestFetch.parse_embed_url (Py.lit "https://host/embed/echo/slug/1" ++ [10])
     = Py.Ok (Py.lit "echo", Py.lit "slug", Py.lit "1").
Proof.
  split; [| split; reflexivity].
  intros Hshape. apply embed_shape_ends_decimal in Hshape.
  destruct Hshape as (u & c & E & Hc).
  apply app_inj_tail in E. destruct E as [_ <-]. discriminate Hc.
Qed.

(** ** The load-balancer name in the response body *)

Section LbScan.
Import Py Scan.

Lemma take_drop_while (p : Z -> bool) (s : str) :
  s = take_while p s ++ drop_while p s.
Proof.
  induction s as [| c s IH]; [reflexivity |]. cbn [take_while drop_while].
  destruct (p c); [cbn [app]; f_equal; exact IH | reflexivity].
Qed.

Lemma take_while_all (p : Z -> bool) (s : str) :
  forallb p (take_while p s) = true.
Proof.
  induction s as [| c s IH]; [reflexivity |]. cbn [take_while].
  destruct (p c) eqn:Hc; [cbn [forallb]; rewrite Hc; exact IH | reflexivity].
Qed.

Lemma drop_while_head (p : Z -> bool) (s : str) :
  match drop_while p s with
  | c :: _ => p c = false
  | [] => True
  end.
Proof.
  induction s as [| c s IH]; [exact I |]. cbn [drop_while].
  destruct (p c) eqn:Hc; [exact IH | exact Hc].
Qed.

(** A greedy run at the end of a pattern takes the longest run. *)
Lemma greedy_plus_longest (p : Z -> bool) (taken s : str) :
  greedy_plus p (fun w rest => option_map (prepend w) (match_here [] rest))
    taken s
  = match take_while p s with
    | [] => None
    | _ :: _ => Some (taken ++ take_while p s, [])
    end.
Proof.
  revert taken. induction s as [| c s IH]; intros taken; [reflexivity |].
  cbn [greedy_plus take_while]. destruct (p c); [| reflexivity].
  rewrite IH. destruct (take_while p s) as [| c' w].
  - cbn. unfold prepend. cbn [fst snd]. rewrite app_nil_r. reflexivity.
  - rewrite <- app_assoc. reflexivity.
Qed.

Lemma match_here_lb_re (s : str) :
  match_here Scraper.lb_re s
  = match s with
    | c0 :: c1 :: rest =>
        if (c0 =? 108) && (c1 =? 98) then
          match take_while is_decimal rest with
          | [] => None
          | _ :: _ => Some (108 :: 98 :: take_while is_decimal rest, [])
          end
        else None
    | _ => None
    end.
Proof.
  change Scraper.lb_re with [Char 108; Char 98; Plus Digit].
  destruct s as [| c0 [| c1 rest]]; cbn [match_here].
  - reflexivity.
  - destruct (c0 =? 108); reflexivity.
  - destruct (c0 =? 108); [| reflexivity].
    destruct (c1 =? 98); [| reflexivity]. cbn [andb].
    rewrite greedy_plus_longest. change (in_class Digit) with is_decimal.
    destruct (take_while is_decimal rest); reflexivity.
Qed.

Lemma match_here_lb_none (text : str) :
  match_here Scraper.lb_re text = None -> ~ lb_digit_at text [].
Proof.
  intros Hn (d & post & -> & Hd).
  change ([] ++ lit "lb" ++ d :: post) with (108 :: 98 :: d :: post) in Hn.
  rewrite match_here_lb_re, !Z.eqb_refl in Hn.
  cbn [andb take_while] in Hn. rewrite Hd in Hn. discriminate Hn.
Qed.

Lemma match_here_lb_some (text : str) (m : match_obj) :
  match_here Scraper.lb_re text = Some m -> first_lb text (group0 m).
Proof.
  rewrite match_here_lb_re.
  destruct text as [| c0 [| c1 rest]]; try discriminate.
  destruct (Z.eqb_spec c0 108) as [-> |]; [| discriminate].
  destruct (Z.eqb_spec c1 98) as [-> |]; [| discriminate]. cbn [andb].
  destruct (take_while is_decimal rest) as [| d w] eqn:Hw; [discriminate |].
  intros [= <-].
  exists [], (d :: w), (drop_while is_decimal rest).
  split; [| split; [| split; [| split; [| split]]]].
  - change ([] ++ lit "lb" ++ (d :: w) ++ drop_while is_decimal rest)
      with (108 :: 98 :: (d :: w) ++ drop_while is_decimal rest).
    rewrite <- Hw. do 2 f_equal. apply take_drop_while.
  - discriminate.
  - rewrite <- Hw. apply take_while_all.
  - reflexivity.
  - intros pre' _. cbn. lia.
  - apply drop_while_head.
Qed.

Lemma lb_digit_at_cons (c : Z) (text pre : str) :
  lb_digit_at (c :: text) pre ->
  pre = [] \/ exists pre', pre = c :: pre' /\ lb_digit_at text pre'.
Proof.
  intros (d & post & E & Hd). destruct pre as [| c' pre']; [left; reflexivity |].
  right. cbn [app] in E. injection E as <- E. exists pre'. split; [reflexivity |].
  exists d, post. auto.
Qed.

Lemma re_search_lb (text : str) :
  (exists m, re_search Scraper.lb_re text = Some m /\ first_lb text (group0 m))
  \/ (re_search Scraper.lb_re text = None /\ no_lb text).
Proof.
  induction text as [| c text IH]; cbn [re_search].
  - right. split; [reflexivity |].
    intros pre (d & post & E & _). destruct pre; discriminate E.
  - destruct (match_here Scraper.lb_re (c :: text)) as [m |] eqn:Hm.
    + left. exists m. split; [reflexivity | apply match_here_lb_some, Hm].
    + apply match_here_lb_none in Hm.
      destruct IH as [(m & Hs & Hf) | (Hs & Hno)].
      * left. exists m. split; [exact Hs |].
        destruct Hf as (pre & digits & post & -> & Hne & Hall & Hfound & Hleft & Hmax).
        exists (c :: pre), digits, post.
        split; [reflexivity |]. split; [exact Hne |]. split; [exact Hall |].
        split; [exact Hfound |]. split; [| exact Hmax].
        intros pre' Hat. pose proof Hat as Hat'. apply lb_digit_at_cons in Hat.
        destruct Hat as [-> | (pre'' & -> & Hat)].
        -- destruct (Hm Hat').
        -- cbn [List.length]. apply Hleft in Hat. lia.
      * right. split; [exact Hs |].
        intros pre Hat. pose proof Hat as Hat'. apply lb_digit_at_cons in Hat.
        destruct Hat as [-> | (pre'' & -> & Hat)].
        -- exact (Hm Hat').
        -- exact (Hno _ Hat).
Qed.

End LbScan.

(** ** The token exchange *)

Section Exchange.
Import Py Requests Scraper.

Lemma get_stream_url_eq (embed_url server slug stream_num : str) (body : bytes) :
  parse_embed_url embed_url = Some (server, slug, stream_num) ->
  build_fetch_body server slug stream_num = Ok body ->
  get_stream_url embed_url
  = Post (mkRequest EMBED_API body (fetch_headers embed_url) 15)
         (on_outcome server slug stream_num).
Proof. intros Hp Hb. unfold get_stream_url. rewrite Hp, Hb. reflexivity. Qed.

(** After its request [get_stream_url] posts and prints nothing. *)
Lemma on_outcome_silent (net : Request -> outcome)
    (server slug stream_num : str) (out : outcome) :
  fst (run net (on_outcome server slug stream_num out)) = [].
Proof.
  unfold on_outcome. destruct out as [resp | text | e]; [| reflexivity ..].
  destruct (raise_for_status resp); [reflexivity |].
  destruct (falsy (headers_get "goat" (headers resp))); [reflexivity |].
  destruct (decode_utf8 Replace (content resp)); reflexivity.
Qed.

(** An answered or failed request always ends in a dictionary. *)
Lemma on_outcome_returns (server slug stream_num : str) (out : outcome) :
  (forall e, out <> Aborted e) ->
  exists d, on_outcome server slug stream_num out = Return d.
Proof.
  intros Hout. unfold on_outcome.
  destruct out as [resp | text | e]; [| eauto | destruct (Hout e eq_refl)].
  destruct (raise_for_status resp); [eauto |].
  destruct (falsy (headers_get "goat" (headers resp))); [eauto |].
  destruct (decode_replace_total (content resp)) as [body_str ->]. eauto.
Qed.

Lemma on_outcome_token (server slug stream_num : str) (resp : Response)
    (token body_str : str) :
  raise_for_status resp = None ->
  headers_get "goat" (headers resp) = Some token -> token <> [] ->
  decode_utf8 Replace (content resp) = Ok body_str ->
  on_outcome server slug stream_num (Responded resp)
  = Return [("goat"%string, token);
            ("lb"%string, lb_server_of body_str);
            ("m3u8"%string,
             m3u8_of (lb_server_of body_str) token server slug stream_num)].
Proof.
  intros Hs Hg Ht Hd. unfold on_outcome. rewrite Hs, Hg, Hd.
  destruct token; [contradiction | reflexivity].
Qed.

Lemma on_outcome_no_token (server slug stream_num : str) (resp : Response) :
  raise_for_status resp = None ->
  falsy (headers_get "goat" (headers resp)) = true ->
  on_outcome server slug stream_num (Responded resp)
  = Return [("error"%string, lit "No goat header in response")].
Proof. intros Hs Hf. unfold on_outcome. rewrite Hs, Hf. reflexivity. Qed.

Lemma run_get_stream_url (net : Request -> outcome)
    (embed_url server slug stream_num : str) (body : bytes) (d : dict str) :
  parse_embed_url embed_url = Some (server, slug, stream_num) ->
  build_fetch_body server slug stream_num = Ok body ->
  on_outcome server slug stream_num
    (net (mkRequest EMBED_API body (fetch_headers embed_url) 15)) = Return d ->
  run net (get_stream_url embed_url)
  = ([Posted (mkRequest EMBED_API body (fetch_headers embed_url) 15)], Ok d).
Proof.
  intros Hp Hb Hd. rewrite (get_stream_url_eq _ _ _ _ _ Hp Hb).
  cbn [run]. rewrite Hd. reflexivity.
Qed.

(** The requests of [get_stream_url]: none, or the one to the fetch
    endpoint with the body and the headers of the source. *)
Lemma get_stream_url_posts (net : Request -> outcome) (embed_url : str) :
  posts (fst (run net (get_stream_url embed_url))) = []
  \/ exists body,
       posts (fst (run net (get_stream_url embed_url)))
       = [mkRequest EMBED_API body (fetch_headers embed_url) 15].
Proof.
  unfold get_stream_url.
  destruct (parse_embed_url embed_url) as [[[server slug] stream_num] |];
    [| left; reflexivity].
  destruct (build_fetch_body server slug stream_num) as [body |];
    [| left; reflexivity].
  right. exists body. cbn [run].
  pose proof (on_outcome_silent net server slug stream_num
                (net (mkRequest EMBED_API body (fetch_headers embed_url) 15)))
    as Hsilent.
  destruct (run net (on_outcome server slug stream_num
                       (net (mkRequest EMBED_API body (fetch_headers embed_url) 15))))
    as [t r].
  cbn [fst] in Hsilent. subst t. reflexivity.
Qed.

(** [fetch_stream_url] of [test_fetch.py] prints the status code and
    the headers of every answer; without a token it returns the empty
    dictionary. *)
Lemma test_fetch_no_token (net : Request -> outcome)
    (embed_url server slug num : str) (resp : Response) :
  TestFetch.truthy (headers_get "goat" (headers resp)) = false ->
  exists t,
    run net (TestFetch.on_outcome embed_url server slug num (Responded resp))
    = (Printed [Text (lit "  Status: "); IntVal (status_code resp)]
       :: Printed [Text (lit "  Headers: "); DictVal (headers resp)]
       :: t,
       Ok []).
Proof.
  intros Hf. unfold TestFetch.on_outcome.
  destruct (decode_replace_total (content resp)) as [body_str Hd].
  rewrite Hd, Hf. cbn [run]. eexists. reflexivity.
Qed.

End Exchange.

(** C6.  The playlist URL: when the embed URL parses to
    [(server, slug, stream_num)], the request is answered without an
    HTTP error and with a non-empty [goat] token, [get_stream_url]
    returns under [m3u8] exactly
    [https://{lb}.strmd.top/secure/{token}/{server}/stream/{slug}/{stream_num}/playlist.m3u8],
    with the token, the load-balancer name and the three components put
    in as they are. *)
Theorem playlist_url_template (net : Requests.Request -> Requests.outcome)
    (embed_url server slug stream_num : Py.str) (body : Py.bytes)
    (resp : Requests.Response) (token body_str : Py.str) :
  Scraper.parse_embed_url embed_url = Some (server, slug, stream_num) ->
  Scraper.build_fetch_body server slug stream_num = Py.Ok body ->
  net (Requests.mkRequest Scraper.EMBED_API body
         (Scraper.fetch_headers embed_url) 15) = Requests.Responded resp ->
  Requests.raise_for_status resp = None ->
  Requests.headers_get "goat" (Requests.headers resp) = Some token ->
  token <> [] ->
  Py.decode_utf8 Py.Replace (Requests.content resp) = Py.Ok body_str ->
  snd (Requests.run net (Scraper.get_stream_url embed_url))
  = Py.Ok [("goat"%string, token);
           ("lb"%string, Scraper.lb_server_of body_str);
           ("m3u8"%string,
            Py.lit "https://" ++ Scraper.lb_server_of body_str
            ++ Py.lit ".strmd.top/secure/" ++ token
            ++ Py.lit "/" ++ server ++ Py.lit "/stream/" ++ slug
            ++ Py.lit "/" ++ stream_num ++ Py.lit "/playlist.m3u8")].
Proof.
  intros Hp Hb Hnet Hs Hg Ht Hd.
  rewrite (run_get_stream_url net _ _ _ _ body _ Hp Hb
             ltac:(rewrite Hnet; apply (on_outcome_token _ _ _ _ _ _ Hs Hg Ht Hd))).
  reflexivity.
Qed.

Lemma playlist_url_template_witness :
  snd (Requests.run
         (Sample.always
            (Sample.answer 200 "OK" [("goat"%string, Py.lit "abc123")]
               ([0x0A; 0x04] ++ Py.lit "lb10" ++ [0xFF])))
         (Scraper.get_stream_url
            (Py.lit "https://host/embed/echo/team-a-vs-team-b-12345/1")))
  = Py.Ok [("goat"%string, Py.lit "abc123");
           ("lb"%string, Py.lit "lb10");
           ("m3u8"%string,
            Py.lit "https://lb10.strmd.top/secure/abc123/echo/stream/team-a-vs-team-b-12345/1/playlist.m3u8")].
Proof.
  eapply (playlist_url_template _
           (Py.lit "https://host/embed/echo/team-a-vs-team-b-12345/1")
           (Py.lit "echo") (Py.lit "team-a-vs-team-b-12345") (Py.lit "1")
           ([10; 4] ++ Py.lit "echo" ++ [18; 22] ++ Py.lit "team-a-vs-team-b-12345"
            ++ [26; 1] ++ Py.lit "1")
           _ (Py.lit "abc123") ([0x0A; 0x04] ++ Py.lit "lb10" ++ [0xFFFD]));
    first [reflexivity | discriminate].
Defined.

(** C7, counterexample to the claim as stated: two answers without a
    token that differ in their status code and in their headers leave
    the same trace and the same result, so neither the status code nor
    the headers reach the caller. *)
Lemma missing_token_drops_status :
  Requests.status_code Sample.ok_200 <> Requests.status_code Sample.no_content_204
  /\ Requests.headers Sample.ok_200 <> Requests.headers Sample.no_content_204
  /\ Requests.run (Sample.always Sample.ok_200) (Scraper.get_stream_url Sample.url)
     = Requests.run (Sample.always Sample.no_content_204)
         (Scraper.get_stream_url Sample.url)
  /\ snd (Requests.run (Sample.always Sample.ok_200)
            (Scraper.get_stream_url Sample.url))
     = Py.Ok [("error"%string, Py.lit "No goat header in response")].
Proof.
  split; [discriminate |]. split; [discriminate |]. split; reflexivity.
Qed.

(** C7, amended.  When the request is answered without an HTTP error
    and the answer has no [goat] header, or an empty one,
    [get_stream_url] posts that one request and returns the dictionary
    whose only entry is the error [No goat header in response]: no
    resolution, and nothing of the answer besides that message. *)
Theorem missing_token_reported (net : Requests.Request -> Requests.outcome)
    (embed_url server slug stream_num : Py.str) (body : Py.bytes)
    (resp : Requests.Response) :
  Scraper.parse_embed_url embed_url = Some (server, slug, stream_num) ->
  Scraper.build_fetch_body server slug stream_num = Py.Ok body ->
  net (Requests.mkRequest Scraper.EMBED_API body
         (Scraper.fetch_headers embed_url) 15) = Requests.Responded resp ->
  Requests.raise_for_status resp = None ->
  Scraper.falsy (Requests.headers_get "goat" (Requests.headers resp)) = true ->
  Requests.run net (Scraper.get_stream_url embed_url)
  = ([Requests.Posted (Requests.mkRequest Scraper.EMBED_API body
                         (Scraper.fetch_headers embed_url) 15)],
     Py.Ok [("error"%string, Py.lit "No goat header in response")]).
Proof.
  intros Hp Hb Hnet Hs Hf.
  apply (run_get_stream_url net _ _ _ _ body _ Hp Hb).
  rewrite Hnet. apply on_outcome_no_token; assumption.
Qed.

Lemma missing_token_reported_witness :
  Requests.run (Sample.always Sample.ok_200) (Scraper.get_stream_url Sample.url)
  = ([Requests.Posted
        (Requests.mkRequest Scraper.EMBED_API Sample.body
           (Scraper.fetch_headers Sample.url) 15)],
     Py.Ok [("error"%string, Py.lit "No goat header in response")]).
Proof.
  eapply (missing_token_reported _ Sample.url
            (Py.lit "echo") (Py.lit "slug") (Py.lit "1")); reflexivity.
Defined.

(** C8.  The load-balancer name: the response body always decodes
    (ill-formed UTF-8 is replaced, not rejected); the name is the first
    substring of the decoded text made of [lb] and one or more decimal
    digits, taken with all its digits, and it is [lb2] when the text has
    no such substring; in both cases an exchange that was answered
    without an HTTP error and with a token returns its dictionary with
    that name. *)
Theorem lb_server_extraction (server slug stream_num : Py.str)
    (resp : Requests.Response) (token : Py.str) :
  Requests.raise_for_status resp = None ->
  Requests.headers_get "goat" (Requests.headers resp) = Some token ->
  token <> [] ->
  exists body_str m3u8,
    Py.decode_utf8 Py.Replace (Requests.content resp) = Py.Ok body_str
    /\ (Scan.first_lb body_str (Scraper.lb_server_of body_str)
        \/ (Scan.no_lb body_str /\ Scraper.lb_server_of body_str = Py.lit "lb2"))
    /\ Scraper.on_outcome server slug stream_num (Requests.Responded resp)
       = Requests.Return [("goat"%string, token);
                          ("lb"%string, Scraper.lb_server_of body_str);
                          ("m3u8"%string, m3u8)].
Proof.
  intros Hs Hg Ht.
  destruct (decode_replace_total (Requests.content resp)) as [body_str Hd].
  exists body_str. eexists. split; [exact Hd |]. split.
  - unfold Scraper.lb_server_of.
    destruct (re_search_lb body_str) as [(m & -> & Hf) | (-> & Hno)].
    + left. exact Hf.
    + right. split; [exact Hno | reflexivity].
  - apply (on_outcome_token _ _ _ _ _ _ Hs Hg Ht Hd).
Qed.

Lemma lb_server_extraction_witness :
  exists body_str m3u8,
    Py.decode_utf8 Py.Replace [0xFF; 0x6C; 0x62; 0xE2; 0x82] = Py.Ok body_str
    /\ (Scan.first_lb body_str (Scraper.lb_server_of body_str)
        \/ (Scan.no_lb body_str /\ Scraper.lb_server_of body_str = Py.lit "lb2"))
    /\ Scraper.on_outcome (Py.lit "echo") (Py.lit "slug") (Py.lit "1")
         (Requests.Responded
            (Sample.answer 200 "OK" [("Goat"%string, Py.lit "abc123")]
               [0xFF; 0x6C; 0x62; 0xE2; 0x82]))
       = Requests.Return [("goat"%string, Py.lit "abc123");
                          ("lb"%string, Scraper.lb_server_of body_str);
                          ("m3u8"%string, m3u8)].
Proof.
  apply (lb_server_extraction (Py.lit "echo") (Py.lit "slug") (Py.lit "1")
           (Sample.answer 200 "OK" [("Goat"%string, Py.lit "abc123")]
              [0xFF; 0x6C; 0x62; 0xE2; 0x82])
           (Py.lit "abc123"));
    first [reflexivity | discriminate].
Defined.

Example lb_server_fallback :
  Py.decode_utf8 Py.Replace [0xFF; 0x6C; 0x62; 0xE2; 0x82]
  = Py.Ok [0xFFFD; 0x6C; 0x62; 0xFFFD]
  /\ Scraper.lb_server_of [0xFFFD; 0x6C; 0x62; 0xFFFD] = Py.lit "lb2"
  /\ Scraper.lb_server_of (Py.lit "xlb-lb10lb3") = Py.lit "lb10".
Proof. repeat split; reflexivity. Qed.

(** C9, counterexample to the claim as stated: for an embed URL on the
    host [host] the request is sent with the origin of the embed
    service, which is not the host of the URL. *)
Lemma origin_is_not_url_host :
  map (fun rq => Py.dict_get "Origin" (Requests.req_headers rq))
    (Requests.posts
       (fst (Requests.run (Sample.always Sample.ok_200)
               (Scraper.get_stream_url
                  (Shape.assemble (Py.lit "https") (Py.lit "host") (Py.lit "echo")
                     (Py.lit "slug") (Py.lit "1"))))))
  = [Some (Py.lit "https://embedsporty.top")]
  /\ Py.lit "https://embedsporty.top" <> Py.lit "host"
  /\ Py.lit "https://embedsporty.top" <> Py.lit "https://host".
Proof. split; [reflexivity |]. split; discriminate. Qed.

(** C9, amended.  Every request that [get_stream_url] posts goes to
    the fetch endpoint with [Content-Type] set to
    [application/octet-stream], [Referer] set to the embed URL it was
    given, and [Origin] set to the fixed origin
    [https://embedsporty.top]. *)
Theorem fetch_request_headers (net : Requests.Request -> Requests.outcome)
    (embed_url : Py.str) (rq : Requests.Request) :
  In rq (Requests.posts (fst (Requests.run net (Scraper.get_stream_url embed_url)))) ->
  Requests.req_url rq = Py.lit "https://embedsporty.top/fetch"
  /\ Py.dict_get "Content-Type" (Requests.req_headers rq)
     = Some (Py.lit "application/octet-stream")
  /\ Py.dict_get "Referer" (Requests.req_headers rq) = Some embed_url
  /\ Py.dict_get "Origin" (Requests.req_headers rq)
     = Some (Py.lit "https://embedsporty.top").
Proof.
  intros Hin.
  destruct (get_stream_url_posts net embed_url) as [E | [body E]];
    rewrite E in Hin.
  - destruct Hin.
  - destruct Hin as [<- | []]. repeat split.
Qed.

Lemma fetch_request_headers_witness :
  Requests.req_url
    (Requests.mkRequest Scraper.EMBED_API Sample.body
       (Scraper.fetch_headers Sample.url) 15)
  = Py.lit "https://embedsporty.top/fetch"
  /\ Py.dict_get "Content-Type" (Scraper.fetch_headers Sample.url)
     = Some (Py.lit "application/octet-stream")
  /\ Py.dict_get "Referer" (Scraper.fetch_headers Sample.url) = Some Sample.url
  /\ Py.dict_get "Origin" (Scraper.fetch_headers Sample.url)
     = Some (Py.lit "https://embedsporty.top").
Proof.
  apply (fetch_request_headers (Sample.always Sample.ok_200) Sample.url
           (Requests.mkRequest Scraper.EMBED_API Sample.body
              (Scraper.fetch_headers Sample.url) 15)).
  left. reflexivity.
Defined.

(** ** More on [get_stream_url]: what it returns and what it sends *)

Section Outcomes.
Import Py Requests Scraper.

Lemma raise_for_status_None (resp : Response) :
  raise_for_status resp = None
  <-> (status_code resp < 400 \/ 600 <= status_code resp).
Proof.
  unfold raise_for_status.
  destruct (Z.leb_spec 400 (status_code resp)) as [H1 | H1];
    destruct (Z.ltb_spec (status_code resp) 500) as [H2 | H2];
    destruct (Z.leb_spec 500 (status_code resp)) as [H3 | H3];
    destruct (Z.ltb_spec (status_code resp) 600) as [H4 | H4];
    cbn [andb]; split; intros Hx; try discriminate Hx; try reflexivity; lia.
Qed.

Lemma falsy_false (v : option str) :
  falsy v = false -> exists c t, v = Some (c :: t).
Proof. destruct v as [[| c t] |]; try discriminate. eauto. Qed.

(** The three results of the code behind the request. *)
Lemma on_outcome_cases (server slug stream_num : str) (out : outcome) :
  (exists e, out = Aborted e
             /\ on_outcome server slug stream_num out = Throw e)
  \/ (exists text, on_outcome server slug stream_num out
                   = Return [("error"%string, text)])
  \/ (exists resp token body_str,
        out = Responded resp
        /\ raise_for_status resp = None
        /\ headers_get "goat" (headers resp) = Some token /\ token <> []
        /\ decode_utf8 Replace (content resp) = Ok body_str
        /\ on_outcome server slug stream_num out
           = Return [("goat"%string, token);
                     ("lb"%string, lb_server_of body_str);
                     ("m3u8"%string,
                      m3u8_of (lb_server_of body_str) token
                        server slug stream_num)]).
Proof.
  destruct out as [resp | text | e].
  - destruct (raise_for_status resp) as [text |] eqn:Hs.
    + right. left. exists text. unfold on_outcome. rewrite Hs. reflexivity.
    + destruct (falsy (headers_get "goat" (headers resp))) eqn:Hf.
      * right. left. eexists. apply on_outcome_no_token; assumption.
      * right. right. apply falsy_false in Hf. destruct Hf as (c & t & Hg).
        destruct (decode_replace_total (content resp)) as [body_str Hd].
        exists resp, (c :: t), body_str.
        repeat (split; [first [reflexivity | assumption | discriminate] |]).
        apply on_outcome_token; [assumption | assumption | discriminate | assumption].
  - right. left. exists text. reflexivity.
  - left. exists e. split; reflexivity.
Qed.

Lemma build_fetch_body_fits (server slug stream_num : str) (body : bytes) :
  build_fetch_body server slug stream_num = Ok body ->
  Wire.fits server = true /\ Wire.fits slug = true
  /\ Wire.fits stream_num = true.
Proof.
  assert (Hfield : forall k value f, 0 <= k < 32 ->
            _encode_proto_string k value = Ok f -> Wire.fits value = true).
  { intros k value f Hk. unfold Wire.fits, Wire.utf8_len.
    destruct (encode_utf8 value) as [v |] eqn:Ev.
    - rewrite (encode_proto_string_eq k value v Hk Ev).
      destruct (Py.len v <=? 255); [reflexivity | discriminate].
    - unfold _encode_proto_string. rewrite Ev. discriminate. }
  unfold build_fetch_body. intros Hb.
  apply bind_Ok in Hb. destruct Hb as (f1 & H1 & Hb).
  apply bind_Ok in Hb. destruct Hb as (f2 & H2 & Hb).
  apply bind_Ok in Hb. destruct Hb as (f3 & H3 & _).
  repeat split; [apply (Hfield 1 _ f1) | apply (Hfield 2 _ f2)
                 | apply (Hfield 3 _ f3)]; (lia || assumption).
Qed.

Lemma build_then_decode (server slug stream_num : str) (body : bytes) :
  build_fetch_body server slug stream_num = Ok body ->
  Wire.decode body = Some (server, slug, stream_num).
Proof.
  intros Hb. destruct (build_fetch_body_fits _ _ _ _ Hb) as (F1 & F2 & F3).
  destruct (fits_encoded server F1) as (v1 & E1 & L1).
  destruct (fits_encoded slug F2) as (v2 & E2 & L2).
  destruct (fits_encoded stream_num F3) as (v3 & E3 & L3).
  rewrite (build_fetch_body_eq _ _ _ v1 v2 v3 E1 E2 E3) in Hb.
  pose proof L1 as L1'. pose proof L2 as L2'. pose proof L3 as L3'.
  apply Z.leb_le in L1', L2', L3'. rewrite L1', L2', L3' in Hb.
  cbn [andb] in Hb. apply Ok_inj in Hb. subst body.
  unfold Wire.decode.
  rewrite (read_field_segment 1 server v1 _ E1 L1).
  rewrite (read_field_segment 2 slug v2 _ E2 L2).
  rewrite <- (app_nil_r (Wire.segment 3 v3)).
  rewrite (read_field_segment 3 stream_num v3 [] E3 L3).
  reflexivity.
Qed.

End Outcomes.

(** X1.  What [get_stream_url] can return: the empty dictionary without
    any request; or, after its one request, either a dictionary whose
    only entry is [error], or the three entries [goat], [lb], [m3u8]
    with a non-empty token.  It prints nothing. *)
Theorem get_stream_url_results (net : Requests.Request -> Requests.outcome)
    (embed_url : Py.str) (t : list Requests.event) (d : Py.dict Py.str) :
  Requests.run net (Scraper.get_stream_url embed_url) = (t, Py.Ok d) ->
  (t = [] /\ d = [])
  \/ (exists rq text,
        t = [Requests.Posted rq] /\ d = [("error"%string, text)])
  \/ (exists rq goat lb m3u8,
        t = [Requests.Posted rq] /\ goat <> []
        /\ d = [("goat"%string, goat); ("lb"%string, lb);
                ("m3u8"%string, m3u8)]).
Proof.
  unfold Scraper.get_stream_url.
  destruct (Scraper.parse_embed_url embed_url) as [[[server slug] stream_num] |].
  - destruct (Scraper.build_fetch_body server slug stream_num) as [body | e];
      [| discriminate].
    cbn [Requests.run].
    destruct (on_outcome_cases server slug stream_num
                (net (Requests.mkRequest Scraper.EMBED_API body
                        (Scraper.fetch_headers embed_url) 15)))
      as [(e & _ & ->) | [(text & ->) | (resp & token & body_str & _ & _ & _ & Ht & _ & ->)]];
      cbn [Requests.run]; intros H; inversion H; subst.
    + right. left. eauto.
    + right. right. eexists _, token, _, _. repeat split. exact Ht.
  - cbn [Requests.run]. intros H. inversion H. left. split; reflexivity.
Qed.

Lemma get_stream_url_results_witness :
  ([Requests.Posted
      (Requests.mkRequest Scraper.EMBED_API Sample.body
         (Scraper.fetch_headers Sample.url) 15)] = []
   /\ [("error"%string, Py.lit "No goat header in response")] = [])
  \/ (exists rq text,
        [Requests.Posted
           (Requests.mkRequest Scraper.EMBED_API Sample.body
              (Scraper.fetch_headers Sample.url) 15)] = [Requests.Posted rq]
        /\ [("error"%string, Py.lit "No goat header in response")]
           = [("error"%string, text)])
  \/ (exists rq goat lb m3u8,
        [Requests.Posted
           (Requests.mkRequest Scraper.EMBED_API Sample.body
              (Scraper.fetch_headers Sample.url) 15)] = [Requests.Posted rq]
        /\ goat <> []
        /\ [("error"%string, Py.lit "No goat header in response")]
           = [("goat"%string, goat); ("lb"%string, lb); ("m3u8"%string, m3u8)]).
Proof.
  apply (get_stream_url_results (Sample.always Sample.ok_200) Sample.url).
  reflexivity.
Defined.

(** X2.  The body of the request that [get_stream_url] posts reads back,
    with the tag/length/value scheme, as the three components that
    [parse_embed_url] took from the URL. *)
Theorem posted_body_decodes (net : Requests.Request -> Requests.outcome)
    (embed_url : Py.str) (rq : Requests.Request) :
  In rq (Requests.posts (fst (Requests.run net (Scraper.get_stream_url embed_url)))) ->
  exists server slug stream_num,
    Scraper.parse_embed_url embed_url = Some (server, slug, stream_num)
    /\ Wire.decode (Requests.req_data rq) = Some (server, slug, stream_num).
Proof.
  unfold Scraper.get_stream_url.
  destruct (Scraper.parse_embed_url embed_url) as [[[server slug] stream_num] |];
    [| intros []].
  destruct (Scraper.build_fetch_body server slug stream_num) as [body | e] eqn:Hb;
    [| intros []].
  cbn [Requests.run].
  pose proof (on_outcome_silent net server slug stream_num
                (net (Requests.mkRequest Scraper.EMBED_API body
                        (Scraper.fetch_headers embed_url) 15))) as Hsilent.
  destruct (Requests.run net _) as [t r]. cbn [fst] in Hsilent. subst t.
  intros [<- | []]. exists server, slug, stream_num.
  split; [reflexivity | apply build_then_decode, Hb].
Qed.

Lemma posted_body_decodes_witness :
  exists server slug stream_num,
    Scraper.parse_embed_url Sample.url = Some (server, slug, stream_num)
    /\ Wire.decode Sample.body = Some (server, slug, stream_num).
Proof.
  apply (posted_body_decodes (Sample.always Sample.ok_200) Sample.url
           (Requests.mkRequest Scraper.EMBED_API Sample.body
              (Scraper.fetch_headers Sample.url) 15)).
  left. reflexivity.
Defined.

(** X3.  [get_stream_url] returns the empty dictionary, without a
    request, exactly for the strings that are not an [http] or [https]
    URL of the form [.../embed/<server>/<slug>/<digits>], followed or
    not by one line feed. *)
Theorem empty_result_iff_unparsed (net : Requests.Request -> Requests.outcome)
    (embed_url : Py.str) :
  Requests.run net (Scraper.get_stream_url embed_url) = ([], Py.Ok [])
  <-> (forall server slug digits,
         ~ Shape.accepted embed_url server slug digits).
Proof.
  rewrite <- parse_embed_url_None.
  unfold Scraper.get_stream_url.
  destruct (Scraper.parse_embed_url embed_url) as [[[server slug] stream_num] |].
  - split; [| discriminate].
    destruct (Scraper.build_fetch_body server slug stream_num) as [body | e];
      [| discriminate].
    cbn [Requests.run]. destruct (Requests.run net _). discriminate.
  - split; reflexivity.
Qed.

(** X4.  [get_stream_url] returns a playlist URL exactly when the URL
    parses, the body can be built, the request is answered with a
    status outside 400..599 and the answer has a non-empty [goat]
    header. *)
Theorem playlist_iff_token_issued (net : Requests.Request -> Requests.outcome)
    (embed_url : Py.str) :
  (exists d m3u8,
     snd (Requests.run net (Scraper.get_stream_url embed_url)) = Py.Ok d
     /\ Py.dict_get "m3u8" d = Some m3u8)
  <-> (exists server slug stream_num body resp c token,
         Scraper.parse_embed_url embed_url = Some (server, slug, stream_num)
         /\ Scraper.build_fetch_body server slug stream_num = Py.Ok body
         /\ net (Requests.mkRequest Scraper.EMBED_API body
                   (Scraper.fetch_headers embed_url) 15)
            = Requests.Responded resp
         /\ (Requests.status_code resp < 400 \/ 600 <= Requests.status_code resp)
         /\ Requests.headers_get "goat" (Requests.headers resp)
            = Some (c :: token)).
Proof.
  split.
  - intros (d & m3u8 & Hrun & Hm). revert Hrun.
    unfold Scraper.get_stream_url.
    destruct (Scraper.parse_embed_url embed_url) as [[[server slug] stream_num] |];
      [| cbn; intros H; apply Ok_inj in H; subst d; discriminate Hm].
    destruct (Scraper.build_fetch_body server slug stream_num) as [body | e] eqn:Hb;
      [| discriminate].
    cbn [Requests.run].
    destruct (on_outcome_cases server slug stream_num
                (net (Requests.mkRequest Scraper.EMBED_API body
                        (Scraper.fetch_headers embed_url) 15)))
      as [(e & _ & ->) | [(text & ->) | (resp & token & body_str & Hnet & Hs & Hg & Ht & _ & ->)]];
      cbn [Requests.run snd].
    + discriminate.
    + intros H. apply Ok_inj in H. subst d. discriminate Hm.
    + intros _. destruct token as [| c token]; [contradiction |].
      exists server, slug, stream_num, body, resp, c, token.
      apply raise_for_status_None in Hs. auto.
  - intros (server & slug & stream_num & body & resp & c & token
            & Hp & Hb & Hnet & Hs & Hg).
    apply raise_for_status_None in Hs.
    destruct (decode_replace_total (Requests.content resp)) as [body_str Hd].
    rewrite (run_get_stream_url net _ _ _ _ body _ Hp Hb
               ltac:(rewrite Hnet;
                     apply (on_outcome_token _ _ _ _ (c :: token) _ Hs Hg
                              ltac:(discriminate) Hd))).
    eexists _, _. split; reflexivity.
Qed.

(** X5.  A component of more than 255 UTF-8 bytes makes
    [get_stream_url] raise [ValueError] before any request is sent: the
    body is built outside the [try]. *)
Theorem overlong_field_escapes (net : Requests.Request -> Requests.outcome)
    (embed_url server slug stream_num : Py.str) (n1 n2 n3 : Z) :
  Scraper.parse_embed_url embed_url = Some (server, slug, stream_num) ->
  Wire.utf8_len server = Some n1 ->
  Wire.utf8_len slug = Some n2 ->
  Wire.utf8_len stream_num = Some n3 ->
  255 < n1 \/ 255 < n2 \/ 255 < n3 ->
  Requests.run net (Scraper.get_stream_url embed_url)
  = ([], Py.Raise Py.ValueError).
Proof.
  unfold Wire.utf8_len. intros Hp H1 H2 H3 Hlong.
  destruct (Py.encode_utf8 server) as [v1 |] eqn:E1; [| discriminate].
  destruct (Py.encode_utf8 slug) as [v2 |] eqn:E2; [| discriminate].
  destruct (Py.encode_utf8 stream_num) as [v3 |] eqn:E3; [| discriminate].
  injection H1 as <-. injection H2 as <-. injection H3 as <-.
  unfold Scraper.get_stream_url. rewrite Hp.
  rewrite (build_fetch_body_eq _ _ _ v1 v2 v3 E1 E2 E3).
  destruct (Z.leb_spec (Py.len v1) 255); [| reflexivity].
  destruct (Z.leb_spec (Py.len v2) 255); [| reflexivity].
  destruct (Z.leb_spec (Py.len v3) 255); [| reflexivity].
  lia.
Qed.

Lemma overlong_field_escapes_witness :
  Requests.run (Sample.always Sample.ok_200)
    (Scraper.get_stream_url
       (Py.lit "https://host/embed/echo/" ++ repeat 97 256 ++ Py.lit "/1"))
  = ([], Py.Raise Py.ValueError).
Proof.
  apply (overlong_field_escapes (Sample.always Sample.ok_200) _
           (Py.lit "echo") (repeat 97 256) (Py.lit "1") 4 256 1);
    first [reflexivity | lia].
Defined.

(** X6.  The load-balancer name is always [lb] followed by one or more
    decimal digits, whatever the response body holds. *)
Theorem lb_server_form (body_str : Py.str) :
  exists digits,
    Scraper.lb_server_of body_str = Py.lit "lb" ++ digits
    /\ digits <> [] /\ forallb Py.is_decimal digits = true.
Proof.
  unfold Scraper.lb_server_of.
  destruct (re_search_lb body_str) as [(m & -> & Hf) | (-> & _)].
  - destruct Hf as (pre & digits & post & _ & Hne & Hall & -> & _).
    exists digits. auto.
  - exists [50]. repeat split. discriminate.
Qed.

(** X7.  What [parse_embed_url] returns are components of the URL it
    was given: the URL is [http://] or [https://], a host, [/embed/],
    the server, [/], the slug, [/], the digits, and at most one line
    feed; host and server are not empty and have no [/], the slug is
    not empty and has no line feed, the digits are one or more decimal
    digits. *)
Theorem parse_embed_url_components (embed_url server slug digits : Py.str) :
  Scraper.parse_embed_url embed_url = Some (server, slug, digits) ->
  exists scheme host tail,
    (scheme = Py.lit "http" \/ scheme = Py.lit "https")
    /\ (tail = [] \/ tail = [10])
    /\ embed_url = scheme ++ Py.lit "://" ++ host ++ Py.lit "/embed/"
                   ++ server ++ Py.lit "/" ++ slug ++ Py.lit "/" ++ digits ++ tail
    /\ host <> [] /\ Shape.no_slash host = true
    /\ server <> [] /\ Shape.no_slash server = true
    /\ slug <> [] /\ Shape.no_line_feed slug = true
    /\ digits <> [] /\ Shape.all_decimal digits = true.
Proof.
  intros Hp. apply parse_embed_url_iff in Hp.
  destruct Hp as (scheme & host & tail & Hscheme & Htail & -> & Hc & Hline).
  destruct Hc as (Hh & Hhs & Hs & Hss & Hl & Hd & Hdd).
  exists scheme, host, tail.
  split; [exact Hscheme |]. split; [exact Htail |].
  split; [unfold Shape.assemble; rewrite <- !app_assoc; reflexivity |].
  repeat split; assumption.
Qed.

Lemma parse_embed_url_components_witness :
  exists scheme host tail,
    (scheme = Py.lit "http" \/ scheme = Py.lit "https")
    /\ (tail = [] \/ tail = [10])
    /\ Py.lit "http://h/embed/s/a/b/7" ++ [10]
       = scheme ++ Py.lit "://" ++ host ++ Py.lit "/embed/"
         ++ Py.lit "s" ++ Py.lit "/" ++ Py.lit "a/b" ++ Py.lit "/" ++ Py.lit "7" ++ tail
    /\ host <> [] /\ Shape.no_slash host = true
    /\ Py.lit "s" <> [] /\ Shape.no_slash (Py.lit "s") = true
    /\ Py.lit "a/b" <> [] /\ Shape.no_line_feed (Py.lit "a/b") = true
    /\ Py.lit "7" <> [] /\ Shape.all_decimal (Py.lit "7") = true.
Proof.
  apply (parse_embed_url_components (Py.lit "http://h/embed/s/a/b/7" ++ [10])).
  reflexivity.
Defined.

(** ** [fetch_stream_url] of [test_fetch.py] beside [get_stream_url] *)

Section Siblings.
Import Py Requests.

Lemma fetch_stream_url_eq (embed_url server slug num : str) (body : bytes) :
  Scraper.parse_embed_url embed_url = Some (server, slug, num) ->
  Scraper.build_fetch_body server slug num = Ok body ->
  TestFetch.fetch_stream_url embed_url
  = Post (mkRequest Scraper.EMBED_API body (Scraper.fetch_headers embed_url) 10)
         (TestFetch.on_outcome embed_url server slug num).
Proof.
  intros Hp Hb. unfold TestFetch.fetch_stream_url.
  rewrite test_fetch_parse_eq, Hp, test_fetch_body_eq, Hb. reflexivity.
Qed.

(** After its request [fetch_stream_url] only prints. *)
Lemma test_on_outcome_posts (net : Request -> outcome)
    (embed_url server slug num : str) (out : outcome) :
  posts (fst (run net (TestFetch.on_outcome embed_url server slug num out))) = [].
Proof.
  unfold TestFetch.on_outcome. destruct out as [resp | text | e]; [| reflexivity ..].
  cbn [run].
  destruct (decode_utf8 Replace (content resp)); [| reflexivity].
  cbn [run].
  destruct (TestFetch.truthy (headers_get "goat" (headers resp))); reflexivity.
Qed.

Lemma fetch_stream_url_posts (net : Request -> outcome) (embed_url : str) :
  posts (fst (run net (TestFetch.fetch_stream_url embed_url))) = []
  \/ exists body,
       posts (fst (run net (TestFetch.fetch_stream_url embed_url)))
       = [mkRequest Scraper.EMBED_API body (Scraper.fetch_headers embed_url) 10].
Proof.
  destruct (Scraper.parse_embed_url embed_url) as [[[server slug] num] |] eqn:Hp.
  - destruct (Scraper.build_fetch_body server slug num) as [body | e] eqn:Hb.
    + right. exists body. rewrite (fetch_stream_url_eq _ _ _ _ _ Hp Hb).
      cbn [run].
      pose proof (test_on_outcome_posts net embed_url server slug num
                    (net (mkRequest Scraper.EMBED_API body
                            (Scraper.fetch_headers embed_url) 10))) as Hq.
      destruct (run net (TestFetch.on_outcome embed_url server slug num _))
        as [t r].
      cbn [fst posts flat_map app] in *. rewrite Hq. reflexivity.
    + left. unfold TestFetch.fetch_stream_url.
      rewrite test_fetch_parse_eq, Hp, test_fetch_body_eq, Hb. reflexivity.
  - left. unfold TestFetch.fetch_stream_url.
    rewrite test_fetch_parse_eq, Hp. reflexivity.
Qed.

End Siblings.

(** X8.  [fetch_stream_url] of [test_fetch.py] does not look at the
    status code: from any answer with a non-empty [goat] header it
    returns the embed URL, the token, the load-balancer name and the
    playlist URL made of them. *)
Theorem fetch_stream_url_any_status (net : Requests.Request -> Requests.outcome)
    (embed_url server slug num : Py.str) (body : Py.bytes)
    (resp : Requests.Response) (token body_str : Py.str) :
  Scraper.parse_embed_url embed_url = Some (server, slug, num) ->
  Scraper.build_fetch_body server slug num = Py.Ok body ->
  net (Requests.mkRequest Scraper.EMBED_API body
         (Scraper.fetch_headers embed_url) 10) = Requests.Responded resp ->
  Requests.headers_get "goat" (Requests.headers resp) = Some token ->
  token <> [] ->
  Py.decode_utf8 Py.Replace (Requests.content resp) = Py.Ok body_str ->
  snd (Requests.run net (TestFetch.fetch_stream_url embed_url))
  = Py.Ok [("embed_url"%string, embed_url);
           ("goat_token"%string, token);
           ("lb_server"%string, Scraper.lb_server_of body_str);
           ("m3u8"%string,
            Py.lit "https://" ++ Scraper.lb_server_of body_str
            ++ Py.lit ".strmd.top/secure/" ++ token
            ++ Py.lit "/" ++ server ++ Py.lit "/stream/" ++ slug
            ++ Py.lit "/" ++ num ++ Py.lit "/playlist.m3u8")].
Proof.
  intros Hp Hb Hnet Hg Ht Hd.
  rewrite (fetch_stream_url_eq _ _ _ _ _ Hp Hb).
  cbn [Requests.run]. rewrite Hnet. unfold TestFetch.on_outcome.
  rewrite Hd, Hg. destruct token as [| c token]; [contradiction |].
  reflexivity.
Qed.

Lemma fetch_stream_url_any_status_witness :
  snd (Requests.run
         (Sample.always
            (Sample.answer 404 "Not Found" [("goat"%string, Py.lit "abc123")]
               (Py.lit "lb10")))
         (TestFetch.fetch_stream_url Sample.url))
  = Py.Ok [("embed_url"%string, Sample.url);
           ("goat_token"%string, Py.lit "abc123");
           ("lb_server"%string, Py.lit "lb10");
           ("m3u8"%string,
            Py.lit "https://lb10.strmd.top/secure/abc123/echo/stream/slug/1/playlist.m3u8")].
Proof.
  eapply (fetch_stream_url_any_status _ Sample.url
            (Py.lit "echo") (Py.lit "slug") (Py.lit "1") Sample.body
            _ (Py.lit "abc123") (Py.lit "lb10"));
    first [reflexivity | discriminate].
Defined.

(** X9.  The two copies of the exchange send the same request, URL,
    body and headers alike, but for the timeout: 15 in [scraper.py],
    10 in [test_fetch.py]. *)
Theorem same_request_two_timeouts (net1 net2 : Requests.Request -> Requests.outcome)
    (embed_url : Py.str) (rq1 rq2 : Requests.Request) :
  In rq1 (Requests.posts
            (fst (Requests.run net1 (Scraper.get_stream_url embed_url)))) ->
  In rq2 (Requests.posts
            (fst (Requests.run net2 (TestFetch.fetch_stream_url embed_url)))) ->
  Requests.req_url rq1 = Requests.req_url rq2
  /\ Requests.req_data rq1 = Requests.req_data rq2
  /\ Requests.req_headers rq1 = Requests.req_headers rq2
  /\ Requests.req_timeout rq1 = 15 /\ Requests.req_timeout rq2 = 10.
Proof.
  intros H1 H2.
  destruct (Scraper.parse_embed_url embed_url) as [[[server slug] num] |] eqn:Hp.
  - destruct (Scraper.build_fetch_body server slug num) as [body | e] eqn:Hb.
    + rewrite (get_stream_url_eq _ _ _ _ _ Hp Hb) in H1.
      rewrite (fetch_stream_url_eq _ _ _ _ _ Hp Hb) in H2.
      cbn [Requests.run] in H1, H2.
      pose proof (on_outcome_silent net1 server slug num
                    (net1 (Requests.mkRequest Scraper.EMBED_API body
                             (Scraper.fetch_headers embed_url) 15))) as S1.
      pose proof (test_on_outcome_posts net2 embed_url server slug num
                    (net2 (Requests.mkRequest Scraper.EMBED_API body
                             (Scraper.fetch_headers embed_url) 10))) as S2.
      destruct (Requests.run net1 _) as [t1 r1].
      destruct (Requests.run net2 _) as [t2 r2].
      cbn [fst Requests.posts flat_map app] in *. subst t1. rewrite S2 in H2.
      destruct H1 as [<- | []]. destruct H2 as [<- | []].
      repeat split.
    + unfold Scraper.get_stream_url in H1. rewrite Hp, Hb in H1. destruct H1.
  - unfold Scraper.get_stream_url in H1. rewrite Hp in H1. destruct H1.
Qed.

Lemma same_request_two_timeouts_witness :
  Scraper.EMBED_API = Scraper.EMBED_API
  /\ Sample.body = Sample.body
  /\ Scraper.fetch_headers Sample.url = Scraper.fetch_headers Sample.url
  /\ 15 = 15 /\ 10 = 10.
Proof.
  apply (same_request_two_timeouts (Sample.always Sample.ok_200)
           (Sample.always Sample.ok_200) Sample.url
           (Requests.mkRequest Scraper.EMBED_API Sample.body
              (Scraper.fetch_headers Sample.url) 15)
           (Requests.mkRequest Scraper.EMBED_API Sample.body
              (Scraper.fetch_headers Sample.url) 10));
    left; reflexivity.
Defined.

(** X10.  The two copies fail differently.  For a URL that the pattern
    rejects, [fetch_stream_url] raises [ValueError] where
    [get_stream_url] returns the empty dictionary; neither sends a
    request. *)
Theorem rejected_url_raises_or_empty (net : Requests.Request -> Requests.outcome)
    (embed_url : Py.str) :
  Scraper.parse_embed_url embed_url = None ->
  Requests.run net (TestFetch.fetch_stream_url embed_url)
  = ([], Py.Raise Py.ValueError)
  /\ Requests.run net (Scraper.get_stream_url embed_url) = ([], Py.Ok []).
Proof.
  intros Hp. unfold TestFetch.fetch_stream_url, Scraper.get_stream_url.
  rewrite test_fetch_parse_eq, Hp. split; reflexivity.
Qed.

Lemma rejected_url_raises_or_empty_witness :
  Requests.run (Sample.always Sample.ok_200)
    (TestFetch.fetch_stream_url (Py.lit "https://host/stream/echo/slug/1"))
  = ([], Py.Raise Py.ValueError)
  /\ Requests.run (Sample.always Sample.ok_200)
       (Scraper.get_stream_url (Py.lit "https://host/stream/echo/slug/1"))
     = ([], Py.Ok []).
Proof.
  apply (rejected_url_raises_or_empty (Sample.always Sample.ok_200)
           (Py.lit "https://host/stream/echo/slug/1")).
  reflexivity.
Defined.

(** X11.  A request that fails with a [RequestException] is an error
    entry in [scraper.py] and an exception in [test_fetch.py], which
    has no [try]; in both cases nothing is printed. *)
Theorem request_failure_two_ways (net1 net2 : Requests.Request -> Requests.outcome)
    (embed_url server slug num : Py.str) (body : Py.bytes) (text : Py.str) :
  Scraper.parse_embed_url embed_url = Some (server, slug, num) ->
  Scraper.build_fetch_body server slug num = Py.Ok body ->
  net1 (Requests.mkRequest Scraper.EMBED_API body
          (Scraper.fetch_headers embed_url) 15) = Requests.Failed text ->
  net2 (Requests.mkRequest Scraper.EMBED_API body
          (Scraper.fetch_headers embed_url) 10) = Requests.Failed text ->
  Requests.run net1 (Scraper.get_stream_url embed_url)
  = ([Requests.Posted (Requests.mkRequest Scraper.EMBED_API body
                         (Scraper.fetch_headers embed_url) 15)],
     Py.Ok [("error"%string, text)])
  /\ Requests.run net2 (TestFetch.fetch_stream_url embed_url)
     = ([Requests.Posted (Requests.mkRequest Scraper.EMBED_API body
                            (Scraper.fetch_headers embed_url) 10)],
        Py.Raise (Py.RequestException text)).
Proof.
  intros Hp Hb H1 H2. split.
  - apply (run_get_stream_url net1 _ _ _ _ body _ Hp Hb). rewrite H1. reflexivity.
  - rewrite (fetch_stream_url_eq _ _ _ _ _ Hp Hb). cbn [Requests.run].
    rewrite H2. reflexivity.
Qed.

Lemma request_failure_two_ways_witness :
  Requests.run (fun _ => Requests.Failed (Py.lit "timed out"))
    (Scraper.get_stream_url Sample.url)
  = ([Requests.Posted (Requests.mkRequest Scraper.EMBED_API Sample.body
                         (Scraper.fetch_headers Sample.url) 15)],
     Py.Ok [("error"%string, Py.lit "timed out")])
  /\ Requests.run (fun _ => Requests.Failed (Py.lit "timed out"))
       (TestFetch.fetch_stream_url Sample.url)
     = ([Requests.Posted (Requests.mkRequest Scraper.EMBED_API Sample.body
                            (Scraper.fetch_headers Sample.url) 10)],
        Py.Raise (Py.RequestException (Py.lit "timed out"))).
Proof.
  apply (request_failure_two_ways _ _ Sample.url
           (Py.lit "echo") (Py.lit "slug") (Py.lit "1"));
    reflexivity.
Defined.

(** ** Tests on strings *)

Section TextFacts.
Import Py Text.

Lemma str_eqb_eq (a b : str) : str_eqb a b = true <-> a = b.
Proof.
  revert b. induction a as [| x a IH]; intros [| y b]; cbn [str_eqb];
    try (split; [discriminate | discriminate]); [split; reflexivity |].
  rewrite andb_true_iff, Z.eqb_eq, IH. split.
  - intros [-> ->]. reflexivity.
  - intros [= -> ->]. split; reflexivity.
Qed.

Lemma startswith_iff (prefix s : str) :
  startswith prefix s = true <-> exists rest, s = prefix ++ rest.
Proof.
  revert s. induction prefix as [| p prefix IH]; intros s; cbn [startswith].
  - split; [intros _; exists s; reflexivity | reflexivity].
  - destruct s as [| c s].
    + split; [discriminate | intros [rest E]; discriminate E].
    + rewrite andb_true_iff, Z.eqb_eq, IH. split.
      * intros [-> [rest ->]]. exists rest. reflexivity.
      * intros [rest E]. injection E as -> ->. split; [reflexivity | eauto].
Qed.

Lemma contains_iff (needle s : str) :
  contains needle s = true <-> occurs needle s.
Proof.
  unfold occurs. induction s as [| c s IH]; cbn [contains].
  - destruct (startswith needle []) eqn:Hs.
    + apply startswith_iff in Hs. destruct Hs as [rest E].
      split; [intros _; exists [], rest; exact E | reflexivity].
    + split; [discriminate |]. intros (pre & post & E).
      destruct pre; [| discriminate E]. cbn [app] in E.
      assert (startswith needle [] = true) by (apply startswith_iff; eauto).
      congruence.
  - destruct (startswith needle (c :: s)) eqn:Hs.
    + apply startswith_iff in Hs. destruct Hs as [rest E].
      split; [intros _; exists [], rest; exact E | reflexivity].
    + rewrite IH. split.
      * intros (pre & post & ->). exists (c :: pre), post. reflexivity.
      * intros (pre & post & E). destruct pre as [| c' pre].
        -- cbn [app] in E.
           assert (startswith needle (c :: s) = true)
             by (apply startswith_iff; eauto).
           congruence.
        -- injection E as <- ->. eauto.
Qed.

Lemma mem_iff (x : str) (l : list str) : mem x l = true <-> In x l.
Proof.
  unfold mem. rewrite existsb_exists. split.
  - intros (y & Hy & E). apply str_eqb_eq in E. subst y. exact Hy.
  - intros Hx. exists x. split; [exact Hx | apply str_eqb_eq; reflexivity].
Qed.

End TextFacts.

(** ** [scrape.py]: the links that are kept and the pages that are fetched *)

Section ScrapeFacts.
Import Py Text Scrape.

Lemma search_digits_None (s : str) :
  re_search digits_re s = None <-> existsb is_decimal s = false.
Proof.
  assert (Hm : forall s, match_here digits_re s
                         = match take_while is_decimal s with
                           | [] => None
                           | _ :: _ => Some (take_while is_decimal s, [])
                           end).
  { intros s0. unfold digits_re. cbn [match_here].
    rewrite greedy_plus_longest. change (in_class Digit) with is_decimal.
    reflexivity. }
  induction s as [| c s IH]; cbn [re_search existsb].
  - rewrite Hm. cbn. split; reflexivity.
  - rewrite Hm. cbn [take_while]. destruct (is_decimal c).
    + cbn [orb]. split; discriminate.
    + cbn [orb]. exact IH.
Qed.

Lemma looks_like_event_iff (href : str) :
  looks_like_event href = true
  <-> occurs (lit "/live/") href \/ occurs (lit "/stream/") href
      \/ exists c, In c href /\ is_decimal c = true.
Proof.
  unfold looks_like_event. rewrite !orb_true_iff, !contains_iff.
  assert (Hd : match re_search digits_re href with
               | Some _ => true
               | None => false
               end = true
               <-> exists c, In c href /\ is_decimal c = true).
  { rewrite <- existsb_exists.
    destruct (re_search digits_re href) eqn:Hs.
    - split; [intros _ | reflexivity].
      destruct (existsb is_decimal href) eqn:He; [reflexivity |].
      apply search_digits_None in He. congruence.
    - apply search_digits_None in Hs. rewrite Hs. split; discriminate. }
  rewrite Hd. tauto.
Qed.

Lemma add_link_In (acc : list str) (h0 h : str) :
  In h (add_link acc h0) <-> In h acc \/ (h = h0 /\ kept h0 = true).
Proof.
  unfold add_link, kept.
  destruct (looks_like_event h0); cbn [andb].
  - destruct (mem h0 acc) eqn:Hm; cbn [negb andb].
    + apply mem_iff in Hm. split; [auto |]. intros [H | [-> _]]; assumption.
    + destruct (contains (lit "discord") h0); cbn [negb].
      * split; [auto |]. intros [H | [_ H]]; [assumption | discriminate].
      * rewrite in_app_iff. cbn [In]. split.
        -- intros [H | [<- | []]]; auto.
        -- intros [H | [-> _]]; auto.
  - split; [auto |]. intros [H | [_ H]]; [assumption | discriminate].
Qed.

Lemma NoDup_snoc (l : list str) (x : str) :
  NoDup l -> ~ In x l -> NoDup (l ++ [x]).
Proof.
  induction 1 as [| y l Hy Hl IH]; intros Hx; cbn [app].
  - constructor; [intros [] | constructor].
  - constructor.
    + rewrite in_app_iff. cbn [In]. intros [H | [-> | []]].
      * exact (Hy H).
      * apply Hx. left. reflexivity.
    + apply IH. intros H. apply Hx. right. exact H.
Qed.

Lemma add_link_NoDup (acc : list str) (h0 : str) :
  NoDup acc -> NoDup (add_link acc h0).
Proof.
  intros Hn. unfold add_link.
  destruct (looks_like_event h0); [| exact Hn].
  destruct (mem h0 acc) eqn:Hm; cbn [negb andb]; [exact Hn |].
  destruct (contains (lit "discord") h0); cbn [negb]; [exact Hn |].
  apply NoDup_snoc; [exact Hn |]. intros H. apply mem_iff in H. congruence.
Qed.

Lemma links_fold (hrefs acc : list str) :
  (forall h, In h (fold_left add_link hrefs acc)
             <-> In h acc \/ (In h hrefs /\ kept h = true))
  /\ (NoDup acc -> NoDup (fold_left add_link hrefs acc))
  /\ hd_error (fold_left add_link hrefs acc)
     = match acc with
       | [] => find kept hrefs
       | x :: _ => Some x
       end.
Proof.
  revert acc. induction hrefs as [| h0 hrefs IH]; intros acc; cbn [fold_left].
  - split; [| split].
    + intros h. cbn [In]. tauto.
    + auto.
    + destruct acc; reflexivity.
  - destruct (IH (add_link acc h0)) as (Hin & Hnd & Hhd).
    split; [| split].
    + intros h. rewrite Hin, add_link_In. cbn [In]. split.
      * intros [[H | [-> H]] | [H1 H2]]; auto.
      * intros [H | [[<- | H1] H2]]; auto.
    + intros Hn. apply Hnd, add_link_NoDup, Hn.
    + rewrite Hhd. cbn [find].
      destruct acc as [| x acc].
      * unfold add_link, kept. cbn [mem existsb negb andb].
        destruct (looks_like_event h0); cbn [andb]; [| reflexivity].
        destruct (contains (lit "discord") h0); reflexivity.
      * unfold add_link.
        destruct (looks_like_event h0); [| reflexivity].
        destruct (negb (mem h0 (x :: acc)) && negb (contains (lit "discord") h0));
          reflexivity.
Qed.

Lemma kept_iff (h : str) :
  kept h = true
  <-> (occurs (lit "/live/") h \/ occurs (lit "/stream/") h
       \/ exists c, In c h /\ is_decimal c = true)
      /\ ~ occurs (lit "discord") h.
Proof.
  unfold kept. rewrite andb_true_iff, looks_like_event_iff, negb_true_iff.
  pose proof (contains_iff (lit "discord") h) as Hd.
  destruct (contains (lit "discord") h); split; intros [H1 H2];
    (split; [exact H1 |]).
  - discriminate H2.
  - exfalso. apply H2, Hd. reflexivity.
  - intros Ho. apply Hd in Ho. discriminate Ho.
  - reflexivity.
Qed.

Lemma out_all_gets (web : str -> res Page) (lines : list (list shown))
    (k : Prog unit) :
  gets (fst (run web (out_all lines k))) = gets (fst (run web k)).
Proof.
  induction lines as [| line lines IH]; [reflexivity |].
  cbn [out_all run]. destruct (run web (out_all lines k)) as [t r].
  cbn [fst gets flat_map app] in *. exact IH.
Qed.

Lemma target_event_http (first : str) :
  startswith (lit "http") (target_event_of first) = true.
Proof.
  unfold target_event_of.
  destruct (startswith (lit "http") first) eqn:Hs; cbn [negb];
    [exact Hs | reflexivity].
Qed.

End ScrapeFacts.

(** X12.  The links that the loop of [main] keeps are exactly the
    [href] values of the page that include [/live/] or [/stream/] or
    have a decimal digit, and that do not include [discord]. *)
Theorem event_links_members (hrefs : list Py.str) (h : Py.str) :
  In h (Scrape.event_links_of hrefs)
  <-> In h hrefs
      /\ (Text.occurs (Py.lit "/live/") h \/ Text.occurs (Py.lit "/stream/") h
          \/ exists c, In c h /\ Py.is_decimal c = true)
      /\ ~ Text.occurs (Py.lit "discord") h.
Proof.
  unfold Scrape.event_links_of.
  destruct (links_fold hrefs []) as (Hin & _ & _).
  rewrite Hin, kept_iff. cbn [In]. tauto.
Qed.

(** X13.  No link is kept twice, and the first kept link, which is the
    one [main] goes on with, is the first [href] of the page that
    qualifies. *)
Theorem event_links_distinct_first (hrefs : list Py.str) :
  NoDup (Scrape.event_links_of hrefs)
  /\ hd_error (Scrape.event_links_of hrefs) = find Scrape.kept hrefs.
Proof.
  unfold Scrape.event_links_of.
  destruct (links_fold hrefs []) as (_ & Hnd & Hhd).
  split; [apply Hnd; constructor | exact Hhd].
Qed.

(** X14.  [main] of [scrape.py] fetches the [/live] page and then, when
    that page has a link that qualifies, the page of the first such
    link and nothing else; the address of that second page always
    starts with [http]: the link itself, or the link behind
    [https://streamwest.cc]. *)
Theorem main_fetches (web : Py.str -> Py.res Scrape.Page) :
  Scrape.gets (fst (Scrape.run web Scrape.main))
  = Py.lit "https://streamwest.cc/live"
    :: match web (Py.lit "https://streamwest.cc/live") with
       | Py.Ok soup =>
           match find Scrape.kept (Scrape.anchors soup) with
           | Some first =>
               [if Text.startswith (Py.lit "http") first then first
                else Py.lit "https://streamwest.cc" ++ first]
           | None => []
           end
       | Py.Raise _ => []
       end.
Proof.
  unfold Scrape.main. cbn [Scrape.run].
  destruct (web (Py.lit "https://streamwest.cc/live")) as [soup | e];
    [| reflexivity].
  destruct (links_fold (Scrape.anchors soup) []) as (_ & _ & Hhd).
  fold (Scrape.event_links_of (Scrape.anchors soup)) in Hhd.
  rewrite <- Hhd.
  destruct (Scrape.event_links_of (Scrape.anchors soup)) as [| first others];
    [reflexivity |].
  cbn [hd_error Scrape.run].
  assert (Hpage : forall e, Scrape.gets (fst (Scrape.run web (Scrape.show_event_page e))) = []).
  { intros [esoup | x]; [| reflexivity].
    unfold Scrape.show_event_page. cbn [Scrape.run].
    pose proof (out_all_gets web
                  (map (fun src => [Scrape.PText (Py.lit "Iframe src: "); Scrape.POpt src])
                     (Scrape.iframes esoup))
                  (Scrape.out_all (flat_map Scrape.script_lines (Scrape.scripts esoup))
                     (Scrape.Stop tt))) as H1.
    pose proof (out_all_gets web
                  (flat_map Scrape.script_lines (Scrape.scripts esoup))
                  (Scrape.Stop tt)) as H2.
    destruct (Scrape.run web (Scrape.out_all (map _ (Scrape.iframes esoup)) _))
      as [t r].
    cbn [fst Scrape.gets flat_map app] in *. rewrite H1, H2. reflexivity. }
  specialize (Hpage (web (Scrape.target_event_of first))).
  destruct (Scrape.run web (Scrape.show_event_page _)) as [t r].
  cbn [fst Scrape.gets flat_map app] in *. rewrite Hpage.
  unfold Scrape.target_event_of.
  destruct (Text.startswith (Py.lit "http") first); reflexivity.
Qed.

(** ** [scraper.py]: the crawl *)

Section CrawlFacts.
Import Py Requests Text Crawler.

Lemma run_bind {A B : Type} (w : World) (m : Crawl A) (f : A -> Crawl B) :
  run w (bind m f)
  = match run w m with
    | (t, Ok a) => let (t', r) := run w (f a) in (t ++ t', r)
    | (t, Raise e) => (t, Raise e)
    end.
Proof.
  induction m as [a | e | line k IH | k IH | u k IH | rq k IH];
    cbn [bind run].
  - destruct (run w (f a)). reflexivity.
  - reflexivity.
  - rewrite IH. destruct (run w k) as [t [a | e]]; [| reflexivity].
    destruct (run w (f a)). reflexivity.
  - rewrite IH. destruct (run w (k (live w))) as [t [a | e]]; [| reflexivity].
    destruct (run w (f a)). reflexivity.
  - rewrite IH. destruct (run w (k (browser w u))) as [t [a | e]]; [| reflexivity].
    destruct (run w (f a)). reflexivity.
  - rewrite IH. destruct (run w (k (net w rq))) as [t [a | e]]; [| reflexivity].
    destruct (run w (f a)). reflexivity.
Qed.

Lemma run_call {A : Type} (w : World) (m : Net A) :
  run w (call m)
  = (map of_event (fst (Requests.run (net w) m)),
     snd (Requests.run (net w) m)).
Proof.
  induction m as [a | e | rq k IH | line k IH]; cbn [call run Requests.run].
  - reflexivity.
  - reflexivity.
  - rewrite IH. destruct (Requests.run (net w) (k (net w rq))). reflexivity.
  - rewrite IH. destruct (Requests.run (net w) k). reflexivity.
Qed.

Lemma visits_app (t t' : list action) : visits (t ++ t') = visits t ++ visits t'.
Proof. unfold visits. apply flat_map_app. Qed.

Lemma fetches_app (t t' : list action) :
  fetches (t ++ t') = fetches t ++ fetches t'.
Proof. unfold fetches. apply flat_map_app. Qed.

Lemma visits_of_events (t : list Requests.event) : visits (map of_event t) = [].
Proof.
  induction t as [| e t IH]; [reflexivity |]. destruct e; cbn; exact IH.
Qed.

Lemma fetches_of_events (t : list Requests.event) :
  fetches (map of_event t) = posts t.
Proof.
  induction t as [| e t IH]; [reflexivity |].
  destruct e; cbn; [f_equal |]; exact IH.
Qed.

Lemma first_embed_Some (srcs : list str) (u : str) :
  first_embed srcs = Some u ->
  In u srcs /\ u <> []
  /\ (occurs (lit "embed") u \/ occurs (lit "stream") u).
Proof.
  unfold first_embed. intros H. apply find_some in H. destruct H as [Hin H].
  apply andb_true_iff in H. destruct H as [Hn Hc].
  apply orb_true_iff in Hc. rewrite !contains_iff in Hc.
  split; [exact Hin |]. split; [| exact Hc].
  destruct u; [discriminate Hn | discriminate].
Qed.

(** The requests of one call of [get_stream_url], seen from the crawl. *)
Lemma stream_call_trace (w : World) (u : str) :
  visits (map of_event (fst (Requests.run (net w) (Scraper.get_stream_url u)))) = []
  /\ (List.length (fetches (map of_event
                     (fst (Requests.run (net w) (Scraper.get_stream_url u))))) <= 1)%nat
  /\ Forall (fun rq => req_url rq = Scraper.EMBED_API)
       (fetches (map of_event
                   (fst (Requests.run (net w) (Scraper.get_stream_url u))))).
Proof.
  rewrite visits_of_events, fetches_of_events.
  split; [reflexivity |].
  destruct (get_stream_url_posts (net w) u) as [-> | [body ->]].
  - split; [cbn; lia | constructor].
  - split; [cbn; lia |]. constructor; [reflexivity | constructor].
Qed.

Lemma loop_spec_step (w : World) (ev : Event) (rest : list Event)
    (acc : list Result) (r1 : Result) (t0 : list action) :
  entry_of w ev = Ok r1 ->
  visits t0 = [full_url_of (href ev)] ->
  (List.length (fetches t0) <= 1)%nat ->
  Forall (fun rq => req_url rq = Scraper.EMBED_API) (fetches t0) ->
  run w (scrape_loop (ev :: rest) acc)
  = (let (t, r) := run w (scrape_loop rest (acc ++ [r1])) in (t0 ++ t, r)) ->
  loop_spec w rest (acc ++ [r1]) ->
  loop_spec w (ev :: rest) acc.
Proof.
  intros He Hv Hf Hu Hrun [IHr IHt]. unfold loop_spec. rewrite Hrun.
  cbn [entries_of]. rewrite He. cbn [Py.bind].
  destruct (run w (scrape_loop rest (acc ++ [r1]))) as [t r].
  cbn [fst snd] in *. split.
  - rewrite IHr. destruct (entries_of w rest) as [rs |]; cbn [Py.bind];
      [rewrite <- app_assoc |]; reflexivity.
  - intros rs Hrs.
    destruct (entries_of w rest) as [rs' |]; [| discriminate Hrs].
    destruct (IHt rs' eq_refl) as (Hv' & Hf' & Hu').
    rewrite visits_app, fetches_app, Hv, Hv', length_app.
    split; [reflexivity |]. split; [cbn [List.length]; lia |].
    apply Forall_app. split; assumption.
Qed.

Lemma run_scrape_loop (w : World) (events : list Event) (acc : list Result) :
  loop_spec w events acc.
Proof.
  revert acc. induction events as [| ev rest IH]; intros acc.
  - unfold loop_spec. cbn. rewrite app_nil_r. split; [reflexivity |].
    intros _ _. repeat split; [lia | constructor].
  - destruct (browser w (full_url_of (href ev))) as [srcs | text] eqn:Hb.
    + destruct (first_embed srcs) as [u |] eqn:Hfe.
      * destruct (first_embed_Some _ _ Hfe) as (_ & Hne & _).
        destruct u as [| c u]; [contradiction |].
        destruct (Requests.run (net w) (Scraper.get_stream_url (c :: u)))
          as [ts rs] eqn:Hs.
        destruct (stream_call_trace w (c :: u)) as (Sv & Sf & Su).
        rewrite Hs in Sv, Sf, Su. cbn [fst] in Sv, Sf, Su.
        destruct rs as [d | e].
        -- eapply (loop_spec_step w ev rest acc _
                     ([Said _; Visited (full_url_of (href ev))]
                      ++ map of_event ts ++ [Said _])).
           ++ unfold entry_of. rewrite Hb, Hfe, Hs. reflexivity.
           ++ rewrite (visits_app [_; _]), visits_app, Sv. reflexivity.
           ++ rewrite (fetches_app [_; _]), fetches_app, !length_app. cbn. lia.
           ++ rewrite (fetches_app [_; _]), fetches_app.
              apply Forall_app. split; [constructor |].
              apply Forall_app. split; [exact Su | constructor].
           ++ cbn [scrape_loop run]. rewrite run_bind. unfold get_embed_url.
              cbn [run]. rewrite Hb. cbn [run]. rewrite Hfe.
              cbn [truthy nonempty negb]. rewrite run_bind, run_call, Hs.
              cbn [fst snd run].
              destruct (run w (scrape_loop rest _)) as [t r].
              cbn [app]. rewrite <- app_assoc. reflexivity.
           ++ apply IH.
        -- unfold loop_spec. cbn [scrape_loop run entries_of].
           rewrite run_bind. unfold get_embed_url. cbn [run]. rewrite Hb.
           cbn [run]. rewrite Hfe. cbn [truthy nonempty negb].
           rewrite run_bind, run_call, Hs. cbn [fst snd].
           unfold entry_of. rewrite Hb, Hfe, Hs. cbn [snd Py.bind].
           split; [reflexivity | discriminate].
      * eapply (loop_spec_step w ev rest acc _
                  [Said _; Visited (full_url_of (href ev)); Said _]).
        -- unfold entry_of. rewrite Hb, Hfe. reflexivity.
        -- reflexivity.
        -- cbn. lia.
        -- constructor.
        -- cbn [scrape_loop run]. rewrite run_bind. unfold get_embed_url.
           cbn [run]. rewrite Hb. cbn [run]. rewrite Hfe.
           cbn [truthy negb run].
           destruct (run w (scrape_loop rest _)) as [t r]. reflexivity.
        -- apply IH.
    + eapply (loop_spec_step w ev rest acc _
                [Said _; Visited (full_url_of (href ev)); Said _; Said _]).
      * unfold entry_of. rewrite Hb. reflexivity.
      * reflexivity.
      * cbn. lia.
      * constructor.
      * cbn [scrape_loop run]. rewrite run_bind. unfold get_embed_url.
        cbn [run]. rewrite Hb. cbn [run truthy negb].
        destruct (run w (scrape_loop rest _)) as [t r]. reflexivity.
      * apply IH.
Qed.

Lemma find_first {A : Type} (p : A -> bool) (l : list A) (x : A) :
  find p l = Some x ->
  exists before after,
    l = before ++ x :: after /\ p x = true
    /\ forall y, In y before -> p y = false.
Proof.
  induction l as [| a l IH]; cbn [find]; [discriminate |].
  destruct (p a) eqn:Ha.
  - intros [= <-]. exists [], l. repeat split; [exact Ha | intros y []].
  - intros H. destruct (IH H) as (before & after & -> & Hx & Hb).
    exists (a :: before), after. repeat split; [exact Hx |].
    intros y [<- | Hy]; [exact Ha | apply Hb, Hy].
Qed.

Lemma get_stream_url_shapes (net : Request -> outcome) (u : str) (d : dict str) :
  snd (Requests.run net (Scraper.get_stream_url u)) = Ok d ->
  (d = [] /\ Scraper.parse_embed_url u = None)
  \/ (exists text, d = [("error"%string, text)])
  \/ (exists goat lb m3u8,
        m3u8 <> []
        /\ d = [("goat"%string, goat); ("lb"%string, lb);
                ("m3u8"%string, m3u8)]).
Proof.
  unfold Scraper.get_stream_url.
  destruct (Scraper.parse_embed_url u) as [[[server slug] stream_num] |].
  - destruct (Scraper.build_fetch_body server slug stream_num) as [body | e];
      [| discriminate].
    cbn [Requests.run].
    destruct (on_outcome_cases server slug stream_num
                (net (mkRequest Scraper.EMBED_API body (Scraper.fetch_headers u) 15)))
      as [(e & _ & ->) | [(text & ->) | (resp & token & body_str & _ & _ & _ & _ & _ & ->)]];
      cbn [Requests.run snd].
    + discriminate.
    + intros H. apply Ok_inj in H. subst d. right. left. eauto.
    + intros H. apply Ok_inj in H. subst d. right. right.
      eexists _, _, _. split; [| reflexivity]. discriminate.
  - cbn. intros H. apply Ok_inj in H. subst d. left. split; reflexivity.
Qed.

Lemma entry_of_Ok (w : World) (ev : Event) (r : Result) :
  entry_of w ev = Ok r ->
  event r = ev
  /\ streamwest_url r = full_url_of (href ev)
  /\ entry_kind r.
Proof.
  unfold entry_of.
  destruct (browser w (full_url_of (href ev))) as [srcs | text].
  - destruct (first_embed srcs) as [u |] eqn:Hfe.
    + destruct (first_embed_Some _ _ Hfe) as (_ & _ & Hoc).
      destruct (snd (Requests.run (net w) (Scraper.get_stream_url u)))
        as [d | e] eqn:Hs; [| discriminate].
      intros H. apply Ok_inj in H. subst r. cbn.
      split; [reflexivity |]. split; [reflexivity |].
      right. exists u. split; [reflexivity |]. split; [exact Hoc |].
      destruct (get_stream_url_shapes _ _ _ Hs)
        as [[-> Hp] | [(text & ->) | (goat & lb & m3u8 & Hm & ->)]]; cbn.
      * right. right. auto.
      * right. left. eauto.
      * left. exists m3u8. auto.
    + intros H. apply Ok_inj in H. subst r. cbn.
      split; [reflexivity |]. split; [reflexivity |]. left. auto.
  - intros H. apply Ok_inj in H. subst r. cbn.
    split; [reflexivity |]. split; [reflexivity |]. left. auto.
Qed.

Lemma entries_of_Ok (w : World) (events : list Event) (rs : list Result) :
  entries_of w events = Ok rs ->
  map event rs = events
  /\ Forall (fun r => streamwest_url r = full_url_of (href (event r))) rs
  /\ Forall entry_kind rs.
Proof.
  revert rs. induction events as [| ev rest IH]; intros rs; cbn [entries_of].
  - intros H. apply Ok_inj in H. subst rs. repeat split; constructor.
  - intros H. apply bind_Ok in H. destruct H as (r & Hr & H).
    apply bind_Ok in H. destruct H as (rs' & Hrs & H).
    apply Ok_inj in H. subst rs.
    destruct (entry_of_Ok _ _ _ Hr) as (He & Hu & Hk).
    destruct (IH _ Hrs) as (Hm & Hus & Hks).
    cbn [map]. rewrite He, Hm. split; [reflexivity |].
    split; constructor; try assumption. rewrite He. exact Hu.
Qed.

Lemma entries_of_raises (w : World) (events : list Event) :
  (exists rs, entries_of w events = Ok rs)
  <-> Forall (fun ev => stream_raises w ev = false) events.
Proof.
  assert (Hone : forall ev, (exists r, entry_of w ev = Ok r)
                            <-> stream_raises w ev = false).
  { intros ev. unfold entry_of, stream_raises.
    destruct (browser w (full_url_of (href ev))); [| split; eauto].
    destruct (first_embed srcs); [| split; eauto].
    destruct (snd (Requests.run (net w) (Scraper.get_stream_url s)));
      split; eauto; [intros [r H]; discriminate H | discriminate]. }
  induction events as [| ev rest IH]; cbn [entries_of].
  - split; [constructor | eauto].
  - split.
    + intros [rs H]. apply bind_Ok in H. destruct H as (r & Hr & H).
      apply bind_Ok in H. destruct H as (rs' & Hrs & _).
      constructor; [apply Hone; eauto | apply IH; eauto].
    + intros H. inversion H as [| ? ? H1 H2]. subst.
      apply Hone in H1. destruct H1 as [r ->].
      apply IH in H2. destruct H2 as [rs ->]. cbn. eauto.
Qed.

Lemma run_scrape_all (w : World) (events : list Event) :
  live w = Ok events ->
  snd (run w scrape_all_events) = entries_of w events
  /\ (forall rs, entries_of w events = Ok rs ->
        visits (fst (run w scrape_all_events))
        = map (fun ev => full_url_of (href ev)) events
        /\ (List.length (fetches (fst (run w scrape_all_events)))
            <= List.length events)%nat
        /\ Forall (fun rq => req_url rq = Scraper.EMBED_API)
             (fetches (fst (run w scrape_all_events)))).
Proof.
  intros Hl. unfold scrape_all_events. cbn [run]. rewrite Hl. cbn [run].
  destruct (run_scrape_loop w events []) as [Hr Ht].
  destruct (run w (scrape_loop events [])) as [t r]. cbn [fst snd] in *.
  split.
  - rewrite Hr. destruct (entries_of w events); reflexivity.
  - exact Ht.
Qed.

Lemma group_get_add (k key : str) (e : Result) (groups : list (str * list Result)) :
  group_get k (group_add key e groups)
  = if str_eqb k key then
      Some (match group_get key groups with
            | Some es => es ++ [e]
            | None => [e]
            end)
    else group_get k groups.
Proof.
  induction groups as [| [k0 es0] rest IH]; cbn [group_add group_get].
  - destruct (str_eqb key k) eqn:E1, (str_eqb k key) eqn:E2; try reflexivity.
    + apply str_eqb_eq in E1. subst. rewrite (proj2 (str_eqb_eq k k) eq_refl) in E2.
      discriminate.
    + apply str_eqb_eq in E2. subst. rewrite (proj2 (str_eqb_eq key key) eq_refl) in E1.
      discriminate.
  - destruct (str_eqb k0 key) eqn:E0; cbn [group_get].
    + apply str_eqb_eq in E0. subst k0.
      destruct (str_eqb key k) eqn:E1, (str_eqb k key) eqn:E2; try reflexivity.
      * apply str_eqb_eq in E1. subst.
        rewrite (proj2 (str_eqb_eq k k) eq_refl) in E2. discriminate.
      * apply str_eqb_eq in E2. subst.
        rewrite (proj2 (str_eqb_eq key key) eq_refl) in E1. discriminate.
    + destruct (str_eqb k0 k) eqn:E1.
      * apply str_eqb_eq in E1. subst k0. rewrite E0. reflexivity.
      * exact IH.
Qed.

Lemma group_add_keys (key k : str) (e : Result) (groups : list (str * list Result)) :
  In k (map fst (group_add key e groups)) <-> In k (map fst groups) \/ k = key.
Proof.
  induction groups as [| [k0 es0] rest IH]; cbn [group_add map fst In].
  - split; [intros [<- | []]; auto | intros [[] | ->]; auto].
  - destruct (str_eqb k0 key) eqn:E0; cbn [map fst In].
    + apply str_eqb_eq in E0. subst k0. split; [tauto |].
      intros [H | ->]; auto.
    + rewrite IH. tauto.
Qed.

Lemma group_add_NoDup (key : str) (e : Result) (groups : list (str * list Result)) :
  NoDup (map fst groups) -> NoDup (map fst (group_add key e groups)).
Proof.
  induction groups as [| [k0 es0] rest IH]; cbn [group_add map fst].
  - intros _. constructor; [intros [] | constructor].
  - intros H. inversion H as [| ? ? Hk Hrest]. subst.
    destruct (str_eqb k0 key) eqn:E0; cbn [map fst].
    + constructor; assumption.
    + constructor; [| apply IH, Hrest].
      rewrite group_add_keys. intros [Hin | ->]; [exact (Hk Hin) |].
      rewrite (proj2 (str_eqb_eq key key) eq_refl) in E0. discriminate.
Qed.

Lemma by_sport_fold (rest seen : list Result) (groups : list (str * list Result)) :
  NoDup (map fst groups) ->
  (forall k, group_get k groups
             = match filter (fun e => str_eqb k (sport (event e))) seen with
               | [] => None
               | es => Some es
               end) ->
  NoDup (map fst (fold_left (fun g e => group_add (sport (event e)) e g)
                    rest groups))
  /\ (forall k, group_get k (fold_left (fun g e => group_add (sport (event e)) e g)
                               rest groups)
                = match filter (fun e => str_eqb k (sport (event e)))
                          (seen ++ rest) with
                  | [] => None
                  | es => Some es
                  end).
Proof.
  revert seen groups. induction rest as [| e rest IH]; intros seen groups Hn Hg;
    cbn [fold_left].
  - rewrite app_nil_r. auto.
  - replace (seen ++ e :: rest) with ((seen ++ [e]) ++ rest)
      by (rewrite <- app_assoc; reflexivity).
    apply IH; [apply group_add_NoDup, Hn |].
    intros k. rewrite group_get_add, filter_app. cbn [filter].
    destruct (str_eqb k (sport (event e))) eqn:Ek.
    + apply str_eqb_eq in Ek. subst k. rewrite Hg.
      destruct (filter _ seen) as [| x es]; reflexivity.
    + rewrite app_nil_r. apply Hg.
Qed.

End CrawlFacts.

(** X15.  The embed URL that [get_embed_url] finds is the [src] of the
    first [iframe] of the event page that includes [embed] or
    [stream]; it is not empty, and the page visited is the event link,
    behind [https://streamwest.cc] when the link starts with [/]. *)
Theorem embed_url_is_first_match (w : Crawler.World) (event_href u : Py.str)
    (t : list Crawler.action) :
  Crawler.run w (Crawler.get_embed_url event_href) = (t, Py.Ok (Some u)) ->
  t = [Crawler.Visited
         (if Text.startswith (Py.lit "/") event_href
          then Py.lit "https://streamwest.cc" ++ event_href
          else event_href)]
  /\ exists before after,
       Crawler.browser w
         (if Text.startswith (Py.lit "/") event_href
          then Py.lit "https://streamwest.cc" ++ event_href
          else event_href)
       = Crawler.Loaded (before ++ u :: after)
       /\ u <> []
       /\ (Text.occurs (Py.lit "embed") u \/ Text.occurs (Py.lit "stream") u)
       /\ forall s, In s before ->
            ~ Text.occurs (Py.lit "embed") s /\ ~ Text.occurs (Py.lit "stream") s.
Proof.
  unfold Crawler.get_embed_url. cbn [Crawler.run].
  change (if Text.startswith (Py.lit "/") event_href
          then Py.lit "https://streamwest.cc" ++ event_href
          else event_href) with (Crawler.full_url_of event_href).
  destruct (Crawler.browser w (Crawler.full_url_of event_href))
    as [srcs | text] eqn:Hbr; cbn [Crawler.run]; [| discriminate].
  intros H. injection H as <- Hf. split; [reflexivity |].
  destruct (first_embed_Some _ _ Hf) as (_ & Hne & Hoc).
  unfold Crawler.first_embed in Hf. apply find_first in Hf.
  destruct Hf as (before & after & -> & _ & Hb).
  exists before, after.
  split; [exact Hbr |]. split; [exact Hne |]. split; [exact Hoc |].
  intros s Hs. specialize (Hb s Hs). cbn beta in Hb.
  destruct s as [| c s]; [split; intros (pre & post & E); destruct pre; discriminate E |].
  cbn [Text.nonempty andb] in Hb. apply orb_false_iff in Hb.
  destruct Hb as [H1 H2]. split; intros Ho; apply contains_iff in Ho; congruence.
Qed.

Lemma embed_url_is_first_match_witness :
  [Crawler.Visited (Py.lit "https://streamwest.cc/watch/a")]
  = [Crawler.Visited
       (if Text.startswith (Py.lit "/") (Py.lit "/watch/a")
        then Py.lit "https://streamwest.cc" ++ Py.lit "/watch/a"
        else Py.lit "/watch/a")]
  /\ exists before after,
       Crawler.browser CrawlSample.world
         (if Text.startswith (Py.lit "/") (Py.lit "/watch/a")
          then Py.lit "https://streamwest.cc" ++ Py.lit "/watch/a"
          else Py.lit "/watch/a")
       = Crawler.Loaded (before ++ Sample.url :: after)
       /\ Sample.url <> []
       /\ (Text.occurs (Py.lit "embed") Sample.url
           \/ Text.occurs (Py.lit "stream") Sample.url)
       /\ forall s, In s before ->
            ~ Text.occurs (Py.lit "embed") s /\ ~ Text.occurs (Py.lit "stream") s.
Proof.
  apply (embed_url_is_first_match CrawlSample.world (Py.lit "/watch/a")).
  reflexivity.
Defined.

(** X16.  When [scrape_all_events] returns, its list has one entry per
    event of the listing, in the order of the listing, each with the
    event as it was listed and with the address of its page. *)
Theorem crawl_keeps_events (w : Crawler.World) (events : list Crawler.Event)
    (results : list Crawler.Result) :
  Crawler.live w = Py.Ok events ->
  snd (Crawler.run w Crawler.scrape_all_events) = Py.Ok results ->
  map Crawler.event results = events
  /\ Forall (fun r =>
               Crawler.streamwest_url r
               = if Text.startswith (Py.lit "/") (Crawler.href (Crawler.event r))
                 then Py.lit "https://streamwest.cc" ++ Crawler.href (Crawler.event r)
                 else Crawler.href (Crawler.event r))
       results.
Proof.
  intros Hl Hr. destruct (run_scrape_all w events Hl) as [Hs _].
  rewrite Hs in Hr. destruct (entries_of_Ok _ _ _ Hr) as (Hm & Hu & _).
  split; assumption.
Qed.

Lemma crawl_keeps_events_witness :
  map Crawler.event
    [Crawler.mkResult CrawlSample.match_a (Py.lit "https://streamwest.cc/watch/a")
       (Some Sample.url)
       (Some (Py.lit "https://lb10.strmd.top/secure/abc123/echo/stream/slug/1/playlist.m3u8"))
       None;
     Crawler.mkResult CrawlSample.match_b (Py.lit "https://mirror.example/b")
       None None (Some (Py.lit "No embed found"));
     Crawler.mkResult CrawlSample.match_c (Py.lit "https://streamwest.cc/watch/c")
       (Some (Py.lit "https://player.example/stream/9")) None None]
  = CrawlSample.events
  /\ Forall (fun r =>
               Crawler.streamwest_url r
               = if Text.startswith (Py.lit "/") (Crawler.href (Crawler.event r))
                 then Py.lit "https://streamwest.cc" ++ Crawler.href (Crawler.event r)
                 else Crawler.href (Crawler.event r))
       [Crawler.mkResult CrawlSample.match_a (Py.lit "https://streamwest.cc/watch/a")
          (Some Sample.url)
          (Some (Py.lit "https://lb10.strmd.top/secure/abc123/echo/stream/slug/1/playlist.m3u8"))
          None;
        Crawler.mkResult CrawlSample.match_b (Py.lit "https://mirror.example/b")
          None None (Some (Py.lit "No embed found"));
        Crawler.mkResult CrawlSample.match_c (Py.lit "https://streamwest.cc/watch/c")
          (Some (Py.lit "https://player.example/stream/9")) None None].
Proof.
  apply (crawl_keeps_events CrawlSample.world CrawlSample.events); reflexivity.
Defined.

(** X17.  Every entry that [scrape_all_events] returns is of one of
    four kinds: no embed URL, no stream and the error [No embed found];
    an embed URL and a non-empty stream URL without error; an embed URL
    and an error text without stream; or an embed URL that
    [parse_embed_url] rejects, with neither stream nor error.  The
    embed URL always includes [embed] or [stream]. *)
Theorem crawl_entry_kinds (w : Crawler.World) (events : list Crawler.Event)
    (results : list Crawler.Result) :
  Crawler.live w = Py.Ok events ->
  snd (Crawler.run w Crawler.scrape_all_events) = Py.Ok results ->
  Forall (fun r =>
    (Crawler.embed_url r = None /\ Crawler.stream r = None
     /\ Crawler.error r = Some (Py.lit "No embed found"))
    \/ (exists u,
          Crawler.embed_url r = Some u
          /\ (Text.occurs (Py.lit "embed") u \/ Text.occurs (Py.lit "stream") u)
          /\ ((exists m, Crawler.stream r = Some m /\ m <> []
                         /\ Crawler.error r = None)
              \/ (Crawler.stream r = None
                  /\ exists text, Crawler.error r = Some text)
              \/ (Crawler.stream r = None /\ Crawler.error r = None
                  /\ Scraper.parse_embed_url u = None))))
    results.
Proof.
  intros Hl Hr. destruct (run_scrape_all w events Hl) as [Hs _].
  rewrite Hs in Hr. destruct (entries_of_Ok _ _ _ Hr) as (_ & _ & Hk).
  exact Hk.
Qed.

Lemma crawl_entry_kinds_witness :
  Forall (fun r =>
    (Crawler.embed_url r = None /\ Crawler.stream r = None
     /\ Crawler.error r = Some (Py.lit "No embed found"))
    \/ (exists u,
          Crawler.embed_url r = Some u
          /\ (Text.occurs (Py.lit "embed") u \/ Text.occurs (Py.lit "stream") u)
          /\ ((exists m, Crawler.stream r = Some m /\ m <> []
                         /\ Crawler.error r = None)
              \/ (Crawler.stream r = None
                  /\ exists text, Crawler.error r = Some text)
              \/ (Crawler.stream r = None /\ Crawler.error r = None
                  /\ Scraper.parse_embed_url u = None))))
    [Crawler.mkResult CrawlSample.match_a (Py.lit "https://streamwest.cc/watch/a")
       (Some Sample.url)
       (Some (Py.lit "https://lb10.strmd.top/secure/abc123/echo/stream/slug/1/playlist.m3u8"))
       None;
     Crawler.mkResult CrawlSample.match_b (Py.lit "https://mirror.example/b")
       None None (Some (Py.lit "No embed found"));
     Crawler.mkResult CrawlSample.match_c (Py.lit "https://streamwest.cc/watch/c")
       (Some (Py.lit "https://player.example/stream/9")) None None].
Proof.
  apply (crawl_entry_kinds CrawlSample.world CrawlSample.events); reflexivity.
Defined.

(** X18.  When [scrape_all_events] returns, it has visited the page of
    every event once, in the order of the listing, and has posted at
    most one request per event, each of them to the fetch endpoint. *)
Theorem crawl_visits_and_posts (w : Crawler.World) (events : list Crawler.Event)
    (results : list Crawler.Result) :
  Crawler.live w = Py.Ok events ->
  snd (Crawler.run w Crawler.scrape_all_events) = Py.Ok results ->
  Crawler.visits (fst (Crawler.run w Crawler.scrape_all_events))
  = map (fun ev =>
           if Text.startswith (Py.lit "/") (Crawler.href ev)
           then Py.lit "https://streamwest.cc" ++ Crawler.href ev
           else Crawler.href ev)
        events
  /\ (List.length (Crawler.fetches (fst (Crawler.run w Crawler.scrape_all_events)))
      <= List.length events)%nat
  /\ Forall (fun rq => Requests.req_url rq = Py.lit "https://embedsporty.top/fetch")
       (Crawler.fetches (fst (Crawler.run w Crawler.scrape_all_events))).
Proof.
  intros Hl Hr. destruct (run_scrape_all w events Hl) as [Hs Ht].
  rewrite Hs in Hr. exact (Ht results Hr).
Qed.

Lemma crawl_visits_and_posts_witness :
  Crawler.visits (fst (Crawler.run CrawlSample.world Crawler.scrape_all_events))
  = map (fun ev =>
           if Text.startswith (Py.lit "/") (Crawler.href ev)
           then Py.lit "https://streamwest.cc" ++ Crawler.href ev
           else Crawler.href ev)
        CrawlSample.events
  /\ (List.length
        (Crawler.fetches (fst (Crawler.run CrawlSample.world Crawler.scrape_all_events)))
      <= List.length CrawlSample.events)%nat
  /\ Forall (fun rq => Requests.req_url rq = Py.lit "https://embedsporty.top/fetch")
       (Crawler.fetches (fst (Crawler.run CrawlSample.world Crawler.scrape_all_events))).
Proof.
  eapply (crawl_visits_and_posts CrawlSample.world CrawlSample.events);
    reflexivity.
Defined.

(** X19.  [scrape_all_events] returns results exactly when no call of
    [get_stream_url] raises: one event whose embed URL makes the call
    raise (a component of more than 255 bytes, say) makes the whole
    crawl raise, and the entries of the other events are not
    returned. *)
Theorem crawl_returns_iff_no_raise (w : Crawler.World)
    (events : list Crawler.Event) :
  Crawler.live w = Py.Ok events ->
  (exists results, snd (Crawler.run w Crawler.scrape_all_events) = Py.Ok results)
  <-> Forall (fun ev => Crawler.stream_raises w ev = false) events.
Proof.
  intros Hl. destruct (run_scrape_all w events Hl) as [Hs _].
  rewrite Hs. apply entries_of_raises.
Qed.

Lemma crawl_returns_iff_no_raise_witness :
  (exists results,
     snd (Crawler.run
            (Crawler.mkWorld (Py.Ok CrawlSample.events)
               (fun _ => Crawler.Loaded
                           [Py.lit "https://host/embed/echo/" ++ repeat 97 256
                            ++ Py.lit "/1"])
               (Sample.always Sample.ok_200))
            Crawler.scrape_all_events) = Py.Ok results)
  <-> Forall (fun ev =>
                Crawler.stream_raises
                  (Crawler.mkWorld (Py.Ok CrawlSample.events)
                     (fun _ => Crawler.Loaded
                                 [Py.lit "https://host/embed/echo/" ++ repeat 97 256
                                  ++ Py.lit "/1"])
                     (Sample.always Sample.ok_200)) ev = false)
       CrawlSample.events.
Proof.
  apply (crawl_returns_iff_no_raise
           (Crawler.mkWorld (Py.Ok CrawlSample.events)
              (fun _ => Crawler.Loaded
                          [Py.lit "https://host/embed/echo/" ++ repeat 97 256
                           ++ Py.lit "/1"])
              (Sample.always Sample.ok_200))
           CrawlSample.events).
  reflexivity.
Defined.

Example crawl_raises_on_overlong_slug :
  snd (Crawler.run
         (Crawler.mkWorld (Py.Ok CrawlSample.events)
            (fun _ => Crawler.Loaded
                        [Py.lit "https://host/embed/echo/" ++ repeat 97 256
                         ++ Py.lit "/1"])
            (Sample.always Sample.ok_200))
         Crawler.scrape_all_events)
  = Py.Raise Py.ValueError.
Proof. reflexivity. Qed.

(** X20.  The groups of the report: every sport is a key once, and the
    group of a sport holds the entries of that sport, all of them and
    in the order of the results; a sport without entries has no
    group. *)
Theorem by_sport_groups (events : list Crawler.Result) :
  NoDup (map fst (Crawler.by_sport_of events))
  /\ forall sport,
       Crawler.group_get sport (Crawler.by_sport_of events)
       = match filter (fun e => Text.str_eqb sport
                                  (Crawler.sport (Crawler.event e))) events with
         | [] => None
         | e :: es => Some (e :: es)
         end.
Proof.
  unfold Crawler.by_sport_of.
  destruct (by_sport_fold events [] [] ltac:(constructor) ltac:(reflexivity))
    as [Hn Hg].
  split; [exact Hn |]. intros k. rewrite Hg. reflexivity.
Qed.

Section Grouping.
Import Py Text Crawler.

Lemma group_add_perm (key : str) (e : Result) (groups : list (str * list Result)) :
  Permutation (flat_map snd (group_add key e groups))
              (flat_map snd groups ++ [e]).
Proof.
  induction groups as [| [k0 es0] rest IH]; cbn [group_add flat_map snd].
  - reflexivity.
  - destruct (str_eqb k0 key); cbn [flat_map snd].
    + rewrite <- !app_assoc. apply Permutation_app_head, Permutation_app_comm.
    + rewrite <- app_assoc. apply Permutation_app_head, IH.
Qed.

Lemma by_sport_perm (rest : list Result) (groups : list (str * list Result)) :
  Permutation
    (flat_map snd (fold_left (fun g e => group_add (sport (event e)) e g)
                     rest groups))
    (flat_map snd groups ++ rest).
Proof.
  revert groups. induction rest as [| e rest IH]; intros groups; cbn [fold_left].
  - rewrite app_nil_r. reflexivity.
  - rewrite IH, group_add_perm, <- app_assoc. reflexivity.
Qed.

End Grouping.

(** X21.  The groups of the report hold, together, every entry of the
    results exactly once. *)
Theorem by_sport_covers (events : list Crawler.Result) :
  Permutation (flat_map snd (Crawler.by_sport_of events)) events.
Proof. unfold Crawler.by_sport_of. apply (by_sport_perm events []). Qed.

(** X22.  Two references with the same request body are the same
    reference: when [build_fetch_body] returns the same bytes for two
    triples, the triples are equal. *)
Theorem fetch_body_injective (server slug stream_num server' slug' stream_num' : Py.str)
    (body : Py.bytes) :
  Scraper.build_fetch_body server slug stream_num = Py.Ok body ->
  Scraper.build_fetch_body server' slug' stream_num' = Py.Ok body ->
  server = server' /\ slug = slug' /\ stream_num = stream_num'.
Proof.
  intros H1 H2. apply build_then_decode in H1, H2.
  rewrite H1 in H2. injection H2 as -> -> ->. repeat split.
Qed.

Lemma fetch_body_injective_witness :
  Py.lit "echo" = Py.lit "echo" /\ Py.lit "slug" = Py.lit "slug"
  /\ Py.lit "1" = Py.lit "1".
Proof.
  apply (fetch_body_injective (Py.lit "echo") (Py.lit "slug") (Py.lit "1")
           (Py.lit "echo") (Py.lit "slug") (Py.lit "1") Sample.body);
    reflexivity.
Defined.

(** X23.  A request body that [build_fetch_body] returns is a sequence
    of octets, of at least 6 and at most 771 of them: three tag bytes,
    three length bytes and values of at most 255 bytes each. *)
Theorem fetch_body_size (server slug stream_num : Py.str) (body : Py.bytes) :
  Scraper.build_fetch_body server slug stream_num = Py.Ok body ->
  Py.is_bytes body = true /\ 6 <= Py.len body <= 771.
Proof.
  intros Hb. destruct (build_fetch_body_fits _ _ _ _ Hb) as (F1 & F2 & F3).
  destruct (fits_encoded server F1) as (v1 & E1 & L1).
  destruct (fits_encoded slug F2) as (v2 & E2 & L2).
  destruct (fits_encoded stream_num F3) as (v3 & E3 & L3).
  rewrite (build_fetch_body_eq _ _ _ v1 v2 v3 E1 E2 E3) in Hb.
  pose proof L1 as L1'. pose proof L2 as L2'. pose proof L3 as L3'.
  apply Z.leb_le in L1', L2', L3'. rewrite L1', L2', L3' in Hb.
  cbn [andb] in Hb. apply Ok_inj in Hb. subst body.
  pose proof (len_nonneg v1). pose proof (len_nonneg v2).
  pose proof (len_nonneg v3).
  apply encode_utf8_octets in E1, E2, E3.
  split.
  - unfold Py.is_bytes, Wire.segment in *.
    rewrite !forallb_app, E1, E2, E3. cbn [forallb].
    rewrite !tag_of_arith. unfold Py.is_octet.
    repeat match goal with
      | |- context [?a <=? ?b] => rewrite (proj2 (Z.leb_le a b)) by lia
      | |- context [?a <? ?b] => rewrite (proj2 (Z.ltb_lt a b)) by lia
      end.
    reflexivity.
  - unfold Wire.segment. rewrite !len_app.
    change (Py.len [Wire.tag_of 1; Py.len v1]) with 2.
    change (Py.len [Wire.tag_of 2; Py.len v2]) with 2.
    change (Py.len [Wire.tag_of 3; Py.len v3]) with 2.
    lia.
Qed.

Lemma fetch_body_size_witness :
  Py.is_bytes Sample.body = true /\ 6 <= Py.len Sample.body <= 771.
Proof.
  apply (fetch_body_size (Py.lit "echo") (Py.lit "slug") (Py.lit "1")).
  reflexivity.
Defined.
